(** * Media-monitoring report pipeline: [analyser_json] of main.py

    A shallow embedding of the report endpoint and of the part of the
    Python runtime and of the dataframe library it calls, followed by the
    properties of the aggregates it computes.

    Conventions.
    - A Python exception is a [Raise]; every call of the endpoint body runs
      in the error monad [result], so an exception raised on one line skips
      every later line, exactly as in the source (which has no [try]).
    - A cell of a dataframe is a dynamically typed [value].
    - A [datetime] is its number of seconds since 1970-01-01T00:00:00Z and a
      [date] its number of days since 1970-01-01; both numberings are
      order-isomorphic to the calendar, which is all the pipeline uses.
    - Figures cannot be embedded: the three renderers, the table printer
      and Unicode lowercasing are fields of [Libs]. [fig_to_base64] is
      embedded over a [Drawing], which holds the plots and the PNG file of
      a figure.
    - [Counter.most_common] keeps the elements that tie in the order met,
      as Python fixes it. The sort of line 105 is the quicksort of the
      dataframe library, which fixes no order for the rows that tie: it is
      a field of [Libs], and what is proved of it holds of every sort by
      decreasing key. [value_counts] is run with a stable sort; no property
      below depends on the order in which it leaves the values that tie.

    The file has four parts: the embedding and the vocabulary of the
    statements; the lemmas, from lists up to the normal form of the
    endpoint body on a batch; the claims, in their order; further
    properties of [fig_to_base64], of the endpoint and of [get_rapport]. *)

From Stdlib Require Import List String Ascii ZArith NArith Lia Bool Arith PeanoNat.
From Stdlib Require Import Permutation Sorted DecimalString.
Import ListNotations.

Local Open Scope list_scope.

(* ------------------------------------------------------------------ *)
(** ** Exceptions and the error monad *)

Inductive exn : Type :=
| KeyError (key : string)
| ValueError (msg : string)
| OverflowError (msg : string)
| OSError (msg : string)
| AttributeError (msg : string)
| TypeError (msg : string).

Inductive result (A : Type) : Type :=
| Ok (a : A)
| Raise (e : exn).

Arguments Ok {A} a.
Arguments Raise {A} e.

Definition bind {A B : Type} (c : result A) (k : A -> result B) : result B :=
  match c with
  | Ok a => k a
  | Raise e => Raise e
  end.

Declare Scope py_scope.
Delimit Scope py_scope with py.
Notation "x <- c ;; k" := (bind c (fun x => k))
  (at level 100, c at next level, right associativity) : py_scope.
Local Open Scope py_scope.

Fixpoint mapM {A B : Type} (f : A -> result B) (l : list A) : result (list B) :=
  match l with
  | [] => Ok []
  | x :: xs => y <- f x ;; ys <- mapM f xs ;; Ok (y :: ys)
  end.

(* ------------------------------------------------------------------ *)
(** ** Values, the request model (lines 34-44) *)

Inductive value : Type :=
| VStr (s : string)
| VInt (z : Z)
| VList (l : list string)
| VDatetime (secs : Z)
| VDate (days : Z)
| VNaN.

Definition value_eq_dec (a b : value) : {a = b} + {a <> b}.
Proof.
  decide equality;
    first [ apply string_dec | apply Z.eq_dec | apply (list_eq_dec string_dec) ].
Defined.

Definition Series : Type := list value.
Definition dict : Type := list (string * value).

Record Article : Type := mkArticle {
  author : string;
  content_excerpt : string;
  published_at : Z;
  sentiment_label : string;
  title : string;
  source_link : string;
  keywords : list string
}.

(** [JSONData.data] *)
Definition JSONData : Type := list Article.

(** [article.dict()] *)
Definition Article_dict (a : Article) : dict :=
  [ ("author"%string, VStr (author a));
    ("content_excerpt"%string, VStr (content_excerpt a));
    ("published_at"%string, VInt (published_at a));
    ("sentiment_label"%string, VStr (sentiment_label a));
    ("title"%string, VStr (title a));
    ("source_link"%string, VStr (source_link a));
    ("keywords"%string, VList (keywords a)) ].

Fixpoint dict_get (k : string) (d : dict) : value :=
  match d with
  | [] => VNaN
  | (k', v) :: d' => if String.eqb k k' then v else dict_get k d'
  end.

(* ------------------------------------------------------------------ *)
(** ** Sorting and counting, shared by the runtime and the dataframe *)

Section Sorting.
Context {A : Type} (leb : A -> A -> bool).

(** [x] goes in front of the first element it is [leb] to, so elements
    that tie keep the order in which they were met (a stable sort). *)
Fixpoint insert (x : A) (l : list A) : list A :=
  match l with
  | [] => [x]
  | y :: l' => if leb x y then x :: y :: l' else y :: insert x l'
  end.

Fixpoint isort (l : list A) : list A :=
  match l with
  | [] => []
  | x :: l' => insert x (isort l')
  end.
End Sorting.

(** Descending by count, ties in the order met: [sorted(.., reverse=True)]. *)
Definition by_count_desc {A : Type} (a b : A * nat) : bool := snd b <=? snd a.

Section Tally.
Context {A : Type} (eq_dec : forall a b : A, {a = b} + {a <> b}).

(** [c[k] = c.get(k, 0) + 1]; a new key goes last (insertion order). *)
Fixpoint incr (k : A) (c : list (A * nat)) : list (A * nat) :=
  match c with
  | [] => [(k, 1)]
  | (k', n) :: c' => if eq_dec k k' then (k', S n) :: c' else (k', n) :: incr k c'
  end.

Definition tally (l : list A) : list (A * nat) :=
  fold_left (fun c k => incr k c) l [].

(** Position of the first occurrence ([length l] when there is none). *)
Fixpoint first_index (k : A) (l : list A) : nat :=
  match l with
  | [] => 0
  | x :: l' => if eq_dec k x then 0 else S (first_index k l')
  end.
End Tally.

(** [collections.Counter(iterable)] and [Counter.most_common(n)] *)
Definition Counter (l : list string) : list (string * nat) := tally string_dec l.

Definition most_common (n : nat) (c : list (string * nat)) : list (string * nat) :=
  firstn n (isort by_count_desc c).

(* ------------------------------------------------------------------ *)
(** ** [datetime.utcfromtimestamp] (CPython, 64-bit glibc) *)

(** 0001-01-01T00:00:00Z and 9999-12-31T23:59:59Z *)
Definition MIN_TS : Z := (-62135596800)%Z.
Definition MAX_TS : Z := 253402300799%Z.
(** what [gmtime_r] accepts: the year must fit a C [int] *)
Definition GMTIME_MIN : Z := (-67768040609740800)%Z.
Definition GMTIME_MAX : Z := 67767976233532799%Z.

Definition valid_epoch (ts : Z) : bool := ((MIN_TS <=? ts) && (ts <=? MAX_TS))%Z.

Definition utcfromtimestamp (ts : value) : result value :=
  match ts with
  | VInt z =>
      if valid_epoch z then Ok (VDatetime z)
      else if ((z <? - 2 ^ 63) || (2 ^ 63 <=? z))%Z then
        Raise (OverflowError "timestamp out of range for platform time_t")
      else if ((z <? GMTIME_MIN) || (GMTIME_MAX <? z))%Z then
        Raise (OSError "Value too large for defined data type")
      else Raise (ValueError "year is out of range")
  | _ => Raise (TypeError "an integer is required")
  end.

(* ------------------------------------------------------------------ *)
(** ** The dataframe library, as far as the endpoint uses it *)

(** A frame is kept row by row: the row label (its index entry) and one cell
    per column name. *)
Record DataFrame : Type := mkFrame {
  col_names : list string;
  rows : list (value * list value)
}.

Definition len (df : DataFrame) : nat := List.length (rows df).

Definition RangeIndex (n : nat) : list value :=
  map (fun i => VInt (Z.of_nat i)) (seq 0 n).

(** [pd.DataFrame(records)]: the columns are the keys of the records, so a
    frame built from no record has no column at all. Every record here comes
    from [Article_dict], hence all of them carry the keys of the first. *)
Definition DataFrame_of (records : list dict) : DataFrame :=
  let names := match records with [] => [] | d :: _ => map fst d end in
  {| col_names := names;
     rows := combine (RangeIndex (List.length records))
                     (map (fun d => map (fun k => dict_get k d) names) records) |}.

Fixpoint position (c : string) (names : list string) : option nat :=
  match names with
  | [] => None
  | n :: ns => if String.eqb c n then Some 0 else option_map S (position c ns)
  end.

(** [df[c]] *)
Definition getitem (df : DataFrame) (c : string) : result Series :=
  match position c (col_names df) with
  | Some j => Ok (map (fun r => nth j (snd r) VNaN) (rows df))
  | None => Raise (KeyError c)
  end.

Fixpoint set_nth {A : Type} (j : nat) (v : A) (l : list A) : list A :=
  match j, l with
  | _, [] => []
  | 0, _ :: t => v :: t
  | S j', h :: t => h :: set_nth j' v t
  end.

Fixpoint remove_nth {A : Type} (j : nat) (l : list A) : list A :=
  match j, l with
  | _, [] => []
  | 0, _ :: t => t
  | S j', h :: t => h :: remove_nth j' t
  end.

(** [df[c] = s]: an existing column is overwritten in place, a new one is
    appended on the right. *)
Definition setitem (df : DataFrame) (c : string) (s : Series) : DataFrame :=
  match position c (col_names df) with
  | Some j =>
      {| col_names := col_names df;
         rows := map (fun rv => (fst (fst rv), set_nth j (snd rv) (snd (fst rv))))
                     (combine (rows df) s) |}
  | None =>
      {| col_names := col_names df ++ [c];
         rows := map (fun rv => (fst (fst rv), snd (fst rv) ++ [snd rv]))
                     (combine (rows df) s) |}
  end.

Fixpoint lookup {B : Type} (k : string) (m : list (string * B)) : option B :=
  match m with
  | [] => None
  | (k', v) :: m' => if String.eqb k k' then Some v else lookup k m'
  end.

(** [df.rename(columns=m)] *)
Definition rename (m : list (string * string)) (df : DataFrame) : DataFrame :=
  {| col_names := map (fun n => match lookup n m with Some n' => n' | None => n end)
                      (col_names df);
     rows := rows df |}.

(** [(s == v).sum()] *)
Definition eq_scalar (s : Series) (v : value) : list bool :=
  map (fun x => if value_eq_dec x v then true else false) s.

Definition sum_true (l : list bool) : nat := List.length (filter (fun b => b) l).

(** A column of instants is stored as 64-bit nanosecond counts (the dtype
    datetime64[ns]); when one of them does not fit, the column stays a column
    of plain objects and has no [.dt] accessor. *)
Definition NS_MAX : Z := 9223372036%Z.

Definition is_datetime64 (v : value) : bool :=
  match v with
  | VDatetime s => ((- NS_MAX <=? s) && (s <=? NS_MAX))%Z
  | _ => false
  end.

Definition date_of (v : value) : value :=
  match v with
  | VDatetime s => VDate (s / 86400)%Z
  | _ => VNaN
  end.

(** [s.dt.date] *)
Definition dt_date (s : Series) : result Series :=
  if forallb is_datetime64 s then Ok (map date_of s)
  else Raise (AttributeError "Can only use .dt accessor with datetimelike values").

(** The order used when a frame sorts labels: strings by code point (on
    UTF-8 bytes this is the byte order), numbers and instants by value.
    Labels of different kinds never meet in one column here. *)
Definition value_leb (a b : value) : bool :=
  match a, b with
  | VStr s, VStr t => String.leb s t
  | VInt x, VInt y => (x <=? y)%Z
  | VDatetime x, VDatetime y => (x <=? y)%Z
  | VDate x, VDate y => (x <=? y)%Z
  | _, _ => true
  end.

Definition by_label (a b : value * nat) : bool := value_leb (fst a) (fst b).

(** [s.value_counts()]: one entry per distinct value, largest count first
    (values that tie stay in the order met); [.sort_index()] reorders the
    entries by value. *)
Definition value_counts (s : Series) : list (value * nat) :=
  isort by_count_desc (tally value_eq_dec s).

Definition sort_index (c : list (value * nat)) : list (value * nat) :=
  isort by_label c.

Definition pair_eq_dec (p q : value * value) : {p = q} + {p <> q}.
Proof. decide equality; apply value_eq_dec. Defined.

Arguments value_eq_dec : simpl never.
Arguments pair_eq_dec : simpl never.

Definition label (v : value) : string :=
  match v with VStr s => s | _ => EmptyString end.

(** [df.groupby([k1, k2]).size().unstack(fill_value=0)]: one row per value
    of the first key, one column per value of the second, both sorted, each
    cell the number of rows of the frame with that pair of keys. *)
Definition groupby_size_unstack (k1 k2 : Series) : DataFrame :=
  let pairs := combine k1 k2 in
  let idx := isort value_leb (nodup value_eq_dec k1) in
  let cols := isort value_leb (nodup value_eq_dec k2) in
  {| col_names := map label cols;
     rows := map (fun a =>
                    (a, map (fun s => VInt (Z.of_nat (count_occ pair_eq_dec pairs (a, s))))
                            cols))
                 idx |}.

Definition as_int (v : value) : Z :=
  match v with VInt z => z | _ => 0%Z end.

(** [df.sum(axis=1)] *)
Definition sum_axis1 (df : DataFrame) : Series :=
  map (fun r => VInt (fold_right Z.add 0%Z (map as_int (snd r)))) (rows df).

(** [l[idx]] for an array of positions: the elements of [l] at the
    positions [idx], in the order of [idx] *)
Definition take {A : Type} (idx : list nat) (l : list A) : list A :=
  flat_map (fun i => match nth_error l i with Some x => [x] | None => [] end) idx.

(** [df.sort_values(by=c, ascending=False)]: the rows at the positions that
    [argsort] returns for the values of the column [c], which it lists from
    the largest value to the smallest. The sort is of the default kind,
    quicksort, which is not stable: in which order the rows that tie come
    out is the library's matter, so [argsort] is taken from [Libs]. *)
Definition sort_values_desc (argsort : list Z -> list nat) (df : DataFrame) (c : string)
  : result DataFrame :=
  match position c (col_names df) with
  | Some j =>
      let keys := map (fun r => as_int (nth j (snd r) VNaN)) (rows df) in
      Ok {| col_names := col_names df; rows := take (argsort keys) (rows df) |}
  | None => Raise (KeyError c)
  end.

(** [df.head(n)], [df.drop(columns=c)], [df.iloc[::-1]] *)
Definition head (n : nat) (df : DataFrame) : DataFrame :=
  {| col_names := col_names df; rows := firstn n (rows df) |}.

Definition drop_column (df : DataFrame) (c : string) : result DataFrame :=
  match position c (col_names df) with
  | Some j =>
      Ok {| col_names := remove_nth j (col_names df);
            rows := map (fun r => (fst r, remove_nth j (snd r))) (rows df) |}
  | None => Raise (KeyError c)
  end.

Definition iloc_reversed (df : DataFrame) : DataFrame :=
  {| col_names := col_names df; rows := rev (rows df) |}.

(* ------------------------------------------------------------------ *)
(** ** What is not embedded *)

Record Libs : Type := mkLibs {
  (** [str.lower] (Unicode case mapping) *)
  str_lower : string -> string;
  (** lines 67-73: the line chart of the daily counts, as base64 PNG *)
  plot_mentions : list (value * nat) -> result string;
  (** lines 80-88: the word cloud of the joined keywords, as base64 PNG;
      the generator raises when it finds no word to draw *)
  plot_wordcloud : string -> result string;
  (** lines 108-114: the stacked horizontal bars, as base64 PNG *)
  plot_barh : DataFrame -> result string;
  (** lines 120-123: the two-column table of authors and counts, as HTML *)
  to_html : list (value * nat) -> string;
  (** line 105: the positions of the keys, from the largest key to the
      smallest, as the sort of the frame library orders them
      ([kind="quicksort"], [ascending=False]) *)
  argsort_desc : list Z -> list nat
}.

(** What every kind of sort guarantees: each position comes once, and the
    keys run from the largest to the smallest. Nothing is said of the
    order of the positions whose keys tie. *)
Definition sorts_desc (argsort : list Z -> list nat) : Prop :=
  forall keys,
    Permutation (argsort keys) (seq 0 (List.length keys))
    /\ StronglySorted (fun i j => (nth j keys 0 <= nth i keys 0)%Z) (argsort keys).

(* ------------------------------------------------------------------ *)
(** ** The endpoint: [analyser_json] (lines 46-186) *)

Record Kpis : Type := mkKpis {
  total_mentions : nat;
  kpi_positive : nat;
  kpi_negative : nat;
  kpi_neutral : nat
}.

Definition dq : string := String "034"%char EmptyString.
Definition nl : string := String "010"%char EmptyString.

(** how an f-string prints an [int] *)
Definition str_of_nat (n : nat) : string := NilZero.string_of_uint (Nat.to_uint n).

(** [sep.join(l)] *)
Definition join (sep : string) (l : list string) : string := String.concat sep l.

(** lines 94-98; [top_keywords[:-1]] is [removelast], [top_keywords[-1]] is
    [last] (the list is not empty where the sentence is built). *)
Definition summary_sentence (top_keywords : list string) : string :=
  String.concat EmptyString
    [ "Les mots-clés les plus récurrents dans la couverture médiatique sont ";
      join ", " (removelast top_keywords); " et "; last top_keywords EmptyString; ". ";
      "Cela reflète les thématiques principales abordées dans les articles analysés." ]%string.

(** lines 127-178, one line of the template per line; the f-string is the
    concatenation of these pieces *)
Definition html_pieces (kpis : Kpis)
    (evolution_mentions_b64 keywords_freq_b64 summary_text
     sentiments_auteurs_b64 top_table : string) : list string :=
  [
    "<!DOCTYPE html>"; nl;
    "<html lang='fr'>"; nl;
    "<head>"; nl;
    "    <meta charset='UTF-8'>"; nl;
    "    <title>📊 Rapport d'Analyse Automatisée de Veille Médiatique</title>"; nl;
    "    <style>"; nl;
    "        body { font-family: Arial, sans-serif; padding: 40px; max-width: 900px; margin: auto; background-color: white; }"; nl;
    "        h1, h2 { text-align: center; color: #023047; }"; nl;
    "        .centered-text { max-width: 800px; margin: 0 auto 40px; text-align: center; font-size: 16px; line-height: 1.6; }"; nl;
    "        .styled-table { border-collapse: collapse; margin: 25px auto; font-size: 16px; width: 80%; border: 1px solid #dddddd; }"; nl;
    "        .styled-table th, .styled-table td { padding: 10px 15px; text-align: left; border: 1px solid #dddddd; }"; nl;
    "        .styled-table thead th { background-color: white; font-weight: bold; }"; nl;
    "        .image-block { text-align: center; margin: 30px 0; }"; nl;
    "    </style>"; nl;
    "</head>"; nl;
    "<body>"; nl;
    "    <h1>📊 Rapport d'Analyse Automatisée de Veille Médiatique</h1>"; nl;
    "    <div class="; dq; "centered-text"; dq; ">"; nl;
    "        <p>"; nl;
    "            Ce rapport fournit une analyse approfondie des articles collectés depuis la plateforme Lumenfeed. "; nl;
    "            Il vise à offrir une vision claire et synthétique de la couverture médiatique d’un sujet donné, "; nl;
    "            en mettant en évidence les volumes de publication, les auteurs les plus actifs, et les principaux mots-clés abordés. "; nl;
    "        </p>"; nl;
    "    </div>"; nl;
    "    <h2>Indicateurs Clés</h2>"; nl;
    "    <div style="; dq; "display: flex; justify-content: space-around; margin: 20px 0;"; dq; ">"; nl;
    "        <div style="; dq; "text-align: center;"; dq; "><h3>"; str_of_nat (total_mentions kpis); "</h3><p>Mentions totales</p></div>"; nl;
    "        <div style="; dq; "text-align: center;"; dq; "><h3>"; str_of_nat (kpi_positive kpis); "</h3><p>Positives</p></div>"; nl;
    "        <div style="; dq; "text-align: center;"; dq; "><h3>"; str_of_nat (kpi_negative kpis); "</h3><p>Négatives</p></div>"; nl;
    "        <div style="; dq; "text-align: center;"; dq; "><h3>"; str_of_nat (kpi_neutral kpis); "</h3><p>Neutres</p></div>"; nl;
    "    </div>"; nl;
    "    <div class="; dq; "image-block"; dq; ">"; nl;
    "        <h2>Évolution des mentions</h2>"; nl;
    "        <img src="; dq; "data:image/png;base64,"; evolution_mentions_b64; dq; " width="; dq; "700"; dq; "/>"; nl;
    "    </div>"; nl;
    "    <div class="; dq; "image-block"; dq; ">"; nl;
    "        <h2>Mots-clés les plus fréquents</h2>"; nl;
    "        <img src="; dq; "data:image/png;base64,"; keywords_freq_b64; dq; " width="; dq; "600"; dq; "/>"; nl;
    "    </div>"; nl;
    "    <h2>Résumé automatique</h2>"; nl;
    "    <div class="; dq; "centered-text"; dq; ">"; nl;
    "        <p>"; summary_text; "</p>"; nl;
    "    </div>"; nl;
    "    <div class="; dq; "image-block"; dq; ">"; nl;
    "        <h2>Répartition des sentiments par auteur</h2>"; nl;
    "        <img src="; dq; "data:image/png;base64,"; sentiments_auteurs_b64; dq; " width="; dq; "700"; dq; "/>"; nl;
    "    </div>"; nl;
    "    <h2>Top 5 Auteurs les plus actifs</h2>"; nl;
    "    "; top_table; nl;
    "</body>"; nl;
    "</html>"; nl
  ]%string.

Definition html_template (kpis : Kpis)
    (evolution_mentions_b64 keywords_freq_b64 summary_text
     sentiments_auteurs_b64 top_table : string) : string :=
  String.concat EmptyString
    (html_pieces kpis evolution_mentions_b64 keywords_freq_b64 summary_text
                 sentiments_auteurs_b64 top_table).

(** The body of the endpoint, section by section as the source comments
    divide it. Each section returns the local variables it binds. *)

(** lines 57-62 *)
Definition kpis_block (df : DataFrame) : result Kpis :=
  s_pos <- getitem df "sentimentHumanReadable" ;;
  s_neg <- getitem df "sentimentHumanReadable" ;;
  s_neu <- getitem df "sentimentHumanReadable" ;;
  Ok {| total_mentions := len df;
        kpi_positive := sum_true (eq_scalar s_pos (VStr "positive"));
        kpi_negative := sum_true (eq_scalar s_neg (VStr "negative"));
        kpi_neutral := sum_true (eq_scalar s_neu (VStr "neutral")) |}.

(** lines 64-73, "Évolution des mentions" *)
Record Evolution : Type := mkEvolution {
  ev_df : DataFrame;
  mentions_over_time : list (value * nat);
  evolution_mentions_b64 : string
}.

Definition evolution_block (libs : Libs) (df : DataFrame) : result Evolution :=
  (* 65 *)
  created_col <- getitem df "articleCreatedDate" ;;
  period <- dt_date created_col ;;
  let df := setitem df "Period" period in
  (* 66 *)
  period_col <- getitem df "Period" ;;
  let mentions_over_time := sort_index (value_counts period_col) in
  (* 67-73 *)
  evolution_mentions_b64 <- plot_mentions libs mentions_over_time ;;
  Ok (mkEvolution df mentions_over_time evolution_mentions_b64).

(** lines 75-100, "WordCloud des mots-clés + résumé automatique".
    [counter] and [top_keywords] are bound only when there is a keyword;
    they are recorded as empty otherwise. *)
Record KeywordBlock : Type := mkKeywordBlock {
  all_keywords : list string;
  keywords_freq_b64 : string;
  counter : list (string * nat);
  top_keywords : list string;
  summary_text : string
}.

(** lines 77-100 *)
Definition keyword_summary (libs : Libs) (all_keywords : list string)
  : result KeywordBlock :=
  (* 77 *)
  let summary_text := EmptyString in
  match all_keywords with
  | _ :: _ =>
      (* 80-88 *)
      let keywords_text := join " " all_keywords in
      keywords_freq_b64 <- plot_wordcloud libs keywords_text ;;
      (* 91-98 *)
      let counter := Counter all_keywords in
      let top_keywords := map fst (most_common 6 counter) in
      let summary_text :=
        match top_keywords with
        | _ :: _ => summary_sentence top_keywords
        | [] => summary_text
        end in
      Ok (mkKeywordBlock all_keywords keywords_freq_b64 counter top_keywords summary_text)
  | [] =>
      (* 100 *)
      let keywords_freq_b64 := EmptyString in
      Ok (mkKeywordBlock all_keywords keywords_freq_b64 [] [] summary_text)
  end.

Definition keyword_block (libs : Libs) (df : DataFrame) : result KeywordBlock :=
  (* 76 *)
  keywords_col <- getitem df "keywords" ;;
  let all_keywords :=
    flat_map (fun sublist =>
                match sublist with
                | VList l => map (str_lower libs) l
                | _ => []
                end) keywords_col in
  keyword_summary libs all_keywords.

(** lines 102-114, "Sentiments par auteur" *)
Record AuthorSentiment : Type := mkAuthorSentiment {
  (** [author_sentiment] as line 103 builds it, and after line 104 *)
  author_sentiment_103 : DataFrame;
  author_sentiment : DataFrame;
  top_authors_sentiment : DataFrame;
  sentiments_auteurs_b64 : string
}.

(** lines 103-114, once the two grouping columns are read *)
Definition author_sentiment_chart (libs : Libs) (authors sentiments : Series)
  : result AuthorSentiment :=
  (* 103 *)
  let author_sentiment_103 := groupby_size_unstack authors sentiments in
  (* 104 *)
  let author_sentiment :=
    setitem author_sentiment_103 "Total" (sum_axis1 author_sentiment_103) in
  (* 105 *)
  sorted <- sort_values_desc (argsort_desc libs) author_sentiment "Total" ;;
  top_authors_sentiment <- drop_column (head 10 sorted) "Total" ;;
  (* 106 *)
  let top_authors_sentiment := iloc_reversed top_authors_sentiment in
  (* 108-114 *)
  sentiments_auteurs_b64 <- plot_barh libs top_authors_sentiment ;;
  Ok (mkAuthorSentiment author_sentiment_103 author_sentiment
                        top_authors_sentiment sentiments_auteurs_b64).

Definition author_sentiment_block (libs : Libs) (df : DataFrame) : result AuthorSentiment :=
  (* 103: the grouping reads both key columns *)
  authors <- getitem df "authorName" ;;
  sentiments <- getitem df "sentimentHumanReadable" ;;
  author_sentiment_chart libs authors sentiments.

(** lines 116-124, "Tableau top auteurs": the rows that are printed, and
    the printed table *)
Record TopTable : Type := mkTopTable {
  top_rows : list (value * nat);
  top_table : string
}.

Definition top_table_block (libs : Libs) (df : DataFrame) : result TopTable :=
  author_col <- getitem df "authorName" ;;
  let top_rows := firstn 5 (value_counts author_col) in
  Ok (mkTopTable top_rows (to_html libs top_rows)).

(** The local variables of [analyser_json] when it reaches line 178. *)
Record Locals : Type := mkLocals {
  l_kpis : Kpis;
  l_evolution : Evolution;
  l_keywords : KeywordBlock;
  l_authors : AuthorSentiment;
  l_top : TopTable;
  html_report : string
}.

(** lines 48-55: the frame of the batch, with the instant of publication
    and the two renamed columns *)
Definition normalise (payload : JSONData) : result DataFrame :=
  let raw_data := payload in
  let df := DataFrame_of (map Article_dict raw_data) in
  (* 51 *)
  published_at_col <- getitem df "published_at" ;;
  created <- mapM utcfromtimestamp published_at_col ;;
  let df := setitem df "articleCreatedDate" created in
  (* 52-55 *)
  let df := rename [ ("author", "authorName");
                     ("sentiment_label", "sentimentHumanReadable") ]%string df in
  Ok df.

(** lines 57-178: the sections in the order of the source, then the
    document *)
Definition analyse (libs : Libs) (df : DataFrame) : result Locals :=
  kpis <- kpis_block df ;;
  ev <- evolution_block libs df ;;
  let df := ev_df ev in
  kw <- keyword_block libs df ;;
  au <- author_sentiment_block libs df ;;
  tt <- top_table_block libs df ;;
  let html_report :=
    html_template kpis (evolution_mentions_b64 ev) (keywords_freq_b64 kw)
                  (summary_text kw) (sentiments_auteurs_b64 au) (top_table tt) in
  Ok (mkLocals kpis ev kw au tt html_report).

Definition analyser_locals (libs : Libs) (payload : JSONData) : result Locals :=
  df <- normalise payload ;;
  analyse libs df.

(** The files the process can see: path to content. *)
Definition FileSystem : Type := string -> option string.

Definition write_file (path content : string) (fs : FileSystem) : FileSystem :=
  fun p => if String.eqb p path then Some content else fs p.

Definition REPORT_PATH : string := "static/rapport_veille.html".

(** What the endpoint returns (lines 183-186). *)
Record Response : Type := mkResponse {
  resp_kpis : Kpis;
  resp_html_report : string
}.

(** The whole endpoint: the body, then lines 179-186. An exception leaves the
    file system as it was and no response is built. *)
Definition analyser_json (libs : Libs) (payload : JSONData) (fs : FileSystem)
  : result Response * FileSystem :=
  match analyser_locals libs payload with
  | Ok L =>
      (Ok {| resp_kpis := l_kpis L; resp_html_report := html_report L |},
       write_file REPORT_PATH (html_report L) fs)
  | Raise e => (Raise e, fs)
  end.

(** [get_rapport] (lines 188-190) serves the stored file, if there is one. *)
Definition get_rapport (fs : FileSystem) : option string := fs REPORT_PATH.

(* ------------------------------------------------------------------ *)
(** ** What the statements count and compare *)

Definition count_label (s : string) (p : JSONData) : nat :=
  List.length (filter (fun a => String.eqb (sentiment_label a) s) p).

Definition canonical_label (s : string) : Prop :=
  s = "positive"%string \/ s = "negative"%string \/ s = "neutral"%string.

(** Number of records published on day [d] (days since 1970-01-01, UTC). *)
Definition day_count (d : Z) (p : JSONData) : nat :=
  List.length (filter (fun a => (published_at a / 86400 =? d)%Z) p).

(** Number of records written by [x]. *)
Definition mentions (x : string) (p : JSONData) : nat :=
  List.length (filter (fun a => String.eqb (author a) x) p).

(** Number of records written by [x] and labelled [s]. *)
Definition cooccurrences (x s : string) (p : JSONData) : nat :=
  List.length
    (filter (fun a => String.eqb (author a) x && String.eqb (sentiment_label a) s) p).

Definition date_lt (a b : value) : Prop :=
  match a, b with
  | VDate x, VDate y => (x < y)%Z
  | _, _ => False
  end.

Section RanksBefore.
Context {A : Type} (eq_dec : forall a b : A, {a = b} + {a <> b}).

(** [k1] is ranked before [k2]: it occurs more often, or as often and it
    appears first. *)
Definition ranks_before (l : list A) (k1 k2 : A) : Prop :=
  count_occ eq_dec l k2 < count_occ eq_dec l k1
  \/ (count_occ eq_dec l k1 = count_occ eq_dec l k2
      /\ first_index eq_dec k1 l < first_index eq_dec k2 l).
End RanksBefore.

(** The instant fits the 64-bit nanosecond clock of the frame. *)
Definition storable (a : Article) : bool := is_datetime64 (VDatetime (published_at a)).



(* ------------------------------------------------------------------ *)
(** ** Frames built from a batch, and the body of the endpoint on them *)

(** The frame whose row for an article holds [cells a]. Every frame the
    endpoint builds from a valid batch has this shape. *)
Definition frame_of (names : list string) (cells : Article -> list value)
    (p : JSONData) : DataFrame :=
  {| col_names := names;
     rows := combine (RangeIndex (List.length p)) (map cells p) |}.

Definition cells7 (a : Article) : list value :=
  [ VStr (author a); VStr (content_excerpt a); VInt (published_at a);
    VStr (sentiment_label a); VStr (title a); VStr (source_link a);
    VList (keywords a) ].

(** The frame after line 55, and after line 65. *)
Definition frame55 (p : JSONData) : DataFrame :=
  frame_of
    [ "authorName"; "content_excerpt"; "published_at"; "sentimentHumanReadable";
      "title"; "source_link"; "keywords"; "articleCreatedDate" ]%string
    (fun a => cells7 a ++ [VDatetime (published_at a)]) p.

Definition frame65 (p : JSONData) : DataFrame :=
  frame_of
    [ "authorName"; "content_excerpt"; "published_at"; "sentimentHumanReadable";
      "title"; "source_link"; "keywords"; "articleCreatedDate"; "Period" ]%string
    (fun a => (cells7 a ++ [VDatetime (published_at a)])
                ++ [VDate (published_at a / 86400)%Z]) p.

Definition authors_of (p : JSONData) : Series := map (fun a => VStr (author a)) p.
Definition labels_of (p : JSONData) : Series := map (fun a => VStr (sentiment_label a)) p.
Definition periods_of (p : JSONData) : Series :=
  map (fun a => VDate (published_at a / 86400)%Z) p.
Definition keywords_of (libs : Libs) (p : JSONData) : list string :=
  flat_map (fun a => map (str_lower libs) (keywords a)) p.

Definition kpis_of (p : JSONData) : Kpis :=
  {| total_mentions := List.length p;
     kpi_positive := sum_true (eq_scalar (labels_of p) (VStr "positive"));
     kpi_negative := sum_true (eq_scalar (labels_of p) (VStr "negative"));
     kpi_neutral := sum_true (eq_scalar (labels_of p) (VStr "neutral")) |}.

Definition daily_series (p : JSONData) : list (value * nat) :=
  sort_index (value_counts (periods_of p)).

Definition NO_DT : exn :=
  AttributeError "Can only use .dt accessor with datetimelike values".

Definition ranking_of (libs : Libs) (p : JSONData) : TopTable :=
  let top_rows := firstn 5 (value_counts (authors_of p)) in
  mkTopTable top_rows (to_html libs top_rows).

(** The body on a batch whose instants are all storable: what is left to
    run is the three renderers and the table of authors. *)
Definition report_of (libs : Libs) (p : JSONData) : result Locals :=
  img <- plot_mentions libs (daily_series p) ;;
  kw <- keyword_summary libs (keywords_of libs p) ;;
  au <- author_sentiment_chart libs (authors_of p) (labels_of p) ;;
  let ev := mkEvolution (frame65 p) (daily_series p) img in
  let tt := ranking_of libs p in
  Ok (mkLocals (kpis_of p) ev kw au tt
        (html_template (kpis_of p) img (keywords_freq_b64 kw) (summary_text kw)
                       (sentiments_auteurs_b64 au) (top_table tt))).

(* ------------------------------------------------------------------ *)
(** ** The grouped table of the author section *)

(** The frame with one row per label of [idx], holding [cells a] in the row
    of [a]: the shape of every frame of the author section. *)
Definition table_of (names : list string) (cells : value -> list value)
    (idx : list value) : DataFrame :=
  {| col_names := names; rows := map (fun a => (a, cells a)) idx |}.

(** The sorted distinct values of a grouping key. *)
Definition group_keys (k : Series) : list value :=
  isort value_leb (nodup value_eq_dec k).

(** The cell of the grouped table for the keys [a] and [s]. *)
Definition group_cell (k1 k2 : Series) (a s : value) : value :=
  VInt (Z.of_nat (count_occ pair_eq_dec (combine k1 k2) (a, s))).

(** The column Total of line 104, read as line 105 sorts it: the number
    of occurrences of each value of the first key. *)
Definition author_totals (k1 : Series) : list Z :=
  map (fun a => Z.of_nat (count_occ value_eq_dec k1 a)) (group_keys k1).

Definition is_str (v : value) : Prop := exists s, v = VStr s.

(** The column names line 106 leaves: the labels of the batch, sorted,
    without the one called Total. *)
Definition chart_columns (p : JSONData) : list value :=
  match position "Total" (map label (group_keys (labels_of p))) with
  | Some j => remove_nth j (group_keys (labels_of p))
  | None => group_keys (labels_of p)
  end.

(** The row labels line 106 leaves: the first ten in the order of the
    sort of line 105, last first. *)
Definition chart_index (libs : Libs) (p : JSONData) : list value :=
  rev (firstn 10 (take (argsort_desc libs (author_totals (authors_of p)))
                       (group_keys (authors_of p)))).

Definition chart_table (libs : Libs) (p : JSONData) : DataFrame :=
  table_of (map label (chart_columns p))
           (fun a => map (group_cell (authors_of p) (labels_of p) a) (chart_columns p))
           (chart_index libs p).


(* ------------------------------------------------------------------ *)
(** ** Examples *)

Definition lower_char (c : ascii) : ascii :=
  let n := nat_of_ascii c in
  if (65 <=? n) && (n <=? 90) then ascii_of_nat (n + 32) else c.

Fixpoint lower_ascii (s : string) : string :=
  match s with
  | EmptyString => EmptyString
  | String c s' => String (lower_char c) (lower_ascii s')
  end.

(** One sort among those the library may run: the positions by decreasing
    key, those that tie in increasing order. *)
Definition stable_argsort_desc (keys : list Z) : list nat :=
  map snd (isort (fun a b => (fst b <=? fst a)%Z)
                 (combine keys (seq 0 (List.length keys)))).

(** Stand-ins for the libraries that are not embedded, to run the endpoint
    on examples: lowercasing of ASCII letters, renderers that return a
    fixed payload, and the sort above. *)
Definition stub_libs : Libs :=
  {| str_lower := lower_ascii;
     plot_mentions := fun _ => Ok "iVBORw0KGgoA"%string;
     plot_wordcloud := fun _ => Ok "iVBORw0KGgoB"%string;
     plot_barh := fun _ => Ok "iVBORw0KGgoC"%string;
     to_html := fun _ => "<table></table>"%string;
     argsort_desc := stable_argsort_desc |}.

Definition no_files : FileSystem := fun _ => None.

(** The batch of the specification's worked example (section 8). *)
Definition example_batch : JSONData :=
  [ mkArticle "Ana" "..." 1700000000 "positive" "t1" "https://a/1" ["AI"; "Policy"]%string;
    mkArticle "Bob" "..." 1700090000 "negative" "t2" "https://a/2" ["ai"]%string;
    mkArticle "Ana" "..." 1700000500 "positive" "t3" "https://a/3" [] ].

Definition single_keyword_batch : JSONData :=
  [ mkArticle "Ana" "..." 1700000000 "positive" "t1" "https://a/1" ["AI"]%string ].


(** A batch whose second record is stamped 10000-01-01T00:00:00Z. *)
Definition year_10000_batch : JSONData :=
  [ mkArticle "Ana" "..." 1700000000 "positive" "t1" "https://a/1" ["AI"]%string;
    mkArticle "Bob" "..." 253402300800 "neutral" "t2" "https://a/2" [] ].

(* ------------------------------------------------------------------ *)
(** ** [fig_to_base64] (lines 27-31) and the renderers built on it *)

(** A Python [bytes] object. *)
Definition bytes : Type := list Byte.byte.

(** [io.BytesIO]: the content and the position of the next read or write. *)
Record BytesIO : Type := mkBytesIO {
  getvalue : bytes;
  tell : nat
}.

(** [BytesIO()] *)
Definition BytesIO_new : BytesIO := mkBytesIO [] 0.

(** [buf.write(data)]: the data go at the position, over what is there (a
    gap before the position is filled with zero bytes), and the position
    moves past them. *)
Definition bio_write (buf : BytesIO) (data : bytes) : BytesIO :=
  let old := getvalue buf in
  let pos := tell buf in
  mkBytesIO (firstn pos old ++ repeat Byte.x00 (pos - List.length old)
               ++ data ++ skipn (pos + List.length data) old)
            (pos + List.length data).

(** [buf.seek(pos)] *)
Definition bio_seek (buf : BytesIO) (pos : nat) : BytesIO :=
  mkBytesIO (getvalue buf) pos.

(** [buf.read()]: everything from the position on; the position moves to
    the end. *)
Definition bio_read (buf : BytesIO) : bytes * BytesIO :=
  (skipn (tell buf) (getvalue buf),
   mkBytesIO (getvalue buf) (Nat.max (tell buf) (List.length (getvalue buf)))).

(** The alphabet of RFC 4648, section 4, and the padding character. *)
Definition B64_ALPHABET : string :=
  "ABCDEFGHIJKLMNOPQRSTUVWXYZabcdefghijklmnopqrstuvwxyz0123456789+/".

Definition B64_PAD : Byte.byte := Byte.x3d.

Definition b64_char (n : N) : Byte.byte :=
  nth (N.to_nat n) (list_byte_of_string B64_ALPHABET) B64_PAD.

(** [base64.b64encode]: three bytes give four characters of six bits each;
    a last group of one or two bytes is padded with [=]. *)
Fixpoint b64encode (bs : bytes) : bytes :=
  match bs with
  | [] => []
  | [a] =>
      let x := Byte.to_N a in
      [ b64_char (x / 4); b64_char ((x mod 4) * 16); B64_PAD; B64_PAD ]
  | [a; b] =>
      let x := Byte.to_N a in
      let y := Byte.to_N b in
      [ b64_char (x / 4); b64_char ((x mod 4) * 16 + y / 16);
        b64_char ((y mod 16) * 4); B64_PAD ]
  | a :: b :: c :: rest =>
      let x := Byte.to_N a in
      let y := Byte.to_N b in
      let z := Byte.to_N c in
      b64_char (x / 4) :: b64_char ((x mod 4) * 16 + y / 16)
        :: b64_char ((y mod 16) * 4 + z / 64) :: b64_char (z mod 64)
        :: b64encode rest
  end%N.

Definition byte_in (lo hi : N) (b : Byte.byte) : bool :=
  ((lo <=? Byte.to_N b) && (Byte.to_N b <=? hi))%N.

(** Well-formed UTF-8 (Unicode, table 3-7): no overlong form, no surrogate,
    nothing above U+10FFFF. *)
Fixpoint utf8_valid (bs : bytes) : bool :=
  match bs with
  | [] => true
  | b :: r =>
      if byte_in 0 127 b then utf8_valid r
      else if byte_in 194 223 b then
        match r with
        | c1 :: r1 => byte_in 128 191 c1 && utf8_valid r1
        | _ => false
        end
      else if byte_in 224 239 b then
        match r with
        | c1 :: c2 :: r2 =>
            (if byte_in 224 224 b then byte_in 160 191 c1
             else if byte_in 237 237 b then byte_in 128 159 c1
             else byte_in 128 191 c1)
            && byte_in 128 191 c2 && utf8_valid r2
        | _ => false
        end
      else if byte_in 240 244 b then
        match r with
        | c1 :: c2 :: c3 :: r3 =>
            (if byte_in 240 240 b then byte_in 144 191 c1
             else if byte_in 244 244 b then byte_in 128 143 c1
             else byte_in 128 191 c1)
            && byte_in 128 191 c2 && byte_in 128 191 c3 && utf8_valid r3
        | _ => false
        end
      else false
  end.

(** [bs.decode("utf-8")]. A [str] is kept as its UTF-8 bytes, so decoding
    well-formed bytes changes nothing; [UnicodeDecodeError] is a
    [ValueError]. *)
Definition decode_utf8 (bs : bytes) : result string :=
  if utf8_valid bs then Ok (string_of_list_byte bs)
  else Raise (ValueError "'utf-8' codec can't decode bytes").

(** What draws the figures: the type of figures, the PNG file
    [fig.savefig(buf, format="png", bbox_inches="tight")] renders (the
    rendering may raise), and the three plots of the endpoint (lines 67-71,
    80-86, 108-112). *)
Record Drawing : Type := mkDrawing {
  Figure : Type;
  png : Figure -> result bytes;
  draw_mentions : list (value * nat) -> result Figure;
  draw_wordcloud : string -> result Figure;
  draw_barh : DataFrame -> result Figure
}.

Definition savefig (d : Drawing) (fig : Figure d) (buf : BytesIO) : result BytesIO :=
  data <- png d fig ;;
  Ok (bio_write buf data).

(** lines 27-31 *)
Definition fig_to_base64 (d : Drawing) (fig : Figure d) : result string :=
  let buf := BytesIO_new in
  buf <- savefig d fig buf ;;
  let buf := bio_seek buf 0 in
  let (data, _) := bio_read buf in
  decode_utf8 (b64encode data).

(** The renderers as the endpoint has them: draw, then [fig_to_base64]
    (lines 72, 87, 113). *)
Definition drawing_libs (d : Drawing) (lower : string -> string)
    (table : list (value * nat) -> string) (order : list Z -> list nat) : Libs :=
  {| str_lower := lower;
     plot_mentions := fun s => fig <- draw_mentions d s ;; fig_to_base64 d fig;
     plot_wordcloud := fun t => fig <- draw_wordcloud d t ;; fig_to_base64 d fig;
     plot_barh := fun df => fig <- draw_barh d df ;; fig_to_base64 d fig;
     to_html := table;
     argsort_desc := order |}.

(** Text over the base64 alphabet, padded to a multiple of four. *)
Definition is_b64_char (c : ascii) : bool :=
  existsb (Ascii.eqb c) (list_ascii_of_string B64_ALPHABET) || Ascii.eqb c "=".

Definition b64_text (s : string) : Prop :=
  forallb is_b64_char (list_ascii_of_string s) = true
  /\ Nat.modulo (String.length s) 4 = 0.

Definition b64_bytes : bytes := B64_PAD :: list_byte_of_string B64_ALPHABET.

Definition sextets : list N := map N.of_nat (seq 0 64).

(** Figures that are their own PNG file, to run [fig_to_base64] on
    examples; the plots draw the eight bytes of the PNG signature. *)
Definition PNG_SIGNATURE : bytes :=
  [ Byte.x89; Byte.x50; Byte.x4e; Byte.x47; Byte.x0d; Byte.x0a; Byte.x1a; Byte.x0a ].

Definition stub_drawing : Drawing :=
  {| Figure := bytes;
     png := fun b => Ok b;
     draw_mentions := fun _ => Ok PNG_SIGNATURE;
     draw_wordcloud := fun _ => Ok PNG_SIGNATURE;
     draw_barh := fun _ => Ok PNG_SIGNATURE |}.

(** ** Requests in sequence *)




(** [needle] occurs in [hay], as a proposition. *)
Definition occurs_in (needle hay : string) : Prop :=
  exists pre post, hay = (pre ++ needle ++ post)%string.

(** Number of raw keywords of the batch that [str.lower] maps to [k]. *)
Definition raw_count (libs : Libs) (k : string) (p : JSONData) : nat :=
  List.length (filter (fun raw => String.eqb (str_lower libs raw) k) (flat_map keywords p)).



(** Strings by code point, strictly; other values are not compared. *)
Definition str_lt (a b : value) : Prop :=
  match a, b with
  | VStr s, VStr t => String.compare s t = Lt
  | _, _ => False
  end.

(** A batch with records labelled Total, the name line 104 gives its own
    column. *)
Definition total_label_batch : JSONData :=
  [ mkArticle "Ana" "..." 1700000000 "positive" "t1" "https://a/1" [];
    mkArticle "Ana" "..." 1700000100 "Total" "t2" "https://a/2" [];
    mkArticle "Bob" "..." 1700000200 "Total" "t3" "https://a/3" [] ].

(** A batch whose keyword is markup. *)
Definition markup_batch : JSONData :=
  [ mkArticle "Ana" "..." 1700000000 "positive" "t1" "https://a/1"
      ["<b>x</b>"; "y"]%string ].

(** Reading base64 text back, to show that the encoding loses nothing. *)
Fixpoint b64_index_from (i : N) (alphabet : bytes) (c : Byte.byte) : option N :=
  match alphabet with
  | [] => None
  | x :: r => if Byte.eqb c x then Some i else b64_index_from (i + 1) r c
  end.

Definition b64_index (c : Byte.byte) : option N :=
  b64_index_from 0 (list_byte_of_string B64_ALPHABET) c.

Fixpoint b64decode (cs : bytes) : option bytes :=
  match cs with
  | c1 :: c2 :: c3 :: c4 :: rest =>
      match b64_index c1, b64_index c2 with
      | Some s1, Some s2 =>
          match Byte.of_N (s1 * 4 + s2 / 16) with
          | Some a =>
              if Byte.eqb c3 B64_PAD then Some [a]
              else
                match b64_index c3 with
                | Some s3 =>
                    match Byte.of_N ((s2 mod 16) * 16 + s3 / 4) with
                    | Some b =>
                        if Byte.eqb c4 B64_PAD then Some [a; b]
                        else
                          match b64_index c4, b64decode rest with
                          | Some s4, Some r =>
                              match Byte.of_N ((s3 mod 4) * 64 + s4) with
                              | Some c => Some (a :: b :: c :: r)
                              | None => None
                              end
                          | _, _ => None
                          end
                    | None => None
                    end
                | None => None
                end
          | None => None
          end
      | _, _ => None
      end
  | [] => Some []
  | _ => None
  end%N.

(* ================================================================== *)
(** * Properties *)

(** ** The error monad *)

Lemma bind_Ok_inv {A B : Type} (c : result A) (k : A -> result B) (b : B) :
  bind c k = Ok b -> exists a, c = Ok a /\ k a = Ok b.
Proof.
  destruct c as [a | e]; simpl; intros H; [eauto | discriminate].
Qed.

Lemma mapM_Ok_map {A B : Type} (f : A -> result B) (g : A -> B) (l : list A) :
  Forall (fun x => f x = Ok (g x)) l -> mapM f l = Ok (map g l).
Proof.
  induction 1 as [| x l Hx _ IH]; simpl; [reflexivity |].
  now rewrite Hx, IH.
Qed.

Lemma mapM_Ok_Forall2 {A B : Type} (f : A -> result B) (l : list A) (r : list B) :
  mapM f l = Ok r -> Forall2 (fun x y => f x = Ok y) l r.
Proof.
  revert r; induction l as [| x l IH]; simpl; intros r H.
  - injection H as <-. constructor.
  - apply bind_Ok_inv in H as (y & Hy & H).
    apply bind_Ok_inv in H as (ys & Hys & H).
    injection H as <-. constructor; auto.
Qed.

Lemma mapM_Raise {A B : Type} (f : A -> result B) (l : list A) :
  Exists (fun x => exists e, f x = Raise e) l ->
  exists x e, In x l /\ f x = Raise e /\ mapM f l = Raise e.
Proof.
  induction l as [| x l IH]; intros H; [inversion H |].
  simpl. destruct (f x) as [y | e] eqn:Hx.
  - inversion H as [? ? (e' & He') | ? ? Hl]; subst; [congruence |].
    destruct (IH Hl) as (x' & e' & Hin & Hf & Hm).
    exists x', e'. simpl. rewrite Hm. auto.
  - exists x, e. simpl. auto.
Qed.

(** ** Insertion sort *)

Section SortingFacts.
Context {A : Type} (leb : A -> A -> bool).

Lemma insert_perm (x : A) (l : list A) : Permutation (insert leb x l) (x :: l).
Proof.
  induction l as [| y l IH]; simpl; [reflexivity |].
  destruct (leb x y); [reflexivity |].
  rewrite IH. apply perm_swap.
Qed.

Lemma isort_perm (l : list A) : Permutation (isort leb l) l.
Proof.
  induction l as [| x l IH]; simpl; [reflexivity |].
  rewrite insert_perm. now constructor.
Qed.

Lemma isort_In (l : list A) (x : A) : In x (isort leb l) <-> In x l.
Proof.
  split; apply Permutation_in; [| symmetry]; apply isort_perm.
Qed.

Lemma isort_length (l : list A) : List.length (isort leb l) = List.length l.
Proof. apply Permutation_length, isort_perm. Qed.

Variable R : A -> A -> Prop.
Hypothesis R_trans : forall x y z, R x y -> R y z -> R x z.

(** Inserting keeps a list sorted for [R] as soon as [leb] decides [R]
    between the new element and the old ones. *)
Lemma insert_sorted (x : A) (l : list A) :
  StronglySorted R l ->
  (forall y, In y l -> leb x y = true -> R x y) ->
  (forall y, In y l -> leb x y = false -> R y x) ->
  StronglySorted R (insert leb x l).
Proof.
  induction 1 as [| y l Hl IH Hy]; intros Hle Hgt; simpl.
  - repeat constructor.
  - destruct (leb x y) eqn:E.
    + assert (Rxy : R x y) by (apply Hle; simpl; auto).
      constructor; [now constructor |].
      constructor; [exact Rxy |].
      rewrite Forall_forall in Hy |- *. eauto.
    + constructor.
      * apply IH; intros z Hz; [apply Hle | apply Hgt]; simpl; auto.
      * rewrite Forall_forall in Hy |- *. intros z Hz.
        apply (Permutation_in _ (insert_perm x l)) in Hz.
        destruct Hz as [<- | Hz]; [apply Hgt; simpl; auto | auto].
Qed.

(** The sort is stable: it sorts for any [R] that [leb] decides on the
    pairs of the input taken in their order of occurrence. *)
Lemma isort_sorted (l : list A) :
  ForallOrdPairs (fun x y => (leb x y = true -> R x y) /\ (leb x y = false -> R y x)) l ->
  StronglySorted R (isort leb l).
Proof.
  induction 1 as [| x l Hx _ IH]; simpl; [constructor |].
  rewrite Forall_forall in Hx.
  apply insert_sorted; [exact IH | |]; intros y Hy E;
    apply (proj1 (isort_In _ _)) in Hy; now apply (Hx y Hy).
Qed.
End SortingFacts.

Lemma in_firstn {A : Type} (n : nat) (l : list A) (x : A) : In x (firstn n l) -> In x l.
Proof.
  intros H. rewrite <- (firstn_skipn n l). apply in_or_app. now left.
Qed.

Lemma in_skipn {A : Type} (n : nat) (l : list A) (x : A) : In x (skipn n l) -> In x l.
Proof.
  intros H. rewrite <- (firstn_skipn n l). apply in_or_app. now right.
Qed.

(** A sorted list split in two: everything kept is before everything cut. *)
Lemma StronglySorted_firstn_skipn {A : Type} (R : A -> A -> Prop) (n : nat) (l : list A) :
  StronglySorted R l ->
  forall x y, In x (firstn n l) -> In y (skipn n l) -> R x y.
Proof.
  intros H; revert n; induction H as [| a l Hl IH Ha]; intros n x y Hx Hy.
  - now rewrite firstn_nil in Hx.
  - destruct n as [| n]; simpl in *; [contradiction |].
    destruct Hx as [<- | Hx].
    + rewrite Forall_forall in Ha. apply Ha.
      apply (in_skipn n). exact Hy.
    + eapply IH; eauto.
Qed.

Lemma StronglySorted_firstn {A : Type} (R : A -> A -> Prop) (n : nat) (l : list A) :
  StronglySorted R l -> StronglySorted R (firstn n l).
Proof.
  intros H; revert n; induction H as [| a l Hl IH Ha]; intros [| n]; simpl;
    try constructor; auto.
  rewrite Forall_forall in Ha |- *. intros x Hx. apply Ha.
  eapply in_firstn; eauto.
Qed.

Lemma StronglySorted_map {A B : Type} (f : A -> B) (R : B -> B -> Prop) (l : list A) :
  StronglySorted (fun x y => R (f x) (f y)) l -> StronglySorted R (map f l).
Proof.
  induction 1 as [| a l Hl IH Ha]; simpl; constructor; auto.
  rewrite Forall_forall in Ha |- *. intros y Hy.
  apply in_map_iff in Hy as (x & <- & Hx). auto.
Qed.

Lemma StronglySorted_snoc {A : Type} (R : A -> A -> Prop) (l : list A) (a : A) :
  StronglySorted R l -> Forall (fun y => R y a) l -> StronglySorted R (l ++ [a]).
Proof.
  induction 1 as [| b l Hl IH Hb]; intros Ha; simpl.
  - repeat constructor.
  - inversion Ha as [| ? ? Hba Hla]; subst.
    constructor; [auto |].
    apply Forall_app. split; [exact Hb | now constructor].
Qed.

Lemma StronglySorted_rev {A : Type} (R : A -> A -> Prop) (l : list A) :
  StronglySorted R l -> StronglySorted (fun x y => R y x) (rev l).
Proof.
  induction 1 as [| a l Hl IH Ha]; simpl; [constructor |].
  apply StronglySorted_snoc; [exact IH |].
  rewrite Forall_forall in Ha |- *. intros y Hy. apply Ha.
  now apply in_rev.
Qed.

(** ** Ordered pairs and sortedness, up to the members of the list *)

Lemma ForallOrdPairs_impl_In {A : Type} (R R' : A -> A -> Prop) (l : list A) :
  (forall x y, In x l -> In y l -> R x y -> R' x y) ->
  ForallOrdPairs R l -> ForallOrdPairs R' l.
Proof.
  intros H FOP; induction FOP as [| a l Ha Hl IH]; constructor.
  - rewrite Forall_forall in Ha |- *. intros y Hy.
    apply H; simpl; auto.
  - apply IH. intros x y Hx Hy. apply H; simpl; auto.
Qed.

Lemma ForallOrdPairs_snoc {A : Type} (R : A -> A -> Prop) (l : list A) (a : A) :
  ForallOrdPairs R l -> Forall (fun y => R y a) l -> ForallOrdPairs R (l ++ [a]).
Proof.
  induction 1 as [| b l Hb Hl IH]; intros Ha; simpl.
  - repeat constructor.
  - inversion Ha as [| ? ? Hba Hla]; subst.
    constructor; [| auto].
    apply Forall_app. split; [exact Hb | now constructor].
Qed.

Lemma ForallOrdPairs_map {A B : Type} (f : A -> B) (R : B -> B -> Prop) (l : list A) :
  ForallOrdPairs R (map f l) -> ForallOrdPairs (fun x y => R (f x) (f y)) l.
Proof.
  induction l as [| a l IH]; simpl; intros H; [constructor |].
  inversion H as [| ? ? Ha Hl]; subst.
  constructor; [| auto].
  rewrite Forall_forall in Ha |- *. intros y Hy. apply Ha. now apply in_map.
Qed.

Lemma StronglySorted_impl_In {A : Type} (R R' : A -> A -> Prop) (l : list A) :
  (forall x y, In x l -> In y l -> R x y -> R' x y) ->
  StronglySorted R l -> StronglySorted R' l.
Proof.
  intros H S; induction S as [| a l Hl IH Ha]; constructor.
  - apply IH. intros x y Hx Hy. apply H; simpl; auto.
  - rewrite Forall_forall in Ha |- *. intros y Hy.
    apply H; simpl; auto.
Qed.

Lemma list_sum_perm (l l' : list nat) : Permutation l l' -> list_sum l = list_sum l'.
Proof.
  induction 1; simpl; lia.
Qed.

(** ** Counting by first appearance *)

Section TallyFacts.
Context {A : Type} (eq_dec : forall a b : A, {a = b} + {a <> b}).

Lemma tally_snoc (l : list A) (x : A) : tally eq_dec (l ++ [x]) = incr eq_dec x (tally eq_dec l).
Proof. unfold tally. now rewrite fold_left_app. Qed.

Lemma incr_keys (x : A) (c : list (A * nat)) :
  map fst (incr eq_dec x c) = if in_dec eq_dec x (map fst c) then map fst c else map fst c ++ [x].
Proof.
  induction c as [| [k n] c IH]; simpl; [reflexivity |].
  destruct (eq_dec x k) as [-> | Hne]; simpl.
  - destruct (eq_dec k k); [reflexivity | congruence].
  - rewrite IH. destruct (eq_dec k x); [congruence |].
    now destruct (in_dec eq_dec x (map fst c)).
Qed.

Lemma incr_other (x k : A) (n : nat) (c : list (A * nat)) :
  k <> x -> In (k, n) (incr eq_dec x c) <-> In (k, n) c.
Proof.
  intros Hne; induction c as [| [k' m] c IH]; simpl.
  - split; [intros [H | []]; congruence | tauto].
  - destruct (eq_dec x k') as [-> | Hx]; simpl.
    + split; (intros [H | H]; [left; congruence | now right]).
    + now rewrite IH.
Qed.

Lemma incr_same (x : A) (n : nat) (c : list (A * nat)) :
  NoDup (map fst c) ->
  In (x, n) (incr eq_dec x c) <->
  (n = 1 /\ ~ In x (map fst c)) \/ (exists m, n = S m /\ In (x, m) c).
Proof.
  induction c as [| [k m] c IH]; simpl; intros ND.
  - split.
    + intros [H | H]; [| contradiction]. injection H as <-. auto.
    + intros [[-> _] | (m & _ & H)]; [auto | contradiction].
  - inversion ND as [| ? ? Hk ND']; subst.
    destruct (eq_dec x k) as [-> | Hne]; simpl.
    + split.
      * intros [H | H].
        -- injection H as <-. right. exists m. auto.
        -- exfalso. apply Hk. change k with (fst (k, n)). now apply in_map.
      * intros [[_ H] | (m' & -> & [H | H])].
        -- tauto.
        -- injection H as ->. auto.
        -- exfalso. apply Hk. change k with (fst (k, m')). now apply in_map.
    + rewrite (IH ND'). split.
      * intros [H | [[-> H] | (m' & -> & H)]];
          [congruence | left; intuition congruence | right; eauto].
      * intros [[-> H] | (m' & -> & [H | H])];
          [right; left; tauto | congruence | right; right; eauto].
Qed.

Lemma incr_sum (x : A) (c : list (A * nat)) :
  list_sum (map snd (incr eq_dec x c)) = S (list_sum (map snd c)).
Proof.
  induction c as [| [k n] c IH]; simpl; [reflexivity |].
  destruct (eq_dec x k); simpl; [reflexivity | rewrite IH; lia].
Qed.

(** Every distinct element has one entry, which holds its number of
    occurrences. *)
Lemma tally_spec (l : list A) :
  NoDup (map fst (tally eq_dec l)) /\
  forall k n, In (k, n) (tally eq_dec l) <-> In k l /\ n = count_occ eq_dec l k.
Proof.
  induction l as [| x l [ND IH]] using rev_ind.
  - split; [constructor |]. simpl. tauto.
  - rewrite tally_snoc.
    assert (Hkeys : forall k, In k (map fst (tally eq_dec l)) <-> In k l).
    { intros k. rewrite in_map_iff. split.
      - intros ([k' n] & <- & H). now apply IH in H.
      - intros H. exists (k, count_occ eq_dec l k). split; [reflexivity |]. now apply IH. }
    split.
    + rewrite incr_keys. destruct (in_dec eq_dec x (map fst (tally eq_dec l))) as [H | H];
        [exact ND |].
      apply NoDup_rev in ND. rewrite <- (rev_involutive (_ ++ _)).
      apply NoDup_rev. rewrite rev_app_distr. simpl. constructor; [| exact ND].
      now rewrite <- in_rev.
    + intros k n. rewrite in_app_iff, count_occ_app. simpl.
      destruct (eq_dec x k) as [-> | Hne].
      * rewrite (incr_same _ _ _ ND), Hkeys. split.
        -- intros [[-> H] | (m & -> & H)].
           ++ split; [auto |]. apply (count_occ_not_In eq_dec) in H. lia.
           ++ apply IH in H as [_ ->]. split; [auto | lia].
        -- intros [_ ->]. destruct (in_dec eq_dec k l) as [H | H].
           ++ right. exists (count_occ eq_dec l k). split; [lia | now apply IH].
           ++ left. split; [| exact H]. apply (count_occ_not_In eq_dec) in H. lia.
      * rewrite incr_other by congruence. rewrite IH. split.
        -- intros [H ->]. split; [auto | lia].
        -- intros [[H | [H | []]] ->]; [| congruence]. split; [auto | lia].
Qed.

Lemma tally_keys (l : list A) (k : A) : In k (map fst (tally eq_dec l)) <-> In k l.
Proof.
  destruct (tally_spec l) as [_ H]. rewrite in_map_iff. split.
  - intros ([k' n] & <- & Hin). now apply H in Hin.
  - intros Hin. exists (k, count_occ eq_dec l k). split; [reflexivity |]. now apply H.
Qed.

Lemma tally_sum (l : list A) : list_sum (map snd (tally eq_dec l)) = List.length l.
Proof.
  induction l as [| x l IH] using rev_ind; [reflexivity |].
  rewrite tally_snoc, incr_sum, IH, length_app. simpl. lia.
Qed.

Lemma first_index_lt (k : A) (l : list A) : In k l -> first_index eq_dec k l < List.length l.
Proof.
  induction l as [| x l IH]; simpl; [tauto |].
  destruct (eq_dec k x); [lia |].
  intros [H | H]; [congruence | apply IH in H; lia].
Qed.

Lemma first_index_app_l (k : A) (l r : list A) :
  In k l -> first_index eq_dec k (l ++ r) = first_index eq_dec k l.
Proof.
  induction l as [| x l IH]; simpl; [tauto |].
  destruct (eq_dec k x); [reflexivity |].
  intros [H | H]; [congruence | now rewrite IH].
Qed.

Lemma first_index_app_r (k : A) (l r : list A) :
  ~ In k l -> first_index eq_dec k (l ++ r) = List.length l + first_index eq_dec k r.
Proof.
  induction l as [| x l IH]; simpl; [reflexivity |].
  destruct (eq_dec k x); [intros H; exfalso; apply H; auto |].
  intros H. rewrite IH; tauto.
Qed.

(** The entries come in the order in which their keys first appear. *)
Lemma tally_order (l : list A) :
  ForallOrdPairs (fun a b => first_index eq_dec a l < first_index eq_dec b l) (map fst (tally eq_dec l)).
Proof.
  induction l as [| x l IH] using rev_ind; [constructor |].
  rewrite tally_snoc, incr_keys.
  assert (Hold : ForallOrdPairs (fun a b => first_index eq_dec a (l ++ [x]) < first_index eq_dec b (l ++ [x]))
                                (map fst (tally eq_dec l))).
  { revert IH. apply ForallOrdPairs_impl_In. intros a b Ha Hb.
    apply (proj1 (tally_keys _ _)) in Ha. apply (proj1 (tally_keys _ _)) in Hb. intros Hlt.
    now rewrite !first_index_app_l by assumption. }
  destruct (in_dec eq_dec x (map fst (tally eq_dec l))) as [H | H]; [exact Hold |].
  apply ForallOrdPairs_snoc; [exact Hold |].
  rewrite Forall_forall. intros y Hy.
  rewrite tally_keys in H. apply (proj1 (tally_keys _ _)) in Hy.
  rewrite first_index_app_l by exact Hy.
  rewrite first_index_app_r by exact H.
  apply first_index_lt in Hy. lia.
Qed.
End TallyFacts.

(** ** Frames built from a batch *)

Lemma RangeIndex_length (n : nat) : List.length (RangeIndex n) = n.
Proof. unfold RangeIndex. now rewrite length_map, length_seq. Qed.

Lemma map_snd_combine {I B C : Type} (h : B -> C) (idx : list I) (l : list B) :
  List.length l <= List.length idx ->
  map (fun r => h (snd r)) (combine idx l) = map h l.
Proof.
  revert idx; induction l as [| b l IH]; intros [| i idx]; simpl; intros H;
    try reflexivity; try lia.
  f_equal. apply IH. lia.
Qed.

Lemma getitem_frame_of names cells p c j (g : Article -> value) :
  position c names = Some j ->
  (forall a, nth j (cells a) VNaN = g a) ->
  getitem (frame_of names cells p) c = Ok (map g p).
Proof.
  intros Hpos Hg. unfold getitem, frame_of; simpl. rewrite Hpos. f_equal.
  rewrite (map_snd_combine (fun x => nth j x VNaN)).
  - rewrite map_map. now apply map_ext.
  - now rewrite RangeIndex_length, length_map.
Qed.

Lemma combine_append {I : Type} (f : Article -> list value) (g : Article -> value)
    (idx : list I) (p : JSONData) :
  map (fun rv => (fst (fst rv), snd (fst rv) ++ [snd rv]))
      (combine (combine idx (map f p)) (map g p))
  = combine idx (map (fun a => f a ++ [g a]) p).
Proof.
  revert idx; induction p as [| a p IH]; intros [| i idx]; simpl;
    try reflexivity.
  f_equal. apply IH.
Qed.

Lemma setitem_frame_of names cells p c (g : Article -> value) :
  position c names = None ->
  setitem (frame_of names cells p) c (map g p)
  = frame_of (names ++ [c]) (fun a => cells a ++ [g a]) p.
Proof.
  intros Hpos. unfold setitem, frame_of; simpl. rewrite Hpos. f_equal.
  apply combine_append.
Qed.

Lemma len_frame_of names cells p : len (frame_of names cells p) = List.length p.
Proof.
  unfold len, frame_of; simpl.
  rewrite length_combine, RangeIndex_length, length_map. lia.
Qed.

(** ** Lines 48-55 *)

Lemma DataFrame_of_batch (a : Article) (p : JSONData) :
  DataFrame_of (map Article_dict (a :: p))
  = frame_of (map fst (Article_dict a)) cells7 (a :: p).
Proof.
  unfold DataFrame_of, frame_of.
  change (match map Article_dict (a :: p) with [] => [] | d :: _ => map fst d end)
    with (map fst (Article_dict a)).
  rewrite length_map, map_map. reflexivity.
Qed.

Lemma normalise_nil : normalise [] = Raise (KeyError "published_at").
Proof. reflexivity. Qed.

Lemma normalise_valid (a : Article) (p : JSONData) :
  Forall (fun x => valid_epoch (published_at x) = true) (a :: p) ->
  normalise (a :: p) = Ok (frame55 (a :: p)).
Proof.
  intros Hv. unfold normalise. cbv zeta.
  rewrite DataFrame_of_batch.
  rewrite (getitem_frame_of _ _ _ _ 2 (fun x => VInt (published_at x)))
    by reflexivity.
  cbn [bind].
  rewrite (mapM_Ok_map _ (fun v => match v with VInt z => VDatetime z | _ => VNaN end)).
  2:{ apply Forall_map. revert Hv. apply Forall_impl. intros x Hx.
      simpl. now rewrite Hx. }
  cbn [bind]. rewrite map_map.
  rewrite (setitem_frame_of _ _ _ _ (fun x => VDatetime (published_at x)))
    by reflexivity.
  reflexivity.
Qed.

Lemma utcfromtimestamp_invalid (z : Z) :
  valid_epoch z = false -> exists e, utcfromtimestamp (VInt z) = Raise e.
Proof.
  intros H. unfold utcfromtimestamp. rewrite H.
  destruct (_ || _)%bool; [eauto |]. destruct (_ || _)%bool; eauto.
Qed.

Lemma normalise_invalid (p : JSONData) :
  Exists (fun x => valid_epoch (published_at x) = false) p ->
  exists x e, In x p /\ utcfromtimestamp (VInt (published_at x)) = Raise e
              /\ normalise p = Raise e.
Proof.
  intros Hex. destruct p as [| a p]; [inversion Hex |].
  unfold normalise. cbv zeta. rewrite DataFrame_of_batch.
  rewrite (getitem_frame_of _ _ _ _ 2 (fun x => VInt (published_at x)))
    by reflexivity.
  cbn [bind].
  destruct (mapM_Raise utcfromtimestamp (map (fun x => VInt (published_at x)) (a :: p)))
    as (v & e & Hin & Hv & Hm).
  { apply Exists_exists in Hex as (x & Hx & Hbad).
    apply Exists_exists. exists (VInt (published_at x)). split.
    - now apply (in_map (fun x => VInt (published_at x))).
    - now apply utcfromtimestamp_invalid. }
  apply in_map_iff in Hin as (x & <- & Hx).
  exists x, e. rewrite Hm. auto.
Qed.

(** ** Lines 57-178 on the frame of a batch *)

Lemma forallb_map_comp {A B : Type} (f : B -> bool) (g : A -> B) (l : list A) :
  forallb f (map g l) = forallb (fun x => f (g x)) l.
Proof. induction l as [| x l IH]; simpl; [reflexivity | now rewrite IH]. Qed.

Lemma forallb_false_Exists {A : Type} (f : A -> bool) (l : list A) :
  forallb f l = false -> Exists (fun x => f x = false) l.
Proof.
  induction l as [| x l IH]; simpl; [discriminate |].
  destruct (f x) eqn:E; simpl; intros H; [right; auto | left; exact E].
Qed.

Lemma kpis_block_frame55 (p : JSONData) : kpis_block (frame55 p) = Ok (kpis_of p).
Proof.
  unfold kpis_block, frame55.
  rewrite (getitem_frame_of _ _ _ _ 3 (fun a => VStr (sentiment_label a)))
    by reflexivity.
  cbn [bind]. now rewrite len_frame_of.
Qed.

Lemma evolution_block_frame55 (libs : Libs) (p : JSONData) :
  evolution_block libs (frame55 p)
  = if forallb storable p
    then img <- plot_mentions libs (daily_series p) ;;
         Ok (mkEvolution (frame65 p) (daily_series p) img)
    else Raise NO_DT.
Proof.
  unfold evolution_block, frame55.
  rewrite (getitem_frame_of _ _ _ _ 7 (fun a => VDatetime (published_at a)))
    by reflexivity.
  cbn [bind]. unfold dt_date. rewrite forallb_map_comp.
  change (fun x => is_datetime64 (VDatetime (published_at x))) with storable.
  destruct (forallb storable p); [| reflexivity].
  cbn [bind]. rewrite map_map.
  change (fun x => date_of (VDatetime (published_at x)))
    with (fun x => VDate (published_at x / 86400)%Z).
  rewrite (setitem_frame_of _ _ _ _ (fun x => VDate (published_at x / 86400)%Z))
    by reflexivity.
  fold (frame65 p). unfold frame65 at 1.
  rewrite (getitem_frame_of _ _ _ _ 8 (fun a => VDate (published_at a / 86400)%Z))
    by reflexivity.
  reflexivity.
Qed.

Lemma flat_map_map {A B C : Type} (f : B -> list C) (g : A -> B) (l : list A) :
  flat_map f (map g l) = flat_map (fun x => f (g x)) l.
Proof. induction l as [| x l IH]; simpl; [reflexivity | now rewrite IH]. Qed.

Lemma keyword_block_frame65 (libs : Libs) (p : JSONData) :
  keyword_block libs (frame65 p) = keyword_summary libs (keywords_of libs p).
Proof.
  unfold keyword_block, frame65.
  rewrite (getitem_frame_of _ _ _ _ 6 (fun a => VList (keywords a)))
    by reflexivity.
  cbn [bind]. now rewrite flat_map_map.
Qed.

Lemma author_sentiment_block_frame65 (libs : Libs) (p : JSONData) :
  author_sentiment_block libs (frame65 p)
  = author_sentiment_chart libs (authors_of p) (labels_of p).
Proof.
  unfold author_sentiment_block, frame65.
  rewrite (getitem_frame_of _ _ _ _ 0 (fun a => VStr (author a))) by reflexivity.
  rewrite (getitem_frame_of _ _ _ _ 3 (fun a => VStr (sentiment_label a)))
    by reflexivity.
  reflexivity.
Qed.

Lemma top_table_block_frame65 (libs : Libs) (p : JSONData) :
  top_table_block libs (frame65 p) = Ok (ranking_of libs p).
Proof.
  unfold top_table_block, frame65.
  rewrite (getitem_frame_of _ _ _ _ 0 (fun a => VStr (author a))) by reflexivity.
  reflexivity.
Qed.

Lemma analyse_frame55 (libs : Libs) (p : JSONData) :
  analyse libs (frame55 p) = if forallb storable p then report_of libs p else Raise NO_DT.
Proof.
  unfold analyse. rewrite kpis_block_frame55, evolution_block_frame55.
  cbn [bind]. destruct (forallb storable p); [| reflexivity].
  unfold report_of.
  destruct (plot_mentions libs (daily_series p)) as [img | e]; [| reflexivity].
  cbn [bind ev_df evolution_mentions_b64].
  rewrite keyword_block_frame65, author_sentiment_block_frame65,
    top_table_block_frame65.
  reflexivity.
Qed.


(** How a run goes, by the shape of the batch. *)
Lemma analyser_locals_nil (libs : Libs) :
  analyser_locals libs [] = Raise (KeyError "published_at").
Proof. reflexivity. Qed.


Lemma analyser_locals_invalid (libs : Libs) (p : JSONData) :
  Exists (fun x => valid_epoch (published_at x) = false) p ->
  exists x e, In x p /\ utcfromtimestamp (VInt (published_at x)) = Raise e
              /\ analyser_locals libs p = Raise e.
Proof.
  intros H. destruct (normalise_invalid p H) as (x & e & Hx & He & Hn).
  exists x, e. unfold analyser_locals. rewrite Hn. auto.
Qed.

Lemma analyser_locals_Ok (libs : Libs) (p : JSONData) (L : Locals) :
  analyser_locals libs p = Ok L ->
  p <> [] /\ forallb storable p = true /\ report_of libs p = Ok L.
Proof.
  intros H. destruct p as [| a p]; [discriminate |].
  destruct (forallb (fun x => valid_epoch (published_at x)) (a :: p)) eqn:Hv.
  - rewrite forallb_forall in Hv. apply Forall_forall in Hv.
    unfold analyser_locals in H. rewrite (normalise_valid _ _ Hv) in H.
    cbn [bind] in H. rewrite analyse_frame55 in H.
    destruct (forallb storable (a :: p)); [| discriminate].
    repeat split; [discriminate | exact H].
  - exfalso. apply forallb_false_Exists in Hv.
    destruct (analyser_locals_invalid libs (a :: p) Hv) as (x & e & _ & _ & Hr).
    congruence.
Qed.

(** ** Counting labels *)

Lemma sum_true_map {A : Type} (g : A -> bool) (l : list A) :
  sum_true (map g l) = List.length (filter g l).
Proof.
  unfold sum_true. induction l as [| x l IH]; simpl; [reflexivity |].
  destruct (g x); simpl; now rewrite IH.
Qed.

Lemma sum_true_eq_scalar (s : string) (p : JSONData) :
  sum_true (eq_scalar (labels_of p) (VStr s)) = count_label s p.
Proof.
  unfold eq_scalar, labels_of, count_label.
  rewrite map_map, sum_true_map. f_equal. apply filter_ext. intros a.
  destruct (value_eq_dec (VStr (sentiment_label a)) (VStr s)) as [E | NE];
    destruct (String.eqb_spec (sentiment_label a) s) as [E' | NE'];
    congruence.
Qed.

Lemma count_label_canonical (p : JSONData) :
  count_label "positive" p + count_label "negative" p + count_label "neutral" p
    <= List.length p
  /\ (count_label "positive" p + count_label "negative" p + count_label "neutral" p
        = List.length p
      <-> Forall (fun a => canonical_label (sentiment_label a)) p).
Proof.
  unfold count_label, canonical_label.
  induction p as [| a p [IHle IHeq]]; simpl.
  - split; [lia |]. split; [constructor | reflexivity].
  - destruct (String.eqb_spec (sentiment_label a) "positive") as [E1 | N1];
      destruct (String.eqb_spec (sentiment_label a) "negative") as [E2 | N2];
      destruct (String.eqb_spec (sentiment_label a) "neutral") as [E3 | N3];
      simpl; try congruence.
    all: split; [lia |]; split.
    all: try (intros H; constructor; [tauto | apply IHeq; lia]).
    all: try (intros H; inversion H; subst; apply IHeq in H3; lia).
    + intros H; lia.
    + intros H; inversion H as [| ? ? Hc]; subst. tauto.
Qed.

(** ** Timestamps that are refused *)

Lemma utcfromtimestamp_raises (z : Z) (e : exn) :
  utcfromtimestamp (VInt z) = Raise e ->
  exists msg, e = ValueError msg \/ e = OverflowError msg \/ e = OSError msg.
Proof.
  unfold utcfromtimestamp. destruct (valid_epoch z); [discriminate |].
  destruct (_ || _)%bool; [intros H; injection H as <-; eauto |].
  destruct (_ || _)%bool; intros H; injection H as <-; eauto.
Qed.

(** ** Rankings *)

Lemma ForallOrdPairs_all {A : Type} (R : A -> A -> Prop) (l : list A) :
  (forall x y, R x y) -> ForallOrdPairs R l.
Proof.
  intros H; induction l as [| a l IH]; constructor; [| exact IH].
  apply Forall_forall. auto.
Qed.

Lemma count_occ_map_filter {A B : Type} (eq_dec : forall a b : B, {a = b} + {a <> b})
    (f : A -> B) (g : A -> bool) (v : B) (l : list A) :
  (forall a, g a = true <-> f a = v) ->
  count_occ eq_dec (map f l) v = List.length (filter g l).
Proof.
  intros Hg; induction l as [| a l IH]; simpl; [reflexivity |].
  destruct (eq_dec (f a) v) as [E | NE]; destruct (g a) eqn:G; simpl;
    try (now rewrite IH).
  - apply Hg in E. congruence.
  - apply Hg in G. congruence.
Qed.

Section Ranking.
Context {A : Type} (eq_dec : forall a b : A, {a = b} + {a <> b}).

(** The entries of a tally, most frequent first. *)
Lemma ranked_spec (l : list A) :
  let r := isort by_count_desc (tally eq_dec l) in
  NoDup (map fst r)
  /\ (forall k n, In (k, n) r <-> In k l /\ n = count_occ eq_dec l k)
  /\ list_sum (map snd r) = List.length l.
Proof.
  intros r. pose proof (isort_perm by_count_desc (tally eq_dec l)) as P.
  fold r in P. destruct (tally_spec eq_dec l) as [ND Hin].
  split; [| split].
  - eapply Permutation_NoDup; [| exact ND].
    apply Permutation_map. now symmetry.
  - intros k n. rewrite <- Hin. split; apply Permutation_in; [| symmetry]; exact P.
  - rewrite <- (tally_sum eq_dec l). apply list_sum_perm.
    now apply Permutation_map.
Qed.

Lemma ranked_keys (l : list A) (k : A) :
  In k (map fst (isort by_count_desc (tally eq_dec l))) <-> In k l.
Proof.
  destruct (ranked_spec l) as (_ & H & _). rewrite in_map_iff. split.
  - intros ([k' n] & <- & Hin). now apply H in Hin.
  - intros Hin. exists (k, count_occ eq_dec l k). split; [reflexivity |]. now apply H.
Qed.

Lemma ranks_before_trans (l : list A) (x y z : A) :
  ranks_before eq_dec l x y -> ranks_before eq_dec l y z -> ranks_before eq_dec l x z.
Proof. unfold ranks_before. lia. Qed.

Lemma ranked_sorted (l : list A) :
  StronglySorted (ranks_before eq_dec l)
                 (map fst (isort by_count_desc (tally eq_dec l))).
Proof.
  apply StronglySorted_map.
  apply isort_sorted.
  - intros x y z. apply ranks_before_trans.
  - pose proof (tally_order eq_dec l) as O. apply ForallOrdPairs_map in O.
    revert O. apply ForallOrdPairs_impl_In.
    intros [k1 n1] [k2 n2] H1 H2 Hlt.
    destruct (tally_spec eq_dec l) as [_ Hin].
    apply Hin in H1 as [_ ->]. apply Hin in H2 as [_ ->].
    unfold by_count_desc, ranks_before; simpl in *.
    split; intros E.
    + apply Nat.leb_le in E. lia.
    + apply Nat.leb_gt in E. lia.
Qed.

Lemma ranked_by_count (l : list A) :
  StronglySorted (fun x y => snd y <= snd x) (isort by_count_desc (tally eq_dec l)).
Proof.
  apply isort_sorted.
  - intros x y z. lia.
  - apply ForallOrdPairs_all. intros x y. unfold by_count_desc.
    split; intros E; [apply Nat.leb_le in E | apply Nat.leb_gt in E]; lia.
Qed.

(** What is cut after the first [n] entries ranks after what is kept. *)
Lemma ranked_cut (n : nat) (l : list A) (t k : A) :
  let r := map fst (isort by_count_desc (tally eq_dec l)) in
  In t (firstn n r) -> In k l -> ~ In k (firstn n r) -> ranks_before eq_dec l t k.
Proof.
  intros r Ht Hk Hnk.
  apply (StronglySorted_firstn_skipn _ n r (ranked_sorted l)); [exact Ht |].
  apply ranked_keys in Hk. fold r in Hk.
  rewrite <- (firstn_skipn n r) in Hk. apply in_app_or in Hk. tauto.
Qed.
End Ranking.

(** ** What a run leaves in the local variables *)

Lemma report_of_Ok (libs : Libs) (p : JSONData) (L : Locals) :
  report_of libs p = Ok L ->
  l_kpis L = kpis_of p
  /\ l_evolution L
     = mkEvolution (frame65 p) (daily_series p) (evolution_mentions_b64 (l_evolution L))
  /\ plot_mentions libs (daily_series p) = Ok (evolution_mentions_b64 (l_evolution L))
  /\ keyword_summary libs (keywords_of libs p) = Ok (l_keywords L)
  /\ author_sentiment_chart libs (authors_of p) (labels_of p) = Ok (l_authors L)
  /\ l_top L = ranking_of libs p
  /\ html_report L
     = html_template (l_kpis L) (evolution_mentions_b64 (l_evolution L))
         (keywords_freq_b64 (l_keywords L)) (summary_text (l_keywords L))
         (sentiments_auteurs_b64 (l_authors L)) (top_table (l_top L)).
Proof.
  unfold report_of. intros H.
  apply bind_Ok_inv in H as (img & Himg & H).
  apply bind_Ok_inv in H as (kw & Hkw & H).
  apply bind_Ok_inv in H as (au & Hau & H).
  injection H as <-. simpl. auto 10.
Qed.

Lemma count_occ_periods (d : Z) (p : JSONData) :
  count_occ value_eq_dec (periods_of p) (VDate d) = day_count d p.
Proof.
  apply count_occ_map_filter. intros a. rewrite Z.eqb_eq. split; congruence.
Qed.

Lemma count_occ_authors (x : string) (p : JSONData) :
  count_occ value_eq_dec (authors_of p) (VStr x) = mentions x p.
Proof.
  apply count_occ_map_filter. intros a. rewrite String.eqb_eq. split; congruence.
Qed.

Lemma date_lt_trans (x y z : value) : date_lt x y -> date_lt y z -> date_lt x z.
Proof. destruct x, y, z; simpl; try tauto. lia. Qed.

Lemma daily_series_sorted (p : JSONData) :
  StronglySorted (fun x y => date_lt (fst x) (fst y)) (daily_series p).
Proof.
  unfold daily_series, sort_index, value_counts.
  destruct (ranked_spec value_eq_dec (periods_of p)) as (ND & Hin & _).
  apply isort_sorted.
  - intros x y z. apply date_lt_trans.
  - apply NoDup_iff_ForallOrdPairs in ND. apply ForallOrdPairs_map in ND.
    revert ND. apply ForallOrdPairs_impl_In.
    intros [v1 n1] [v2 n2] H1 H2 Hne.
    apply Hin in H1 as [H1 _]. apply Hin in H2 as [H2 _].
    apply in_map_iff in H1 as (a1 & <- & _). apply in_map_iff in H2 as (a2 & <- & _).
    unfold by_label; simpl in *.
    split; intros E; [apply Z.leb_le in E | apply Z.leb_gt in E].
    + assert (published_at a1 / 86400 <> published_at a2 / 86400)%Z by congruence. lia.
    + lia.
Qed.

(** ** The document and the summary sentence *)

Lemma append_assoc (a b c : string) : ((a ++ b) ++ c = a ++ (b ++ c))%string.
Proof. induction a as [| x a IH]; simpl; [reflexivity | now rewrite IH]. Qed.

Lemma append_nil_r (a : string) : (a ++ EmptyString = a)%string.
Proof. induction a as [| x a IH]; simpl; [reflexivity | now rewrite IH]. Qed.

Lemma concat_empty_cons (x : string) (l : list string) :
  String.concat EmptyString (x :: l) = (x ++ String.concat EmptyString l)%string.
Proof. destruct l; simpl; [now rewrite append_nil_r | reflexivity]. Qed.

Lemma concat_empty_app (l1 l2 : list string) :
  String.concat EmptyString (l1 ++ l2)
  = (String.concat EmptyString l1 ++ String.concat EmptyString l2)%string.
Proof.
  induction l1 as [| x l1 IH]; [reflexivity |].
  change ((x :: l1) ++ l2) with (x :: (l1 ++ l2)).
  now rewrite !concat_empty_cons, IH, append_assoc.
Qed.


Lemma summary_sentence_snoc (ks : list string) (k : string) :
  summary_sentence (ks ++ [k])
  = String.concat EmptyString
      [ "Les mots-clés les plus récurrents dans la couverture médiatique sont ";
        join ", " ks; " et "; k; ". ";
        "Cela reflète les thématiques principales abordées dans les articles analysés." ]%string.
Proof.
  unfold summary_sentence. now rewrite removelast_last, last_last.
Qed.

Lemma keyword_summary_nil (libs : Libs) :
  keyword_summary libs [] = Ok (mkKeywordBlock [] EmptyString [] [] EmptyString).
Proof. reflexivity. Qed.

Lemma keyword_summary_Ok (libs : Libs) (kws : list string) (kw : KeywordBlock) :
  kws <> [] -> keyword_summary libs kws = Ok kw ->
  all_keywords kw = kws
  /\ plot_wordcloud libs (join " " kws) = Ok (keywords_freq_b64 kw)
  /\ counter kw = Counter kws
  /\ top_keywords kw = map fst (most_common 6 (Counter kws))
  /\ top_keywords kw <> []
  /\ summary_text kw = summary_sentence (top_keywords kw).
Proof.
  intros Hne H. destruct kws as [| k kws]; [congruence |].
  unfold keyword_summary in H. cbv zeta in H.
  apply bind_Ok_inv in H as (img & Himg & H).
  assert (Htop : map fst (most_common 6 (Counter (k :: kws))) <> []).
  { unfold most_common, Counter.
    pose proof (proj2 (ranked_keys string_dec (k :: kws) k) (or_introl eq_refl)) as Hk.
    destruct (isort by_count_desc (tally string_dec (k :: kws))); [contradiction |].
    discriminate. }
  destruct (map fst (most_common 6 (Counter (k :: kws)))) as [| t ts] eqn:E;
    [congruence |].
  injection H as <-. simpl. repeat split; auto.
Qed.

Lemma keywords_of_length (libs : Libs) (p : JSONData) :
  List.length (keywords_of libs p)
  = list_sum (map (fun a => List.length (keywords a)) p).
Proof.
  unfold keywords_of. rewrite length_flat_map. f_equal.
  apply map_ext. intros a. apply length_map.
Qed.

(** ** Positions in a list *)

Lemma position_Some (c : string) (names : list string) (j : nat) :
  position c names = Some j -> j < List.length names /\ nth j names EmptyString = c.
Proof.
  revert j; induction names as [| n names IH]; simpl; intros j H; [discriminate |].
  destruct (String.eqb_spec c n) as [-> | Hne].
  - injection H as <-. split; [lia | reflexivity].
  - destruct (position c names) as [j' |]; [| discriminate].
    injection H as <-. destruct (IH j' eq_refl). split; [lia | assumption].
Qed.

Lemma position_None (c : string) (names : list string) :
  position c names = None <-> ~ In c names.
Proof.
  induction names as [| n names IH]; simpl; [tauto |].
  destruct (String.eqb_spec c n) as [-> | Hne].
  - split; [discriminate | tauto].
  - destruct (position c names) as [j |]; simpl.
    + split; [discriminate |]. intros H. exfalso.
      assert (Hn : ~ In c names) by tauto.
      apply IH in Hn. discriminate.
    + split; [| reflexivity]. intros _ [E | Hin]; [congruence |].
      now apply (proj1 IH).
Qed.

Lemma position_snoc (c : string) (names : list string) :
  position c names = None -> position c (names ++ [c]) = Some (List.length names).
Proof.
  induction names as [| n names IH]; simpl; intros H.
  - now rewrite String.eqb_refl.
  - destruct (String.eqb c n); [discriminate |].
    destruct (position c names); [discriminate |]. now rewrite IH.
Qed.

Lemma remove_nth_snoc {A : Type} (l : list A) (x : A) :
  remove_nth (List.length l) (l ++ [x]) = l.
Proof. induction l as [| y l IH]; simpl; [reflexivity | now rewrite IH]. Qed.

Lemma remove_nth_set_nth {A : Type} (j : nat) (v : A) (l : list A) :
  remove_nth j (set_nth j v l) = remove_nth j l.
Proof.
  revert j; induction l as [| y l IH]; intros [| j]; simpl; try reflexivity.
  now rewrite IH.
Qed.

Lemma nth_set_nth {A : Type} (j : nat) (v d : A) (l : list A) :
  j < List.length l -> nth j (set_nth j v l) d = v.
Proof.
  revert j; induction l as [| y l IH]; intros [| j]; simpl; intros H;
    try lia; [reflexivity | apply IH; lia].
Qed.

Lemma remove_nth_map {A B : Type} (f : A -> B) (j : nat) (l : list A) :
  remove_nth j (map f l) = map f (remove_nth j l).
Proof.
  revert j; induction l as [| y l IH]; intros [| j]; simpl; try reflexivity.
  now rewrite IH.
Qed.

Lemma remove_nth_In {A : Type} (j : nat) (l : list A) (x : A) :
  In x (remove_nth j l) -> In x l.
Proof.
  revert j; induction l as [| y l IH]; intros [| j]; simpl; auto.
  intros [H | H]; eauto.
Qed.

Lemma remove_nth_NoDup {A : Type} (j : nat) (l : list A) :
  NoDup l -> NoDup (remove_nth j l).
Proof.
  intros ND; revert j; induction ND as [| y l Hy ND IH]; intros [| j]; simpl;
    try constructor; auto.
  intros H. apply Hy. eapply remove_nth_In; eauto.
Qed.

Lemma remove_nth_In_iff {A : Type} (j : nat) (l : list A) (d x : A) :
  NoDup l -> j < List.length l ->
  In x (remove_nth j l) <-> In x l /\ x <> nth j l d.
Proof.
  intros ND; revert j; induction ND as [| y l Hy ND IH]; intros [| j]; simpl;
    intros Hj; try lia.
  - split.
    + intros H. split; [auto |]. intros ->. contradiction.
    + intros [[-> | H] Hne]; [congruence | assumption].
  - rewrite IH by lia. split.
    + intros [-> | [H Hne]]; [| tauto]. split; [auto |].
      intros ->. apply Hy. apply nth_In. lia.
    + intros [[-> | H] Hne]; tauto.
Qed.

(** ** Sorting through a map *)

Lemma insert_map {A B : Type} (h : A -> B) (leb : B -> B -> bool) (x : A) (l : list A) :
  insert leb (h x) (map h l) = map h (insert (fun a b => leb (h a) (h b)) x l).
Proof.
  induction l as [| y l IH]; simpl; [reflexivity |].
  destruct (leb (h x) (h y)); simpl; [reflexivity | now rewrite IH].
Qed.

Lemma isort_map {A B : Type} (h : A -> B) (leb : B -> B -> bool) (l : list A) :
  isort leb (map h l) = map h (isort (fun a b => leb (h a) (h b)) l).
Proof.
  induction l as [| x l IH]; simpl; [reflexivity |].
  now rewrite IH, insert_map.
Qed.

Lemma isort_ext {A : Type} (leb leb' : A -> A -> bool) (l : list A) :
  (forall a b, leb a b = leb' a b) -> isort leb l = isort leb' l.
Proof.
  intros H; induction l as [| x l IH]; simpl; [reflexivity |].
  rewrite IH. generalize (isort leb' l). intros r.
  induction r as [| y r IHr]; simpl; [reflexivity |].
  now rewrite H, IHr.
Qed.

(** ** Frames with one row per label *)

Lemma combine_rows {B : Type} (F : list value -> B -> list value)
    (cells : value -> list value) (g : value -> B) (idx : list value) :
  map (fun rv => (fst (fst rv), F (snd (fst rv)) (snd rv)))
      (combine (map (fun a => (a, cells a)) idx) (map g idx))
  = map (fun a => (a, F (cells a) (g a))) idx.
Proof. induction idx as [| a idx IH]; simpl; [reflexivity | now rewrite IH]. Qed.

Lemma setitem_table_of names cells idx c (g : value -> value) :
  setitem (table_of names cells idx) c (map g idx)
  = match position c names with
    | Some j => table_of names (fun a => set_nth j (g a) (cells a)) idx
    | None => table_of (names ++ [c]) (fun a => cells a ++ [g a]) idx
    end.
Proof.
  unfold setitem, table_of; simpl. destruct (position c names) as [j |]; f_equal.
  - apply (combine_rows (fun l v => set_nth j v l)).
  - apply (combine_rows (fun l v => l ++ [v])).
Qed.

Lemma sum_axis1_table_of names cells idx :
  sum_axis1 (table_of names cells idx)
  = map (fun a => VInt (fold_right Z.add 0%Z (map as_int (cells a)))) idx.
Proof. unfold sum_axis1, table_of; simpl. now rewrite map_map. Qed.

(** *** Rows taken at the positions of a sort *)

Lemma take_In {A : Type} (idx : list nat) (l : list A) (x : A) :
  In x (take idx l) -> In x l.
Proof.
  unfold take. intros H. apply in_flat_map in H as (i & _ & H).
  destruct (nth_error l i) as [y |] eqn:E; [| contradiction].
  destruct H as [<- | []]. now apply nth_error_In in E.
Qed.

Lemma take_map {A B : Type} (f : A -> B) (idx : list nat) (l : list A) :
  take idx (map f l) = map f (take idx l).
Proof.
  unfold take. induction idx as [| i idx IH]; [reflexivity |].
  cbn [flat_map]. rewrite map_app, IH, nth_error_map.
  now destruct (nth_error l i).
Qed.

Lemma take_seq {A : Type} (a l : list A) :
  take (seq (List.length a) (List.length l)) (a ++ l) = l.
Proof.
  revert a. induction l as [| x l IH]; intros a; [reflexivity |].
  cbn [List.length seq]. unfold take. cbn [flat_map].
  rewrite nth_error_app2, Nat.sub_diag by lia. cbn [nth_error app]. f_equal.
  specialize (IH (a ++ [x])). rewrite length_app, <- app_assoc in IH.
  cbn [List.length app] in IH. rewrite Nat.add_1_r in IH. exact IH.
Qed.

Lemma take_perm {A : Type} (idx : list nat) (l : list A) :
  Permutation idx (seq 0 (List.length l)) -> Permutation (take idx l) l.
Proof.
  intros H. pose proof (take_seq [] l) as E. cbn [List.length app] in E.
  rewrite <- E at 2. unfold take. now apply Permutation_flat_map.
Qed.

Lemma nth_map_error {A : Type} (key : A -> Z) (l : list A) (i : nat) (x : A) :
  nth_error l i = Some x -> nth i (map key l) 0%Z = key x.
Proof.
  intros H. apply (nth_error_nth (map key l) i 0%Z).
  now rewrite nth_error_map, H.
Qed.

Lemma take_sorted {A : Type} (key : A -> Z) (idx : list nat) (l : list A) :
  StronglySorted (fun i j => (nth j (map key l) 0 <= nth i (map key l) 0)%Z) idx ->
  StronglySorted (fun x y => (key y <= key x)%Z) (take idx l).
Proof.
  induction 1 as [| i idx _ IH Hall]; [constructor |].
  unfold take in *. cbn [flat_map].
  destruct (nth_error l i) as [x |] eqn:E; [| exact IH].
  cbn [app]. constructor; [exact IH |].
  apply Forall_forall. intros y Hy. apply in_flat_map in Hy as (j & Hj & Hy).
  destruct (nth_error l j) as [z |] eqn:Ej; [| contradiction].
  destruct Hy as [<- | []].
  rewrite Forall_forall in Hall. specialize (Hall j Hj).
  now rewrite (nth_map_error key l i x E), (nth_map_error key l j z Ej) in Hall.
Qed.

(** A sort of the library applied to a list whose keys are [map key l]:
    the same elements, by decreasing key. *)
Lemma take_sorts {A : Type} (argsort : list Z -> list nat) (key : A -> Z) (l : list A) :
  sorts_desc argsort ->
  Permutation (take (argsort (map key l)) l) l
  /\ StronglySorted (fun x y => (key y <= key x)%Z) (take (argsort (map key l)) l).
Proof.
  intros H. destruct (H (map key l)) as [HP HS]. rewrite length_map in HP.
  split; [now apply take_perm | now apply take_sorted].
Qed.

Lemma combine_seq_nth (keys : list Z) (s : nat) (k : Z) (i : nat) :
  In (k, i) (combine keys (seq s (List.length keys))) ->
  s <= i /\ nth (i - s) keys 0%Z = k.
Proof.
  revert s. induction keys as [| k0 keys IH]; intros s H; [contradiction |].
  cbn [List.length seq combine] in H. destruct H as [[= <- <-] | H].
  - rewrite Nat.sub_diag. split; [lia | reflexivity].
  - apply IH in H as [Hle <-]. split; [lia |].
    replace (i - s) with (S (i - S s)) by lia. reflexivity.
Qed.

Lemma map_snd_combine_seq {A : Type} (l : list A) (s : nat) :
  map snd (combine l (seq s (List.length l))) = seq s (List.length l).
Proof.
  revert s. induction l as [| x l IH]; intros s; [reflexivity |].
  cbn [List.length seq combine map snd]. now rewrite IH.
Qed.

(** The stable sort is one of the sorts the library may run. *)
Lemma stable_argsort_sorts : sorts_desc stable_argsort_desc.
Proof.
  intros keys. unfold stable_argsort_desc.
  set (leb := fun a b : Z * nat => (fst b <=? fst a)%Z).
  set (pairs := combine keys (seq 0 (List.length keys))).
  split.
  - rewrite (Permutation_map snd (isort_perm leb pairs)).
    unfold pairs. now rewrite map_snd_combine_seq.
  - apply StronglySorted_map.
    assert (Hs : StronglySorted (fun a b : Z * nat => (fst b <= fst a)%Z) (isort leb pairs)).
    { apply isort_sorted; [intros x y z; lia |].
      apply ForallOrdPairs_all. intros x y. unfold leb.
      split; intros E; [apply Z.leb_le in E | apply Z.leb_gt in E]; lia. }
    revert Hs. apply StronglySorted_impl_In.
    intros [k i] [k' i'] Hin Hin' Hle. cbn [fst snd] in *.
    apply (proj1 (isort_In _ _ _)) in Hin, Hin'.
    apply combine_seq_nth in Hin as [_ <-], Hin' as [_ <-].
    now rewrite !Nat.sub_0_r in Hle.
Qed.

Lemma sort_values_desc_table_of argsort names cells idx c j :
  position c names = Some j ->
  sort_values_desc argsort (table_of names cells idx) c
  = Ok (table_of names cells
          (take (argsort (map (fun a => as_int (nth j (cells a) VNaN)) idx)) idx)).
Proof.
  intros H. unfold sort_values_desc, table_of; cbn [col_names rows]. rewrite H.
  cbv zeta. rewrite map_map. cbn [snd]. now rewrite take_map.
Qed.

Lemma head_table_of n names cells idx :
  head n (table_of names cells idx) = table_of names cells (firstn n idx).
Proof. unfold head, table_of; simpl. now rewrite firstn_map. Qed.

Lemma drop_column_table_of names cells idx c j :
  position c names = Some j ->
  drop_column (table_of names cells idx) c
  = Ok (table_of (remove_nth j names) (fun a => remove_nth j (cells a)) idx).
Proof.
  intros H. unfold drop_column, table_of; simpl. rewrite H. do 2 f_equal.
  now rewrite map_map.
Qed.

Lemma iloc_reversed_table_of names cells idx :
  iloc_reversed (table_of names cells idx) = table_of names cells (rev idx).
Proof. unfold iloc_reversed, table_of; simpl. now rewrite map_rev. Qed.

Lemma table_of_ext names cells cells' idx :
  (forall a, In a idx -> cells a = cells' a) ->
  table_of names cells idx = table_of names cells' idx.
Proof.
  intros H. unfold table_of. f_equal. apply map_ext_in. intros a Ha.
  now rewrite H.
Qed.

(** ** The grouped table of line 103 *)

Lemma Ok_inj {A : Type} (a b : A) : Ok a = Ok b -> a = b.
Proof. intros H. now injection H. Qed.

Lemma group_keys_In (k : Series) (v : value) : In v (group_keys k) <-> In v k.
Proof. unfold group_keys. now rewrite isort_In, nodup_In. Qed.

Lemma group_keys_NoDup (k : Series) : NoDup (group_keys k).
Proof.
  unfold group_keys. eapply Permutation_NoDup.
  - symmetry. apply isort_perm.
  - apply NoDup_nodup.
Qed.

Lemma groupby_size_unstack_table (k1 k2 : Series) :
  groupby_size_unstack k1 k2
  = table_of (map label (group_keys k2))
             (fun a => map (group_cell k1 k2 a) (group_keys k2))
             (group_keys k1).
Proof. reflexivity. Qed.

Lemma list_sum_indicator {A : Type} (eq_dec : forall a b : A, {a = b} + {a <> b})
    (x : A) (l : list A) :
  NoDup l -> In x l ->
  list_sum (map (fun y => if eq_dec x y then 1 else 0) l) = 1.
Proof.
  induction 1 as [| y l Hy ND IH]; simpl; [tauto |].
  intros [-> | Hin].
  - destruct (eq_dec x x); [| congruence]. f_equal.
    clear IH ND. induction l as [| z l IHl]; simpl; [reflexivity |].
    destruct (eq_dec x z) as [-> | _]; [exfalso; apply Hy; simpl; auto |].
    apply IHl. intros H. apply Hy. simpl; auto.
  - destruct (eq_dec x y) as [-> | _]; [contradiction |]. now apply IH.
Qed.

Lemma list_sum_zero {A : Type} (l : list A) : list_sum (map (fun _ => 0) l) = 0.
Proof. induction l; simpl; auto. Qed.

Lemma list_sum_map_add {A : Type} (f g : A -> nat) (l : list A) :
  list_sum (map (fun x => f x + g x) l) = list_sum (map f l) + list_sum (map g l).
Proof. induction l as [| x l IH]; simpl; [reflexivity | rewrite IH; lia]. Qed.

(** Summing a row of the grouped table over all the values of the second
    key counts the occurrences of the first key. *)
Lemma group_row_sum (ps : list (value * value)) (cols : list value) (a : value) :
  NoDup cols -> (forall q, In q ps -> In (snd q) cols) ->
  list_sum (map (fun s => count_occ pair_eq_dec ps (a, s)) cols)
  = count_occ value_eq_dec (map fst ps) a.
Proof.
  intros ND; induction ps as [| [a' s'] ps IH]; intros Hcols.
  - simpl. apply list_sum_zero.
  - assert (Hs' : In s' cols) by (apply (Hcols (a', s')); simpl; auto).
    assert (IH' := IH (fun q Hq => Hcols q (or_intror Hq))). clear IH.
    rewrite (map_ext _ (fun s => (if pair_eq_dec (a', s') (a, s) then 1 else 0)
                                 + count_occ pair_eq_dec ps (a, s))).
    2:{ intros s. simpl. destruct (pair_eq_dec (a', s') (a, s)); reflexivity. }
    rewrite list_sum_map_add, IH'. simpl.
    destruct (value_eq_dec a' a) as [-> | Hne].
    + rewrite (map_ext _ (fun s => if value_eq_dec s' s then 1 else 0)).
      * now rewrite (list_sum_indicator value_eq_dec s' cols ND Hs').
      * intros s. destruct (pair_eq_dec (a, s') (a, s)) as [E | NE];
          destruct (value_eq_dec s' s); congruence.
    + rewrite (map_ext _ (fun _ => 0)).
      * now rewrite list_sum_zero.
      * intros s. destruct (pair_eq_dec (a', s') (a, s)); congruence.
Qed.

Lemma sum_cells (g : value -> nat) (cols : list value) :
  fold_right Z.add 0%Z (map as_int (map (fun s => VInt (Z.of_nat (g s))) cols))
  = Z.of_nat (list_sum (map g cols)).
Proof.
  induction cols as [| s cols IH]; simpl; [reflexivity |].
  rewrite IH. lia.
Qed.

Lemma map_fst_combine {A B : Type} (l1 : list A) (l2 : list B) :
  List.length l1 = List.length l2 -> map fst (combine l1 l2) = l1.
Proof.
  revert l2; induction l1 as [| x l1 IH]; intros [| y l2]; simpl; intros H;
    try reflexivity; try discriminate.
  f_equal. apply IH. lia.
Qed.

Lemma group_row_total (k1 k2 : Series) (a : value) :
  List.length k1 = List.length k2 ->
  fold_right Z.add 0%Z (map as_int (map (group_cell k1 k2 a) (group_keys k2)))
  = Z.of_nat (count_occ value_eq_dec k1 a).
Proof.
  intros Hlen. unfold group_cell.
  rewrite (sum_cells (fun s => count_occ pair_eq_dec (combine k1 k2) (a, s))).
  f_equal. rewrite group_row_sum.
  - now rewrite map_fst_combine.
  - apply group_keys_NoDup.
  - intros [x y] Hq. apply in_combine_r in Hq. now apply group_keys_In.
Qed.

Lemma remove_nth_snoc_at {A : Type} (n : nat) (l : list A) (x : A) :
  List.length l = n -> remove_nth n (l ++ [x]) = l.
Proof. intros <-. apply remove_nth_snoc. Qed.

Lemma nth_snoc_at {A : Type} (n : nat) (l : list A) (x d : A) :
  List.length l = n -> nth n (l ++ [x]) d = x.
Proof. intros <-. apply nth_middle. Qed.

(** Lines 103-106 in one step: the chart is drawn from the grouped table
    cut to the ten most frequent values of the first key, least frequent
    first, without the column called Total. *)
Lemma author_sentiment_chart_eq (libs : Libs) (k1 k2 : Series) :
  List.length k1 = List.length k2 ->
  let T0 := groupby_size_unstack k1 k2 in
  let cols' :=
    match position "Total" (map label (group_keys k2)) with
    | Some j => remove_nth j (group_keys k2)
    | None => group_keys k2
    end in
  let M := table_of (map label cols') (fun a => map (group_cell k1 k2 a) cols')
                    (rev (firstn 10 (take (argsort_desc libs (author_totals k1))
                                          (group_keys k1)))) in
  author_sentiment_chart libs k1 k2
  = (img <- plot_barh libs M ;;
     Ok (mkAuthorSentiment T0 (setitem T0 "Total" (sum_axis1 T0)) M img)).
Proof.
  intros Hlen T0 cols' M. unfold author_sentiment_chart. cbv zeta. fold T0.
  assert (HM : (sorted <- sort_values_desc (argsort_desc libs)
                            (setitem T0 "Total" (sum_axis1 T0)) "Total" ;;
                dropped <- drop_column (head 10 sorted) "Total" ;;
                Ok (iloc_reversed dropped)) = Ok M).
  { unfold T0 at 1 2. rewrite groupby_size_unstack_table, sum_axis1_table_of.
    rewrite (setitem_table_of _ _ _ _
               (fun a => VInt (fold_right Z.add 0%Z
                                 (map as_int (map (group_cell k1 k2 a) (group_keys k2)))))).
    subst M cols'.
    destruct (position "Total" (map label (group_keys k2))) as [j |] eqn:E.
    - destruct (position_Some _ _ _ E) as [Hj _]. rewrite length_map in Hj.
      rewrite (sort_values_desc_table_of _ _ _ _ _ _ E). cbn [bind].
      rewrite head_table_of, (drop_column_table_of _ _ _ _ _ E). cbn [bind].
      rewrite iloc_reversed_table_of. f_equal.
      rewrite <- remove_nth_map.
      rewrite (map_ext _ (fun a => Z.of_nat (count_occ value_eq_dec k1 a))).
      + apply table_of_ext. intros a _.
        now rewrite remove_nth_set_nth, remove_nth_map.
      + intros a.
        rewrite nth_set_nth by (now rewrite length_map).
        cbn [as_int]. now rewrite group_row_total.
    - pose proof (position_snoc _ _ E) as E'.
      rewrite (sort_values_desc_table_of _ _ _ _ _ _ E'). cbn [bind].
      rewrite head_table_of, (drop_column_table_of _ _ _ _ _ E'). cbn [bind].
      rewrite iloc_reversed_table_of. f_equal.
      rewrite remove_nth_snoc.
      rewrite (map_ext _ (fun a => Z.of_nat (count_occ value_eq_dec k1 a))).
      + apply table_of_ext. intros a _.
        apply remove_nth_snoc_at. now rewrite !length_map.
      + intros a.
        rewrite nth_snoc_at by (now rewrite !length_map).
        cbn [as_int]. now rewrite group_row_total. }
  destruct (sort_values_desc (argsort_desc libs) (setitem T0 "Total" (sum_axis1 T0)) "Total")
    as [sorted | e]; [| discriminate].
  cbn [bind] in HM |- *.
  destruct (drop_column (head 10 sorted) "Total") as [dropped | e]; [| discriminate].
  cbn [bind] in HM |- *. apply Ok_inj in HM. rewrite HM. reflexivity.
Qed.

(** ** The table behind the chart, on a batch *)

Lemma StronglySorted_map_inv {A B : Type} (f : A -> B) (R : B -> B -> Prop) (l : list A) :
  StronglySorted R (map f l) -> StronglySorted (fun x y => R (f x) (f y)) l.
Proof.
  induction l as [| a l IH]; simpl; intros H; [constructor |].
  inversion H as [| ? ? Hl Ha]; subst. constructor; [auto |].
  rewrite Forall_forall in Ha |- *. intros y Hy. apply Ha. now apply in_map.
Qed.

Lemma map_VStr_label (l : list value) :
  Forall is_str l -> map VStr (map label l) = l.
Proof.
  induction 1 as [| v l [s ->] _ IH]; simpl; [reflexivity | now rewrite IH].
Qed.

Lemma combine_map {A B C : Type} (f : A -> B) (g : A -> C) (l : list A) :
  combine (map f l) (map g l) = map (fun a => (f a, g a)) l.
Proof. induction l as [| a l IH]; simpl; [reflexivity | now rewrite IH]. Qed.

Lemma group_cell_typed (p : JSONData) (x s : string) :
  group_cell (authors_of p) (labels_of p) (VStr x) (VStr s)
  = VInt (Z.of_nat (cooccurrences x s p)).
Proof.
  unfold group_cell, authors_of, labels_of, cooccurrences. do 2 f_equal.
  rewrite combine_map. apply count_occ_map_filter. intros a.
  rewrite andb_true_iff, !String.eqb_eq. split.
  - intros [-> ->]. reflexivity.
  - intros E. injection E. auto.
Qed.

Lemma authors_keys (p : JSONData) (v : value) :
  In v (group_keys (authors_of p)) <-> exists a, In a p /\ v = VStr (author a).
Proof.
  rewrite group_keys_In. unfold authors_of. rewrite in_map_iff.
  split; intros (a & H1 & H2); exists a; auto.
Qed.

Lemma labels_keys (p : JSONData) (v : value) :
  In v (group_keys (labels_of p)) <-> exists a, In a p /\ v = VStr (sentiment_label a).
Proof.
  rewrite group_keys_In. unfold labels_of. rewrite in_map_iff.
  split; intros (a & H1 & H2); exists a; auto.
Qed.

Lemma authors_keys_str (p : JSONData) : Forall is_str (group_keys (authors_of p)).
Proof.
  apply Forall_forall. intros v Hv. apply authors_keys in Hv as (a & _ & ->).
  now exists (author a).
Qed.

Lemma labels_keys_str (p : JSONData) : Forall is_str (group_keys (labels_of p)).
Proof.
  apply Forall_forall. intros v Hv. apply labels_keys in Hv as (a & _ & ->).
  now exists (sentiment_label a).
Qed.

Lemma label_names (p : JSONData) (s : string) :
  In s (map label (group_keys (labels_of p)))
  <-> exists a, In a p /\ sentiment_label a = s.
Proof.
  rewrite in_map_iff. split.
  - intros (v & <- & Hv). apply labels_keys in Hv as (a & Ha & ->). eauto.
  - intros (a & Ha & <-). exists (VStr (sentiment_label a)). split; [reflexivity |].
    apply labels_keys. eauto.
Qed.

Lemma label_names_NoDup (p : JSONData) : NoDup (map label (group_keys (labels_of p))).
Proof.
  apply (NoDup_map_inv VStr). rewrite map_VStr_label by apply labels_keys_str.
  apply group_keys_NoDup.
Qed.

Lemma lengths_agree (p : JSONData) :
  List.length (authors_of p) = List.length (labels_of p).
Proof. unfold authors_of, labels_of. now rewrite !length_map. Qed.

(** What a run leaves in the variables of the author section. *)
Lemma author_section_Ok (libs : Libs) (p : JSONData) (L : Locals) :
  analyser_locals libs p = Ok L ->
  author_sentiment_103 (l_authors L) = groupby_size_unstack (authors_of p) (labels_of p)
  /\ author_sentiment (l_authors L)
     = setitem (groupby_size_unstack (authors_of p) (labels_of p)) "Total"
               (sum_axis1 (groupby_size_unstack (authors_of p) (labels_of p)))
  /\ top_authors_sentiment (l_authors L) = chart_table libs p
  /\ l_top L = ranking_of libs p.
Proof.
  intros H. apply analyser_locals_Ok in H as (_ & _ & H).
  apply report_of_Ok in H as (_ & _ & _ & _ & Hau & Htop & _).
  rewrite (author_sentiment_chart_eq libs _ _ (lengths_agree p)) in Hau.
  apply bind_Ok_inv in Hau as (img & _ & Hau). apply Ok_inj in Hau.
  rewrite <- Hau. cbn [author_sentiment_103 author_sentiment top_authors_sentiment].
  auto.
Qed.

(** The order of line 105 on a batch: the authors of the batch, each
    once, by decreasing number of records. *)
Lemma chart_order (libs : Libs) (p : JSONData) :
  sorts_desc (argsort_desc libs) ->
  let order := take (argsort_desc libs (author_totals (authors_of p)))
                    (group_keys (authors_of p)) in
  Permutation order (group_keys (authors_of p))
  /\ StronglySorted (fun u v => count_occ value_eq_dec (authors_of p) v
                                <= count_occ value_eq_dec (authors_of p) u) order.
Proof.
  intros H order.
  destruct (take_sorts (argsort_desc libs)
              (fun a => Z.of_nat (count_occ value_eq_dec (authors_of p) a))
              (group_keys (authors_of p)) H) as [HP HS].
  fold (author_totals (authors_of p)) in HP, HS. fold order in HP, HS.
  split; [exact HP |].
  revert HS. apply StronglySorted_impl_In. intros x y _ _ Hle. lia.
Qed.

Lemma chart_columns_str (p : JSONData) : Forall is_str (chart_columns p).
Proof.
  unfold chart_columns. pose proof (labels_keys_str p) as H.
  destruct (position _ _) as [j |]; [| exact H].
  rewrite Forall_forall in H |- *. intros v Hv. apply H.
  eapply remove_nth_In; eauto.
Qed.

Lemma chart_columns_names (p : JSONData) (s : string) :
  In s (map label (chart_columns p))
  <-> s <> "Total"%string /\ exists a, In a p /\ sentiment_label a = s.
Proof.
  rewrite <- label_names. unfold chart_columns.
  destruct (position _ _) as [j |] eqn:E.
  - destruct (position_Some _ _ _ E) as [Hj Hnth].
    rewrite <- remove_nth_map.
    rewrite (remove_nth_In_iff j _ EmptyString s (label_names_NoDup p) Hj), Hnth.
    tauto.
  - apply position_None in E. split; [| tauto].
    intros H. split; [| exact H]. intros ->. contradiction.
Qed.

Lemma chart_columns_NoDup (p : JSONData) : NoDup (map label (chart_columns p)).
Proof.
  unfold chart_columns. destruct (position _ _) as [j |].
  - rewrite <- remove_nth_map. apply remove_nth_NoDup, label_names_NoDup.
  - apply label_names_NoDup.
Qed.

Lemma chart_index_str (libs : Libs) (p : JSONData) : Forall is_str (chart_index libs p).
Proof.
  apply Forall_forall. intros v Hv. unfold chart_index in Hv.
  apply in_rev, in_firstn, take_In in Hv.
  revert v Hv. apply Forall_forall, authors_keys_str.
Qed.

(** ** Runs that succeed, runs that stop *)





(** An instant that [utcfromtimestamp] accepts but the frame cannot store
    stops the run at line 65. *)
Lemma analyser_locals_unstorable (libs : Libs) (p : JSONData) :
  p <> [] ->
  Forall (fun a => valid_epoch (published_at a) = true) p ->
  forallb storable p = false ->
  analyser_locals libs p = Raise NO_DT.
Proof.
  intros Hne Hv Hs. destruct p as [| a p]; [congruence |].
  unfold analyser_locals. rewrite (normalise_valid _ _ Hv). cbn [bind].
  now rewrite analyse_frame55, Hs.
Qed.

(** ** The label that meets the column of the totals *)

Lemma list_sum_remove_nth {A : Type} (f : A -> nat) (j : nat) (l : list A) (d : A) :
  j < List.length l ->
  list_sum (map f (remove_nth j l)) + f (nth j l d) = list_sum (map f l).
Proof.
  revert j. induction l as [| x l IH]; intros j Hj; [simpl in Hj; lia |].
  destruct j as [| j]; simpl; [lia |].
  simpl in Hj. specialize (IH j (proj2 (Nat.succ_lt_mono _ _) Hj)). lia.
Qed.

Lemma count_occ_pairs (p : JSONData) (x s : string) :
  count_occ pair_eq_dec (combine (authors_of p) (labels_of p)) (VStr x, VStr s)
  = cooccurrences x s p.
Proof.
  pose proof (group_cell_typed p x s) as H. unfold group_cell in H.
  injection H as H. now apply Nat2Z.inj.
Qed.

Lemma cooccurrences_none (x s : string) (p : JSONData) :
  (forall a, In a p -> sentiment_label a <> s) -> cooccurrences x s p = 0.
Proof.
  intros H. unfold cooccurrences. induction p as [| a p IH]; [reflexivity |].
  simpl. destruct (String.eqb (sentiment_label a) s) eqn:E.
  - apply String.eqb_eq in E. exfalso. apply (H a); [now left | exact E].
  - rewrite andb_false_r. apply IH. intros b Hb. apply H. now right.
Qed.

(** A row of the table of line 106 holds the records of its author, but
    for those labelled Total. *)
Lemma chart_row_sum (p : JSONData) (x : string) :
  list_sum (map (fun s => count_occ pair_eq_dec (combine (authors_of p) (labels_of p))
                                    (VStr x, s))
                (chart_columns p))
  + cooccurrences x "Total" p
  = mentions x p.
Proof.
  assert (Hall : list_sum (map (fun s => count_occ pair_eq_dec
                                           (combine (authors_of p) (labels_of p)) (VStr x, s))
                               (group_keys (labels_of p)))
                 = mentions x p).
  { rewrite group_row_sum.
    - now rewrite (map_fst_combine _ _ (lengths_agree p)), count_occ_authors.
    - apply group_keys_NoDup.
    - intros [u v] Hq. apply in_combine_r in Hq. now apply group_keys_In. }
  unfold chart_columns.
  destruct (position "Total" (map label (group_keys (labels_of p)))) as [j |] eqn:E.
  - destruct (position_Some _ _ _ E) as [Hj Hnth]. rewrite length_map in Hj.
    rewrite <- Hall.
    rewrite <- (list_sum_remove_nth _ j (group_keys (labels_of p)) VNaN Hj).
    f_equal.
    assert (Hv : nth j (group_keys (labels_of p)) VNaN = VStr "Total").
    { pose proof (labels_keys_str p) as Hstr. rewrite Forall_forall in Hstr.
      destruct (Hstr _ (nth_In _ VNaN Hj)) as [s Hs].
      change EmptyString with (label VNaN) in Hnth. rewrite map_nth, Hs in Hnth.
      simpl in Hnth. now rewrite Hs, Hnth. }
    rewrite Hv. symmetry. apply count_occ_pairs.
  - rewrite Hall, cooccurrences_none; [lia |].
    intros a Ha Hl. apply (proj1 (position_None _ _) E).
    apply label_names. eauto.
Qed.

(** ** The totals of line 104 and the ranking of line 119 *)

Lemma NoDup_app_disjoint {A : Type} (l1 l2 : list A) (x : A) :
  NoDup (l1 ++ l2) -> In x l1 -> In x l2 -> False.
Proof.
  induction l1 as [| y l1 IH]; intros ND H1 H2; [contradiction |].
  inversion ND as [| ? ? Hy ND']; subst.
  destruct H1 as [-> | H1]; [| now apply IH].
  apply Hy. apply in_or_app. now right.
Qed.

(** After line 104 every author of the batch has a row, whose cell in the
    column Total is the number of records of that author. *)
Lemma total_column_rows (p : JSONData) :
  let T0 := groupby_size_unstack (authors_of p) (labels_of p) in
  let T1 := setitem T0 "Total" (sum_axis1 T0) in
  exists j,
    position "Total" (col_names T1) = Some j
    /\ forall a, In a p ->
         exists cells, In (VStr (author a), cells) (rows T1)
                       /\ nth j cells VNaN = VInt (Z.of_nat (mentions (author a) p)).
Proof.
  cbv zeta. rewrite groupby_size_unstack_table, sum_axis1_table_of, setitem_table_of.
  set (names := map label (group_keys (labels_of p))).
  set (cells := fun a => map (group_cell (authors_of p) (labels_of p) a)
                             (group_keys (labels_of p))).
  assert (Hlen : forall a, List.length (cells a) = List.length names).
  { intros a. unfold cells, names. now rewrite !length_map. }
  assert (Hsum : forall x,
             VInt (fold_right Z.add 0%Z (map as_int (cells (VStr x))))
             = VInt (Z.of_nat (mentions x p))).
  { intros x. unfold cells.
    now rewrite (group_row_total _ _ _ (lengths_agree p)), count_occ_authors. }
  assert (Hkey : forall a, In a p -> In (VStr (author a)) (group_keys (authors_of p))).
  { intros a Ha. apply authors_keys. eauto. }
  destruct (position "Total" names) as [j |] eqn:E.
  - exists j. cbn [col_names table_of]. split; [exact E |].
    intros a Ha. eexists. split.
    + unfold table_of. cbn [rows]. apply in_map_iff.
      exists (VStr (author a)). split; [reflexivity | now apply Hkey].
    + apply position_Some in E as [Hj _].
      rewrite <- (Hlen (VStr (author a))) in Hj.
      rewrite (nth_set_nth _ _ _ _ Hj). apply Hsum.
  - exists (List.length names). cbn [col_names table_of].
    split; [now apply position_snoc |].
    intros a Ha. eexists. split.
    + unfold table_of. cbn [rows]. apply in_map_iff.
      exists (VStr (author a)). split; [reflexivity | now apply Hkey].
    + rewrite nth_snoc_at by apply Hlen. apply Hsum.
Qed.

(* ================================================================== *)
(** * The claims *)

(** C1. On the empty batch the endpoint raises [KeyError] for
    'published_at' at line 51, the frame of an empty batch having no column:
    nothing is returned and nothing is written, where the claim expects a
    report with the four counters at zero and an empty summary. *)
Theorem empty_batch_raises (libs : Libs) (fs : FileSystem) :
  analyser_locals libs [] = Raise (KeyError "published_at")
  /\ analyser_json libs [] fs = (Raise (KeyError "published_at"), fs)
  /\ get_rapport (snd (analyser_json libs [] fs)) = get_rapport fs.
Proof. repeat split. Qed.

(** C2. Whenever the endpoint answers, the counters it returns are the size
    of the batch and the numbers of records whose label is exactly
    "positive", "negative", "neutral"; their sum is at most the total, and
    equals it exactly when every label is one of the three. *)
Theorem kpis_count_labels (libs : Libs) (p : JSONData) (fs fs' : FileSystem)
    (r : Response) :
  analyser_json libs p fs = (Ok r, fs') ->
  total_mentions (resp_kpis r) = List.length p
  /\ kpi_positive (resp_kpis r) = count_label "positive" p
  /\ kpi_negative (resp_kpis r) = count_label "negative" p
  /\ kpi_neutral (resp_kpis r) = count_label "neutral" p
  /\ kpi_positive (resp_kpis r) + kpi_negative (resp_kpis r) + kpi_neutral (resp_kpis r)
       <= total_mentions (resp_kpis r)
  /\ (kpi_positive (resp_kpis r) + kpi_negative (resp_kpis r) + kpi_neutral (resp_kpis r)
        = total_mentions (resp_kpis r)
      <-> Forall (fun a => canonical_label (sentiment_label a)) p).
Proof.
  unfold analyser_json. intros H.
  destruct (analyser_locals libs p) as [L | e] eqn:HL; [| discriminate].
  injection H as <- _.
  apply analyser_locals_Ok in HL as (_ & _ & HL).
  unfold report_of in HL.
  apply bind_Ok_inv in HL as (img & _ & HL).
  apply bind_Ok_inv in HL as (kw & _ & HL).
  apply bind_Ok_inv in HL as (au & _ & HL).
  injection HL as <-. cbn [resp_kpis l_kpis kpis_of total_mentions kpi_positive
                           kpi_negative kpi_neutral].
  rewrite !sum_true_eq_scalar.
  destruct (count_label_canonical p) as [Hle Heq]. tauto.
Qed.

Lemma kpis_count_labels_witness :
  exists r fs',
    analyser_json stub_libs example_batch no_files = (Ok r, fs')
    /\ total_mentions (resp_kpis r) = 3 /\ kpi_positive (resp_kpis r) = 2
    /\ kpi_negative (resp_kpis r) = 1 /\ kpi_neutral (resp_kpis r) = 0.
Proof.
  destruct (analyser_json stub_libs example_batch no_files) as [[r | e] fs'] eqn:E.
  - exists r, fs'. split; [reflexivity |].
    destruct (kpis_count_labels stub_libs example_batch no_files fs' r E)
      as (H1 & H2 & H3 & H4 & _).
    split; [exact H1 |]. split; [exact H2 |]. split; [exact H3 | exact H4].
  - exfalso. vm_compute in E. discriminate E.
Defined.

(** C3. The daily series has one entry per calendar day (UTC) on which a
    record of the batch was published, holding the number of records of that
    day; its dates are strictly ascending, hence without repetition, and
    its counts add up to the size of the batch. *)
Theorem daily_series_by_date (libs : Libs) (p : JSONData) (L : Locals) :
  analyser_locals libs p = Ok L ->
  let series := mentions_over_time (l_evolution L) in
  (forall v n, In (v, n) series <->
               exists a, In a p /\ v = VDate (published_at a / 86400)%Z
                         /\ n = day_count (published_at a / 86400)%Z p)
  /\ StronglySorted (fun x y => date_lt (fst x) (fst y)) series
  /\ NoDup (map fst series)
  /\ list_sum (map snd series) = List.length p.
Proof.
  intros H. apply analyser_locals_Ok in H as (_ & _ & H).
  apply report_of_Ok in H as (_ & Hev & _). cbv zeta. rewrite Hev.
  cbn [mentions_over_time]. clear Hev.
  pose proof (isort_perm by_label (value_counts (periods_of p))) as P.
  fold (sort_index (value_counts (periods_of p))) in P. fold (daily_series p) in P.
  destruct (ranked_spec value_eq_dec (periods_of p)) as (ND & Hin & Hsum).
  fold (value_counts (periods_of p)) in ND, Hin, Hsum.
  split; [| split; [| split]].
  - intros v n. split.
    + intros Hvn. apply (Permutation_in _ P) in Hvn.
      apply Hin in Hvn as [Hv ->].
      apply in_map_iff in Hv as (a & <- & Ha).
      exists a. rewrite count_occ_periods. auto.
    + intros (a & Ha & -> & ->).
      apply (Permutation_in _ (Permutation_sym P)). apply Hin.
      rewrite count_occ_periods. split; [| reflexivity].
      now apply (in_map (fun a => VDate (published_at a / 86400)%Z)).
  - apply daily_series_sorted.
  - eapply Permutation_NoDup; [| exact ND]. apply Permutation_map. now symmetry.
  - rewrite <- (length_map (fun a => VDate (published_at a / 86400)%Z) p).
    fold (periods_of p). rewrite <- Hsum. apply list_sum_perm.
    now apply Permutation_map.
Qed.

Lemma daily_series_by_date_witness :
  exists L, analyser_locals stub_libs example_batch = Ok L
            /\ mentions_over_time (l_evolution L) = [(VDate 19675, 2); (VDate 19676, 1)]
            /\ list_sum (map snd (mentions_over_time (l_evolution L))) = 3.
Proof.
  destruct (analyser_locals stub_libs example_batch) as [L | e] eqn:E.
  - exists L. split; [reflexivity |].
    destruct (daily_series_by_date stub_libs example_batch L E) as (_ & _ & _ & Hsum).
    split; [| exact Hsum].
    vm_compute in E. injection E as <-. reflexivity.
  - exfalso. vm_compute in E. discriminate E.
Defined.

(** C4. When the batch carries a keyword, the frequency table is the
    tally of the lowercased keywords of all records taken in order: one entry
    per distinct keyword with its number of occurrences, the counts adding up
    to the number of keyword occurrences of the batch; the top keywords are
    the first six of the ranking by decreasing frequency in which keywords
    that tie follow the order of their first appearance. *)
Theorem keyword_frequency_top6 (libs : Libs) (p : JSONData) (L : Locals) :
  analyser_locals libs p = Ok L ->
  Exists (fun a => keywords a <> []) p ->
  let kw := l_keywords L in
  all_keywords kw = flat_map (fun a => map (str_lower libs) (keywords a)) p
  /\ NoDup (map fst (counter kw))
  /\ (forall k n, In (k, n) (counter kw) <->
                  In k (all_keywords kw) /\ n = count_occ string_dec (all_keywords kw) k)
  /\ list_sum (map snd (counter kw)) = list_sum (map (fun a => List.length (keywords a)) p)
  /\ exists ranking,
       top_keywords kw = firstn 6 ranking
       /\ NoDup ranking
       /\ (forall k, In k ranking <-> In k (all_keywords kw))
       /\ StronglySorted (ranks_before string_dec (all_keywords kw)) ranking.
Proof.
  intros H Hex. apply analyser_locals_Ok in H as (_ & _ & H).
  apply report_of_Ok in H as (_ & _ & _ & Hkw & _).
  assert (Hne : keywords_of libs p <> []).
  { apply Exists_exists in Hex as (a & Ha & Hk). intros E.
    apply (f_equal (@List.length string)) in E. rewrite keywords_of_length in E.
    simpl in E. apply in_split in Ha as (l1 & l2 & ->).
    rewrite map_app, list_sum_app in E. simpl in E.
    destruct (keywords a); [congruence | simpl in E; lia]. }
  destruct (keyword_summary_Ok _ _ _ Hne Hkw) as (Hall & _ & Hc & Ht & _).
  cbv zeta. rewrite Hc, Ht, Hall. unfold Counter, most_common.
  destruct (tally_spec string_dec (keywords_of libs p)) as [ND Hin].
  split; [reflexivity |]. split; [exact ND |]. split; [exact Hin |].
  split; [now rewrite tally_sum, keywords_of_length |].
  exists (map fst (isort by_count_desc (tally string_dec (keywords_of libs p)))).
  destruct (ranked_spec string_dec (keywords_of libs p)) as (ND' & _ & _).
  split; [now rewrite firstn_map |]. split; [exact ND' |].
  split; [apply ranked_keys | apply ranked_sorted].
Qed.

Lemma keyword_frequency_top6_witness :
  exists L, analyser_locals stub_libs example_batch = Ok L
            /\ counter (l_keywords L) = [("ai"%string, 2); ("policy"%string, 1)]
            /\ top_keywords (l_keywords L) = ["ai"%string; "policy"%string]
            /\ list_sum (map snd (counter (l_keywords L))) = 3.
Proof.
  destruct (analyser_locals stub_libs example_batch) as [L | e] eqn:E.
  - exists L. split; [reflexivity |].
    assert (Hex : Exists (fun a => keywords a <> []) example_batch)
      by (left; discriminate).
    destruct (keyword_frequency_top6 stub_libs example_batch L E Hex)
      as (_ & _ & _ & Hsum & _).
    split; [| split; [| exact Hsum]];
      vm_compute in E; injection E as <-; reflexivity.
  - exfalso. vm_compute in E. discriminate E.
Defined.

(** C5. The sentence of lines 94-98 lists the top keywords in their rank
    order, the last one after " et " and the others before it, separated by
    commas. With a single top keyword it keeps the conjunction: the list of
    the others is empty and the sentence reads "... sont  et k.", where the
    claim expects the keyword alone. *)
Theorem summary_sentence_shape (libs : Libs) (p : JSONData) (L : Locals)
    (ks : list string) (k : string) :
  analyser_locals libs p = Ok L ->
  top_keywords (l_keywords L) = ks ++ [k] ->
  summary_text (l_keywords L)
  = String.concat EmptyString
      [ "Les mots-clés les plus récurrents dans la couverture médiatique sont ";
        join ", " ks; " et "; k; ". ";
        "Cela reflète les thématiques principales abordées dans les articles analysés." ]%string
  /\ (ks = [] ->
      summary_text (l_keywords L)
      = ("Les mots-clés les plus récurrents dans la couverture médiatique sont  et "
         ++ k ++
         ". Cela reflète les thématiques principales abordées dans les articles analysés.")%string).
Proof.
  intros H Hk. apply analyser_locals_Ok in H as (_ & _ & H).
  apply report_of_Ok in H as (_ & _ & _ & Hkw & _).
  destruct (keywords_of libs p) as [| w ws] eqn:E.
  - rewrite keyword_summary_nil in Hkw. apply Ok_inj in Hkw.
    rewrite <- Hkw in Hk. destruct ks; discriminate.
  - apply keyword_summary_Ok in Hkw as (_ & _ & _ & _ & _ & Hs); [| discriminate].
    rewrite Hs, Hk, summary_sentence_snoc. split; [reflexivity |].
    intros ->. reflexivity.
Qed.

Lemma summary_sentence_shape_witness :
  exists L,
    analyser_locals stub_libs single_keyword_batch = Ok L
    /\ top_keywords (l_keywords L) = ["ai"%string]
    /\ summary_text (l_keywords L)
       = ("Les mots-clés les plus récurrents dans la couverture médiatique sont  et ai. "
          ++ "Cela reflète les thématiques principales abordées dans les articles analysés.")%string.
Proof.
  destruct (analyser_locals stub_libs single_keyword_batch) as [L | e] eqn:E.
  - exists L. split; [reflexivity |].
    assert (Hk : top_keywords (l_keywords L) = [] ++ ["ai"%string])
      by (vm_compute in E; injection E as <-; reflexivity).
    split; [exact Hk |].
    exact (proj2 (summary_sentence_shape stub_libs single_keyword_batch L [] "ai" E Hk)
                 eq_refl).
  - exfalso. vm_compute in E. discriminate E.
Defined.




(** C7. What lines 103-106 leave in the table behind the sentiment
    chart, the sort of line 105 being any sort by decreasing total: at
    most ten rows, each an author of the batch (all of them when fewer
    than ten rows come out); no author left out has more records than an
    author kept, and the rows run from the smallest number of records to
    the largest; the cell of an author and a label is the number of
    records with that author and that label. The columns are the labels of
    the batch other than Total: line 104 stores the totals under that name,
    over the column of a label so spelled, and line 105 drops it, so the
    records labelled Total are in no cell and a row adds up to the records
    of its author less those. *)
Theorem top_authors_sentiment_matrix (libs : Libs) (p : JSONData) (L : Locals) :
  sorts_desc (argsort_desc libs) ->
  analyser_locals libs p = Ok L ->
  let M := top_authors_sentiment (l_authors L) in
  exists kept : list string,
    map fst (rows M) = map VStr kept
    /\ NoDup kept
    /\ List.length kept <= 10
    /\ (forall x, In x kept -> exists a, In a p /\ author a = x)
    /\ (List.length kept < 10 -> forall a, In a p -> In (author a) kept)
    /\ (forall x a, In x kept -> In a p -> ~ In (author a) kept ->
                    mentions (author a) p <= mentions x p)
    /\ StronglySorted (fun x y => mentions x p <= mentions y p) kept
    /\ NoDup (col_names M)
    /\ (forall s, In s (col_names M)
                  <-> s <> "Total"%string /\ exists a, In a p /\ sentiment_label a = s)
    /\ (forall x cells, In (VStr x, cells) (rows M) ->
          cells = map (fun s => VInt (Z.of_nat (cooccurrences x s p))) (col_names M))
    /\ (forall x cells, In (VStr x, cells) (rows M) ->
          (fold_right Z.add 0 (map as_int cells) + Z.of_nat (cooccurrences x "Total" p)
           = Z.of_nat (mentions x p))%Z).
Proof.
  intros Hsort H. apply author_section_Ok in H as (_ & _ & HM & _).
  cbv zeta. rewrite HM. clear HM L.
  unfold chart_table, table_of. cbn [col_names rows].
  destruct (chart_order libs p Hsort) as [HP Hsorted].
  set (order := take (argsort_desc libs (author_totals (authors_of p)))
                     (group_keys (authors_of p))) in HP, Hsorted.
  assert (Hidx : chart_index libs p = rev (firstn 10 order)) by reflexivity.
  assert (Hkept : map VStr (map label (chart_index libs p)) = chart_index libs p)
    by apply map_VStr_label, chart_index_str.
  assert (Horder : forall v, In v order <-> exists a, In a p /\ v = VStr (author a)).
  { intros v. rewrite <- authors_keys.
    split; apply Permutation_in; [exact HP | now symmetry]. }
  assert (NDorder : NoDup order).
  { eapply Permutation_NoDup; [symmetry; exact HP | apply group_keys_NoDup]. }
  exists (map label (chart_index libs p)).
  split; [| split; [| split; [| split; [| split; [| split; [| split; [| split;
    [| split; [| split]]]]]]]]].
  - rewrite map_map. cbn [fst]. rewrite map_id. now rewrite Hkept.
  - apply (NoDup_map_inv VStr). rewrite Hkept, Hidx.
    apply NoDup_rev. rewrite <- (firstn_skipn 10 order) in NDorder.
    now apply NoDup_app_remove_r in NDorder.
  - rewrite length_map, Hidx, length_rev. apply firstn_le_length.
  - intros x Hx. apply (in_map VStr) in Hx. rewrite Hkept, Hidx in Hx.
    apply in_rev, in_firstn, Horder in Hx as (a & Ha & E).
    injection E as ->. eauto.
  - rewrite length_map, Hidx, length_rev, length_firstn. intros Hlt a Ha.
    assert (Hin : In (VStr (author a)) (chart_index libs p)).
    { rewrite Hidx. apply in_rev. rewrite rev_involutive.
      rewrite firstn_all2 by lia. apply Horder. eauto. }
    rewrite <- Hkept in Hin. apply in_map_iff in Hin as (x & E & Hx).
    injection E as <-. exact Hx.
  - intros x a Hx Ha Hout.
    rewrite <- !count_occ_authors.
    apply (StronglySorted_firstn_skipn _ 10 order Hsorted).
    + apply (in_map VStr) in Hx. rewrite Hkept, Hidx in Hx. now apply in_rev in Hx.
    + assert (Hin : In (VStr (author a)) order) by (apply Horder; eauto).
      rewrite <- (firstn_skipn 10 order) in Hin.
      apply in_app_or in Hin as [Hin | Hin]; [| exact Hin].
      exfalso. apply Hout. apply in_rev in Hin. rewrite <- Hidx, <- Hkept in Hin.
      apply in_map_iff in Hin as (y & E & Hy). injection E as <-. exact Hy.
  - apply (StronglySorted_firstn _ 10) in Hsorted.
    apply StronglySorted_rev in Hsorted. rewrite <- Hidx, <- Hkept in Hsorted.
    apply StronglySorted_map_inv in Hsorted. revert Hsorted.
    apply StronglySorted_impl_In. intros x y _ _.
    now rewrite !count_occ_authors.
  - apply chart_columns_NoDup.
  - apply chart_columns_names.
  - intros x cells Hin. apply in_map_iff in Hin as (v & E & _).
    injection E as -> <-. rewrite map_map. apply map_ext_in. intros s Hs.
    pose proof (chart_columns_str p) as Hstr. rewrite Forall_forall in Hstr.
    destruct (Hstr s Hs) as [s' ->]. apply group_cell_typed.
  - intros x cells Hin. apply in_map_iff in Hin as (v & E & _).
    injection E as -> <-. unfold group_cell.
    rewrite (sum_cells (fun s => count_occ pair_eq_dec
                                   (combine (authors_of p) (labels_of p)) (VStr x, s))).
    rewrite <- Nat2Z.inj_add. f_equal. apply chart_row_sum.
Qed.

Lemma top_authors_sentiment_matrix_witness :
  exists L, analyser_locals stub_libs total_label_batch = Ok L
            /\ top_authors_sentiment (l_authors L)
               = {| col_names := ["positive"]%string;
                    rows := [ (VStr "Bob", [VInt 0]); (VStr "Ana", [VInt 1]) ] |}
            /\ mentions "Ana" total_label_batch = 2
            /\ cooccurrences "Ana" "Total" total_label_batch = 1
            /\ (1 + Z.of_nat (cooccurrences "Ana" "Total" total_label_batch)
                = Z.of_nat (mentions "Ana" total_label_batch))%Z.
Proof.
  destruct (analyser_locals stub_libs total_label_batch) as [L | e] eqn:E.
  - exists L. split; [reflexivity |].
    destruct (top_authors_sentiment_matrix stub_libs total_label_batch L
                stable_argsort_sorts E)
      as (kept & _ & _ & _ & _ & _ & _ & _ & _ & _ & _ & Hsum).
    assert (HM : top_authors_sentiment (l_authors L)
                 = {| col_names := ["positive"]%string;
                      rows := [ (VStr "Bob", [VInt 0]); (VStr "Ana", [VInt 1]) ] |}).
    { vm_compute in E. injection E as <-. reflexivity. }
    split; [exact HM |]. split; [reflexivity |]. split; [reflexivity |].
    apply (Hsum "Ana"%string [VInt 1]). rewrite HM. right. left. reflexivity.
  - exfalso. vm_compute in E. discriminate E.
Defined.

(** C8. The table of authors has at most five rows (all the authors when
    fewer than five rows come out), each an author of the batch with the
    number of records they wrote, largest count first; an author left out
    has no more records than any author listed. *)
Theorem top_authors_table (libs : Libs) (p : JSONData) (L : Locals) :
  analyser_locals libs p = Ok L ->
  let table := top_rows (l_top L) in
  List.length table <= 5
  /\ (forall v n, In (v, n) table ->
                  exists a, In a p /\ v = VStr (author a) /\ n = mentions (author a) p)
  /\ NoDup (map fst table)
  /\ StronglySorted (fun r1 r2 => snd r2 <= snd r1) table
  /\ (forall a r, In a p -> ~ In (VStr (author a)) (map fst table) ->
                  In r table -> mentions (author a) p <= snd r)
  /\ (List.length table < 5 ->
      forall a, In a p -> In (VStr (author a)) (map fst table))
  /\ top_table (l_top L) = to_html libs table.
Proof.
  intros H. apply analyser_locals_Ok in H as (_ & _ & H).
  apply report_of_Ok in H as (_ & _ & _ & _ & _ & Htop & _). cbv zeta. rewrite Htop.
  cbn [top_rows top_table ranking_of]. clear Htop.
  set (vc := value_counts (authors_of p)).
  destruct (ranked_spec value_eq_dec (authors_of p)) as (ND & Hin & _).
  fold (value_counts (authors_of p)) in ND, Hin. fold vc in ND, Hin.
  pose proof (ranked_by_count value_eq_dec (authors_of p)) as Hs.
  fold (value_counts (authors_of p)) in Hs. fold vc in Hs.
  assert (Hkeys : forall a, In a p -> In (VStr (author a)) (map fst vc)).
  { intros a Ha. apply in_map_iff.
    exists (VStr (author a), count_occ value_eq_dec (authors_of p) (VStr (author a))).
    split; [reflexivity |]. apply Hin. split; [| reflexivity].
    now apply (in_map (fun a => VStr (author a))). }
  repeat split.
  - apply firstn_le_length.
  - intros v n Hvn. apply in_firstn in Hvn. apply Hin in Hvn as [Hv ->].
    apply in_map_iff in Hv as (a & <- & Ha).
    exists a. rewrite count_occ_authors. auto.
  - rewrite <- firstn_map. clear - ND. revert ND. generalize (map fst vc).
    intros l ND. rewrite <- (firstn_skipn 5 l) in ND.
    now apply NoDup_app_remove_r in ND.
  - now apply StronglySorted_firstn.
  - intros a r Ha Hout Hr.
    specialize (Hkeys a Ha). apply in_map_iff in Hkeys as ([v n] & Ev & Hvn).
    simpl in Ev. subst v.
    assert (Hn : n = mentions (author a) p).
    { apply Hin in Hvn as [_ ->]. apply count_occ_authors. }
    rewrite <- Hn. change n with (snd (VStr (author a), n)).
    apply (StronglySorted_firstn_skipn _ 5 vc Hs); [exact Hr |].
    rewrite <- (firstn_skipn 5 vc) in Hvn. apply in_app_or in Hvn as [Hvn | Hvn];
      [| exact Hvn].
    exfalso. apply Hout. apply in_map_iff. exists (VStr (author a), n). auto.
  - intros Hlt a Ha. rewrite firstn_all2; [now apply Hkeys |].
    rewrite length_firstn in Hlt. lia.
Qed.

Lemma top_authors_table_witness :
  exists L, analyser_locals stub_libs example_batch = Ok L
            /\ top_rows (l_top L) = [(VStr "Ana", 2); (VStr "Bob", 1)]
            /\ List.length (top_rows (l_top L)) <= 5.
Proof.
  destruct (analyser_locals stub_libs example_batch) as [L | e] eqn:E.
  - exists L. split; [reflexivity |].
    destruct (top_authors_table stub_libs example_batch L E) as (Hlen & _).
    split; [| exact Hlen].
    vm_compute in E. injection E as <-. reflexivity.
  - exfalso. vm_compute in E. discriminate E.
Defined.

(** C9. When [utcfromtimestamp] refuses the timestamp of some record, the
    endpoint raises that very exception (a [ValueError], an [OverflowError] or
    an [OSError]) at line 51: no response is built, the file system is left
    as it was, and [get_rapport] still serves what it served before. *)
Theorem invalid_timestamp_aborts (libs : Libs) (p : JSONData) (fs : FileSystem) :
  Exists (fun a => valid_epoch (published_at a) = false) p ->
  exists a e,
    In a p /\ utcfromtimestamp (VInt (published_at a)) = Raise e
    /\ (exists msg, e = ValueError msg \/ e = OverflowError msg \/ e = OSError msg)
    /\ analyser_json libs p fs = (Raise e, fs)
    /\ get_rapport (snd (analyser_json libs p fs)) = get_rapport fs.
Proof.
  intros H. destruct (analyser_locals_invalid libs p H) as (a & e & Ha & He & Hr).
  exists a, e. unfold analyser_json. rewrite Hr.
  repeat split; auto. eapply utcfromtimestamp_raises; eauto.
Qed.

Lemma invalid_timestamp_aborts_witness :
  exists a e,
    In a year_10000_batch
    /\ utcfromtimestamp (VInt (published_at a)) = Raise e
    /\ (exists msg, e = ValueError msg \/ e = OverflowError msg \/ e = OSError msg)
    /\ analyser_json stub_libs year_10000_batch no_files = (Raise e, no_files)
    /\ get_rapport (snd (analyser_json stub_libs year_10000_batch no_files))
       = get_rapport no_files.
Proof.
  apply (invalid_timestamp_aborts stub_libs year_10000_batch no_files).
  right. left. reflexivity.
Defined.

(** C10. In the table grouped by author and sentiment (line 103, before
    the cut to ten authors) the columns are the labels that occur in the
    batch and every author of the batch has a row. The cells of the row of
    an author add up to the number of records of that author; line 104
    stores that sum in the column Total of the row; and the ranking of
    lines 117-119 holds that same number for the author when it lists the
    author, while an author it does not list has no more records than any
    of the five it lists. Conversely every row of the ranking names an
    author with a row in the grouped table, whose cells add up to the count
    the ranking shows. *)
Theorem author_counts_consistent (libs : Libs) (p : JSONData) (L : Locals) :
  analyser_locals libs p = Ok L ->
  let T := author_sentiment_103 (l_authors L) in
  let T1 := author_sentiment (l_authors L) in
  let table := top_rows (l_top L) in
  (forall s, In s (col_names T) <-> exists a, In a p /\ sentiment_label a = s)
  /\ (forall a, In a p -> In (VStr (author a)) (map fst (rows T)))
  /\ (forall v cells, In (v, cells) (rows T) ->
        exists x,
          v = VStr x
          /\ cells = map (fun s => VInt (Z.of_nat (cooccurrences x s p))) (col_names T)
          /\ fold_right Z.add 0%Z (map as_int cells) = Z.of_nat (mentions x p)
          /\ (exists j cells1,
                position "Total" (col_names T1) = Some j
                /\ In (v, cells1) (rows T1)
                /\ nth j cells1 VNaN = VInt (Z.of_nat (mentions x p)))
          /\ (In (v, mentions x p) table
              \/ (~ In v (map fst table)
                  /\ List.length table = 5
                  /\ forall r, In r table -> mentions x p <= snd r)))
  /\ (forall v n, In (v, n) table ->
        exists cells,
          In (v, cells) (rows T)
          /\ fold_right Z.add 0%Z (map as_int cells) = Z.of_nat n).
Proof.
  intros H. apply author_section_Ok in H as (H103 & H104 & _ & Htop).
  cbv zeta. rewrite H104, H103, Htop. clear H103 H104 Htop.
  destruct (total_column_rows p) as (j & Hj & Htotal).
  rewrite groupby_size_unstack_table in *.
  unfold table_of at 1 2 3 4 5. cbn [col_names rows ranking_of top_rows].
  set (vc := value_counts (authors_of p)).
  destruct (ranked_spec value_eq_dec (authors_of p)) as (ND & Hin & _).
  fold (value_counts (authors_of p)) in ND, Hin. fold vc in ND, Hin.
  pose proof (ranked_by_count value_eq_dec (authors_of p)) as Hs.
  fold (value_counts (authors_of p)) in Hs. fold vc in Hs.
  split; [apply label_names |]. split; [| split].
  - intros a Ha. rewrite map_map. cbn [fst]. rewrite map_id.
    apply authors_keys. eauto.
  - intros v cells Hrow. apply in_map_iff in Hrow as (v' & E & Hv).
    injection E as -> <-. apply authors_keys in Hv as (a & Ha & ->).
    exists (author a). split; [reflexivity |]. split; [| split; [| split]].
    + rewrite map_map. apply map_ext_in. intros s Hs'.
      apply labels_keys in Hs' as (b & _ & ->). apply group_cell_typed.
    + rewrite (group_row_total _ _ _ (lengths_agree p)). f_equal.
      apply count_occ_authors.
    + destruct (Htotal a Ha) as (cells1 & Hrow1 & Hcell). eauto.
    + assert (Hvc : In (VStr (author a), mentions (author a) p) vc).
      { apply Hin. split.
        - now apply (in_map (fun a => VStr (author a))).
        - symmetry. apply count_occ_authors. }
      rewrite <- (firstn_skipn 5 vc) in Hvc.
      apply in_app_or in Hvc as [Hvc | Hvc]; [now left | right].
      split; [| split].
      * intros Hlisted. rewrite <- firstn_map in Hlisted.
        rewrite <- (firstn_skipn 5 vc), map_app in ND.
        apply (NoDup_app_disjoint _ _ (VStr (author a)) ND).
        -- now rewrite <- firstn_map.
        -- apply in_map_iff. exists (VStr (author a), mentions (author a) p). auto.
      * rewrite length_firstn. apply Nat.min_l.
        destruct (Nat.le_gt_cases 5 (List.length vc)) as [Hle | Hgt]; [exact Hle |].
        rewrite skipn_all2 in Hvc by lia. contradiction.
      * intros r Hr.
        exact (StronglySorted_firstn_skipn _ 5 vc Hs r _ Hr Hvc).
  - intros v n Hvn. apply in_firstn in Hvn. apply Hin in Hvn as [Hv ->].
    apply in_map_iff in Hv as (a & <- & Ha).
    exists (map (group_cell (authors_of p) (labels_of p) (VStr (author a)))
                (group_keys (labels_of p))).
    split.
    + apply in_map_iff. exists (VStr (author a)). split; [reflexivity |].
      apply authors_keys. eauto.
    + apply (group_row_total _ _ _ (lengths_agree p)).
Qed.

Lemma author_counts_consistent_witness :
  exists L,
    analyser_locals stub_libs example_batch = Ok L
    /\ top_rows (l_top L) = [(VStr "Ana", 2); (VStr "Bob", 1)]
    /\ exists cells,
         In (VStr "Ana", cells) (rows (author_sentiment_103 (l_authors L)))
         /\ fold_right Z.add 0%Z (map as_int cells) = 2%Z.
Proof.
  destruct (analyser_locals stub_libs example_batch) as [L | e] eqn:E.
  - exists L. split; [reflexivity |].
    destruct (author_counts_consistent stub_libs example_batch L E) as (_ & _ & _ & Hrow).
    assert (Htop : top_rows (l_top L) = [(VStr "Ana", 2); (VStr "Bob", 1)]).
    { vm_compute in E. injection E as <-. reflexivity. }
    split; [exact Htop |].
    apply (Hrow (VStr "Ana") 2). rewrite Htop. left. reflexivity.
  - exfalso. vm_compute in E. discriminate E.
Defined.

(* ================================================================== *)
(** * Further properties *)

(** ** [fig_to_base64] *)

Lemma list_ind3 {A : Type} (P : list A -> Prop) :
  P [] -> (forall a, P [a]) -> (forall a b, P [a; b]) ->
  (forall a b c r, P r -> P (a :: b :: c :: r)) ->
  forall l, P l.
Proof.
  intros H0 H1 H2 H3. fix IH 1.
  intros [| a [| b [| c r]]];
    [exact H0 | exact (H1 a) | exact (H2 a b) | exact (H3 a b c r (IH r))].
Qed.

Lemma bio_write_read (data : bytes) :
  fst (bio_read (bio_seek (bio_write BytesIO_new data) 0)) = data.
Proof.
  unfold bio_read, bio_seek, bio_write, BytesIO_new. simpl.
  now rewrite skipn_nil, app_nil_r.
Qed.

Lemma fig_to_base64_eq (d : Drawing) (fig : Figure d) :
  fig_to_base64 d fig = (data <- png d fig ;; decode_utf8 (b64encode data)).
Proof.
  unfold fig_to_base64, savefig. cbv zeta.
  destruct (png d fig) as [data | e]; cbn [bind]; [| reflexivity].
  pose proof (bio_write_read data) as H.
  destruct (bio_read (bio_seek (bio_write BytesIO_new data) 0)) as [data' buf].
  simpl in H. now subst data'.
Qed.

Lemma b64encode_length (bs : bytes) :
  List.length (b64encode bs) = 4 * ((List.length bs + 2) / 3).
Proof.
  induction bs as [| a | a b | a b c r IH] using list_ind3; try reflexivity.
  cbn [b64encode List.length]. rewrite IH.
  replace (S (S (S (List.length r))) + 2) with (List.length r + 2 + 1 * 3) by lia.
  rewrite Nat.div_add by lia. lia.
Qed.

Lemma b64_char_in (n : N) : In (b64_char n) b64_bytes.
Proof.
  unfold b64_char, b64_bytes.
  destruct (nth_in_or_default (N.to_nat n) (list_byte_of_string B64_ALPHABET) B64_PAD)
    as [H | ->]; simpl; auto.
Qed.

Lemma b64encode_chars (bs : bytes) : Forall (fun b => In b b64_bytes) (b64encode bs).
Proof.
  induction bs as [| a | a b | a b c r IH] using list_ind3; cbn [b64encode];
    repeat (apply Forall_cons; [first [apply b64_char_in | left; reflexivity] |]);
    first [exact IH | apply Forall_nil].
Qed.

Lemma utf8_valid_ascii (bs : bytes) :
  Forall (fun b => byte_in 0 127 b = true) bs -> utf8_valid bs = true.
Proof.
  induction 1 as [| b r Hb _ IH]; simpl; [reflexivity |]. now rewrite Hb.
Qed.

Lemma b64_bytes_ok :
  forallb (fun b => byte_in 0 127 b && is_b64_char (ascii_of_byte b)) b64_bytes = true.
Proof. vm_compute. reflexivity. Qed.

Lemma list_ascii_of_bytes (bs : bytes) :
  list_ascii_of_string (string_of_list_byte bs) = map ascii_of_byte bs.
Proof.
  unfold string_of_list_byte. apply list_ascii_of_string_of_list_ascii.
Qed.

Lemma string_length_of_bytes (bs : bytes) :
  String.length (string_of_list_byte bs) = List.length bs.
Proof.
  unfold string_of_list_byte. induction bs as [| b bs IH]; simpl; [reflexivity |].
  now rewrite IH.
Qed.

Lemma string_of_list_byte_inj (l1 l2 : bytes) :
  string_of_list_byte l1 = string_of_list_byte l2 -> l1 = l2.
Proof.
  intros H. apply (f_equal list_byte_of_string) in H.
  now rewrite !list_byte_of_string_of_list_byte in H.
Qed.

Lemma decode_b64encode (bs : bytes) :
  decode_utf8 (b64encode bs) = Ok (string_of_list_byte (b64encode bs)).
Proof.
  unfold decode_utf8. rewrite utf8_valid_ascii; [reflexivity |].
  pose proof b64_bytes_ok as Hok. rewrite forallb_forall in Hok.
  eapply Forall_impl; [| apply b64encode_chars].
  intros b Hb. apply Hok in Hb. now apply andb_true_iff in Hb.
Qed.

Lemma b64encode_text (bs : bytes) : b64_text (string_of_list_byte (b64encode bs)).
Proof.
  split.
  - rewrite list_ascii_of_bytes, forallb_forall. intros c Hc.
    apply in_map_iff in Hc as (b & <- & Hb).
    pose proof (b64encode_chars bs) as H. rewrite Forall_forall in H.
    pose proof b64_bytes_ok as Hok. rewrite forallb_forall in Hok.
    specialize (Hok b (H b Hb)). now apply andb_true_iff in Hok.
  - rewrite string_length_of_bytes, b64encode_length.
    rewrite Nat.mul_comm. apply Nat.Div0.mod_mul.
Qed.

(** *** Reading the text back *)

Lemma sextets_In (n : N) : (n < 64)%N -> In n sextets.
Proof.
  intros H. unfold sextets. apply in_map_iff. exists (N.to_nat n).
  split; [apply N2Nat.id |]. apply in_seq. lia.
Qed.

Lemma b64_index_char (n : N) :
  (n < 64)%N ->
  b64_index (b64_char n) = Some n /\ Byte.eqb (b64_char n) B64_PAD = false.
Proof.
  intros H. apply sextets_In in H.
  assert (Hall : forallb (fun n => match b64_index (b64_char n) with
                                   | Some m => N.eqb m n
                                   | None => false
                                   end && negb (Byte.eqb (b64_char n) B64_PAD))
                         sextets = true) by (vm_compute; reflexivity).
  rewrite forallb_forall in Hall. specialize (Hall n H).
  apply andb_true_iff in Hall as [H1 H2].
  destruct (b64_index (b64_char n)) as [m |]; [| discriminate].
  apply N.eqb_eq in H1. subst m. split; [reflexivity |].
  now apply negb_true_iff in H2.
Qed.

Ltac div_lia := zify; Z.to_euclidean_division_equations; lia.

Lemma b64decode_encode (bs : bytes) : b64decode (b64encode bs) = Some bs.
Proof.
  induction bs as [| a | a b | a b c r IH] using list_ind3; [reflexivity | | |].
  - pose proof (Byte.to_N_bounded a) as Ha. cbn [b64encode b64decode].
    destruct (b64_index_char (Byte.to_N a / 4)) as [-> _]; [div_lia |].
    destruct (b64_index_char ((Byte.to_N a mod 4) * 16)) as [-> _]; [div_lia |].
    replace (Byte.to_N a / 4 * 4 + Byte.to_N a mod 4 * 16 / 16)%N with (Byte.to_N a) by div_lia.
    rewrite Byte.of_to_N. reflexivity.
  - pose proof (Byte.to_N_bounded a) as Ha. pose proof (Byte.to_N_bounded b) as Hb.
    cbn [b64encode b64decode].
    destruct (b64_index_char (Byte.to_N a / 4)) as [-> _]; [div_lia |].
    destruct (b64_index_char ((Byte.to_N a mod 4) * 16 + Byte.to_N b / 16))
      as [-> _]; [div_lia |].
    destruct (b64_index_char ((Byte.to_N b mod 16) * 4)) as [-> ->]; [div_lia |].
    replace (Byte.to_N a / 4 * 4 + (Byte.to_N a mod 4 * 16 + Byte.to_N b / 16) / 16)%N
      with (Byte.to_N a) by div_lia.
    replace ((Byte.to_N a mod 4 * 16 + Byte.to_N b / 16) mod 16 * 16
             + Byte.to_N b mod 16 * 4 / 4)%N with (Byte.to_N b) by div_lia.
    rewrite !Byte.of_to_N. reflexivity.
  - pose proof (Byte.to_N_bounded a) as Ha. pose proof (Byte.to_N_bounded b) as Hb.
    pose proof (Byte.to_N_bounded c) as Hc.
    cbn [b64encode b64decode]. rewrite IH.
    destruct (b64_index_char (Byte.to_N a / 4)) as [-> _]; [div_lia |].
    destruct (b64_index_char ((Byte.to_N a mod 4) * 16 + Byte.to_N b / 16))
      as [-> _]; [div_lia |].
    destruct (b64_index_char ((Byte.to_N b mod 16) * 4 + Byte.to_N c / 64))
      as [-> ->]; [div_lia |].
    destruct (b64_index_char (Byte.to_N c mod 64)) as [-> ->]; [div_lia |].
    replace (Byte.to_N a / 4 * 4 + (Byte.to_N a mod 4 * 16 + Byte.to_N b / 16) / 16)%N
      with (Byte.to_N a) by div_lia.
    replace ((Byte.to_N a mod 4 * 16 + Byte.to_N b / 16) mod 16 * 16
             + (Byte.to_N b mod 16 * 4 + Byte.to_N c / 64) / 4)%N
      with (Byte.to_N b) by div_lia.
    replace ((Byte.to_N b mod 16 * 4 + Byte.to_N c / 64) mod 4 * 64 + Byte.to_N c mod 64)%N
      with (Byte.to_N c) by div_lia.
    rewrite !Byte.of_to_N. reflexivity.
Qed.

Lemma fig_to_base64_Ok (d : Drawing) (fig : Figure d) (s : string) :
  fig_to_base64 d fig = Ok s ->
  exists data, png d fig = Ok data /\ s = string_of_list_byte (b64encode data).
Proof.
  rewrite fig_to_base64_eq. intros H.
  apply bind_Ok_inv in H as (data & Hp & H). rewrite decode_b64encode in H.
  apply Ok_inj in H. eauto.
Qed.

Lemma b64_text_empty : b64_text EmptyString.
Proof. split; reflexivity. Qed.

Lemma b64_text_no_quote (s : string) :
  b64_text s -> ~ In "034"%char (list_ascii_of_string s).
Proof.
  intros [H _] Hin. rewrite forallb_forall in H. apply H in Hin. discriminate Hin.
Qed.

(** X1. [fig_to_base64] raises exactly when rendering the figure raises,
    and then that exception: writing to the buffer, reading it back,
    encoding and decoding never fail. *)
Theorem fig_to_base64_raises_iff (d : Drawing) (fig : Figure d) (e : exn) :
  fig_to_base64 d fig = Raise e <-> png d fig = Raise e.
Proof.
  rewrite fig_to_base64_eq.
  destruct (png d fig) as [data | e']; cbn [bind].
  - rewrite decode_b64encode. split; discriminate.
  - split; intros [= ->]; reflexivity.
Qed.

(** X2. When the figure renders to [data], [fig_to_base64] returns a text
    over the base64 alphabet, padded with [=] to a multiple of four
    characters, of length 4 * ceil(|data| / 3). *)
Theorem fig_to_base64_text (d : Drawing) (fig : Figure d) (data : bytes) :
  png d fig = Ok data ->
  exists s,
    fig_to_base64 d fig = Ok s
    /\ b64_text s
    /\ String.length s = 4 * ((List.length data + 2) / 3).
Proof.
  intros H. exists (string_of_list_byte (b64encode data)).
  rewrite fig_to_base64_eq, H. cbn [bind]. rewrite decode_b64encode.
  split; [reflexivity |]. split; [apply b64encode_text |].
  now rewrite string_length_of_bytes, b64encode_length.
Qed.

Lemma fig_to_base64_text_witness :
  exists s,
    fig_to_base64 stub_drawing PNG_SIGNATURE = Ok s
    /\ b64_text s
    /\ String.length s = 12.
Proof.
  exact (fig_to_base64_text stub_drawing PNG_SIGNATURE PNG_SIGNATURE eq_refl).
Defined.

(** X3. [fig_to_base64] loses nothing: two figures that get the same text
    render to the same PNG file. *)
Theorem fig_to_base64_injective (d : Drawing) (f1 f2 : Figure d) (b1 b2 : bytes) :
  png d f1 = Ok b1 -> png d f2 = Ok b2 ->
  fig_to_base64 d f1 = fig_to_base64 d f2 -> b1 = b2.
Proof.
  intros H1 H2. rewrite !fig_to_base64_eq, H1, H2. cbn [bind].
  rewrite !decode_b64encode. intros H. apply Ok_inj, string_of_list_byte_inj in H.
  apply (f_equal b64decode) in H. rewrite !b64decode_encode in H.
  now injection H.
Qed.

Lemma fig_to_base64_injective_witness :
  fig_to_base64 stub_drawing PNG_SIGNATURE = Ok "iVBORw0KGgo="%string
  /\ PNG_SIGNATURE = PNG_SIGNATURE.
Proof.
  split; [reflexivity |].
  exact (fig_to_base64_injective stub_drawing PNG_SIGNATURE PNG_SIGNATURE
           PNG_SIGNATURE PNG_SIGNATURE eq_refl eq_refl eq_refl).
Defined.

(** X4. With renderers that draw and then call [fig_to_base64], the three
    image payloads of a successful run are base64 text (the keyword payload
    may be the empty text) and hold no double quote, so none can close the
    [src] attribute it is placed in. *)
Theorem drawn_payloads_are_base64 (d : Drawing) (lower : string -> string)
    (table : list (value * nat) -> string) (order : list Z -> list nat)
    (p : JSONData) (L : Locals) :
  analyser_locals (drawing_libs d lower table order) p = Ok L ->
  Forall (fun payload => b64_text payload
                         /\ ~ In "034"%char (list_ascii_of_string payload))
         [ evolution_mentions_b64 (l_evolution L);
           keywords_freq_b64 (l_keywords L);
           sentiments_auteurs_b64 (l_authors L) ].
Proof.
  intros H. apply analyser_locals_Ok in H as (_ & _ & H).
  apply report_of_Ok in H as (_ & _ & Hev & Hkw & Hau & _).
  assert (Hb : forall A (c : result A) (k : A -> result string) s,
             (forall a, k a = Ok s -> b64_text s) -> bind c k = Ok s -> b64_text s).
  { intros A c k s Hk Hc. apply bind_Ok_inv in Hc as (a & _ & Ha). eauto. }
  assert (Hfig : forall fig s, fig_to_base64 d fig = Ok s -> b64_text s).
  { intros fig s Hs. apply fig_to_base64_Ok in Hs as (data & _ & ->).
    apply b64encode_text. }
  assert (H1 : b64_text (evolution_mentions_b64 (l_evolution L))).
  { revert Hev. cbn [drawing_libs plot_mentions]. apply Hb; intros fig; apply Hfig. }
  assert (H2 : b64_text (keywords_freq_b64 (l_keywords L))).
  { destruct (keywords_of (drawing_libs d lower table order) p) as [| k ks] eqn:E.
    - rewrite keyword_summary_nil in Hkw. apply Ok_inj in Hkw. rewrite <- Hkw.
      apply b64_text_empty.
    - apply keyword_summary_Ok in Hkw as (_ & Hkw & _); [| discriminate].
      revert Hkw. cbn [drawing_libs plot_wordcloud]. apply Hb; intros fig; apply Hfig. }
  assert (H3 : b64_text (sentiments_auteurs_b64 (l_authors L))).
  { rewrite (author_sentiment_chart_eq _ _ _ (lengths_agree p)) in Hau.
    cbv zeta in Hau. apply bind_Ok_inv in Hau as (img & Himg & Hau).
    apply Ok_inj in Hau. rewrite <- Hau. cbn [sentiments_auteurs_b64].
    revert Himg. cbn [drawing_libs plot_barh]. apply Hb; intros fig; apply Hfig. }
  repeat (apply Forall_cons; [split; [| apply b64_text_no_quote]; assumption |]).
  apply Forall_nil.
Qed.

Lemma drawn_payloads_are_base64_witness :
  exists L,
    analyser_locals (drawing_libs stub_drawing lower_ascii
                                  (fun _ => "<table></table>"%string) stable_argsort_desc)
                    example_batch = Ok L
    /\ b64_text (evolution_mentions_b64 (l_evolution L))
    /\ keywords_freq_b64 (l_keywords L) = "iVBORw0KGgo="%string.
Proof.
  destruct (analyser_locals
              (drawing_libs stub_drawing lower_ascii
                            (fun _ => "<table></table>"%string) stable_argsort_desc)
              example_batch) as [L | e] eqn:E.
  - exists L. split; [reflexivity |].
    pose proof (drawn_payloads_are_base64 _ _ _ _ _ _ E) as H.
    apply Forall_cons_iff in H as [[H1 _] _].
    split; [exact H1 |].
    vm_compute in E. apply Ok_inj in E. rewrite <- E. reflexivity.
  - exfalso. vm_compute in E. discriminate E.
Defined.

(** ** Which runs fail *)






(** ** Requests in sequence *)










(** ** The frame of the batch *)

Lemma normalise_Ok (p : JSONData) (df : DataFrame) :
  normalise p = Ok df ->
  p <> [] /\ Forall (fun a => valid_epoch (published_at a) = true) p /\ df = frame55 p.
Proof.
  intros H. destruct p as [| a p]; [discriminate |].
  destruct (forallb (fun x => valid_epoch (published_at x)) (a :: p)) eqn:Hv.
  - rewrite forallb_forall in Hv. apply Forall_forall in Hv.
    rewrite (normalise_valid _ _ Hv) in H. apply Ok_inj in H.
    split; [discriminate |]. split; [exact Hv | now symmetry].
  - exfalso. apply forallb_false_Exists in Hv.
    destruct (normalise_invalid (a :: p) Hv) as (x & e & _ & _ & Hr). congruence.
Qed.

(** X8. The frame after line 55. It exists only for a batch that is not
    empty and whose instants are all valid; it has the eight columns below
    and one row per record; the two renamed columns answer to their new
    names only. *)
Theorem normalise_frame (p : JSONData) (df : DataFrame) :
  normalise p = Ok df ->
  p <> []
  /\ Forall (fun a => valid_epoch (published_at a) = true) p
  /\ col_names df
     = [ "authorName"; "content_excerpt"; "published_at"; "sentimentHumanReadable";
         "title"; "source_link"; "keywords"; "articleCreatedDate" ]%string
  /\ len df = List.length p
  /\ getitem df "authorName" = Ok (map (fun a => VStr (author a)) p)
  /\ getitem df "sentimentHumanReadable" = Ok (map (fun a => VStr (sentiment_label a)) p)
  /\ getitem df "keywords" = Ok (map (fun a => VList (keywords a)) p)
  /\ getitem df "articleCreatedDate" = Ok (map (fun a => VDatetime (published_at a)) p)
  /\ getitem df "author" = Raise (KeyError "author")
  /\ getitem df "sentiment_label" = Raise (KeyError "sentiment_label").
Proof.
  intros H. apply normalise_Ok in H as (Hne & Hv & ->).
  split; [exact Hne |]. split; [exact Hv |]. split; [reflexivity |].
  split; [apply len_frame_of |].
  unfold frame55.
  repeat split;
    try (eapply getitem_frame_of; [reflexivity | intros a; reflexivity]).
Qed.

Lemma normalise_frame_witness :
  exists df,
    normalise example_batch = Ok df
    /\ len df = 3
    /\ getitem df "authorName" = Ok [VStr "Ana"; VStr "Bob"; VStr "Ana"]
    /\ getitem df "author" = Raise (KeyError "author").
Proof.
  destruct (normalise example_batch) as [df | e] eqn:E.
  - exists df. split; [reflexivity |].
    destruct (normalise_frame example_batch df E)
      as (_ & _ & _ & Hlen & Hau & _ & _ & _ & Hold & _).
    split; [exact Hlen |]. split; [exact Hau | exact Hold].
  - exfalso. vm_compute in E. discriminate E.
Defined.

(** ** The order of the records *)

Lemma sorted_unique {A : Type} (R : A -> A -> Prop) (l1 l2 : list A) :
  (forall x y, R x y -> R y x -> False) ->
  StronglySorted R l1 -> StronglySorted R l2 ->
  (forall x, In x l1 <-> In x l2) -> l1 = l2.
Proof.
  intros Hasym H1. revert l2.
  induction H1 as [| a l1 H1 IH Ha]; intros l2 H2 Hin.
  - destruct l2 as [| b l2]; [reflexivity |].
    exfalso. apply (proj2 (Hin b)). now left.
  - destruct H2 as [| b l2 H2 Hb].
    + exfalso. apply (proj1 (Hin a)). now left.
    + rewrite Forall_forall in Ha, Hb.
      assert (Hirr : forall x, R x x -> False) by (intros x Hx; exact (Hasym x x Hx Hx)).
      assert (a = b) as <-.
      { destruct (proj1 (Hin a) (or_introl eq_refl)) as [E | Ea]; [now symmetry |].
        destruct (proj2 (Hin b) (or_introl eq_refl)) as [E | Eb]; [exact E |].
        exfalso. exact (Hasym a b (Ha b Eb) (Hb a Ea)). }
      f_equal. apply IH; [exact H2 |].
      intros x. split; intros Hx.
      * destruct (proj1 (Hin x) (or_intror Hx)) as [E | Hx']; [| exact Hx'].
        subst x. exfalso. exact (Hirr a (Ha a Hx)).
      * destruct (proj2 (Hin x) (or_intror Hx)) as [E | Hx']; [| exact Hx'].
        subst x. exfalso. exact (Hirr a (Hb a Hx)).
Qed.

Lemma Permutation_filter_length {A : Type} (f : A -> bool) (l l' : list A) :
  Permutation l l' -> List.length (filter f l) = List.length (filter f l').
Proof.
  induction 1 as [| x l l' _ IH | x y l | l l' l'' _ IH1 _ IH2]; simpl.
  - reflexivity.
  - destruct (f x); simpl; now rewrite IH.
  - destruct (f x), (f y); reflexivity.
  - now rewrite IH1.
Qed.

Lemma kpis_of_perm (p q : JSONData) : Permutation p q -> kpis_of p = kpis_of q.
Proof.
  intros H. unfold kpis_of. rewrite !sum_true_eq_scalar. unfold count_label.
  rewrite (Permutation_length H).
  now rewrite !(Permutation_filter_length _ _ _ H).
Qed.

Lemma daily_series_In (p : JSONData) (v : value) (n : nat) :
  In (v, n) (daily_series p)
  <-> In v (periods_of p) /\ n = count_occ value_eq_dec (periods_of p) v.
Proof.
  unfold daily_series, sort_index, value_counts. rewrite isort_In.
  apply (ranked_spec value_eq_dec (periods_of p)).
Qed.

Lemma daily_series_perm (p q : JSONData) :
  Permutation p q -> daily_series p = daily_series q.
Proof.
  intros H.
  assert (Hp : Permutation (periods_of p) (periods_of q))
    by (unfold periods_of; now apply Permutation_map).
  apply (sorted_unique (fun x y => date_lt (fst x) (fst y))).
  - intros [v1 n1] [v2 n2]. simpl. destruct v1, v2; simpl; try tauto. lia.
  - apply daily_series_sorted.
  - apply daily_series_sorted.
  - intros [v n]. rewrite !daily_series_In.
    rewrite (proj1 (Permutation_count_occ value_eq_dec _ _) Hp v).
    split; intros [Hin Hn]; (split; [| exact Hn]).
    + exact (Permutation_in _ Hp Hin).
    + exact (Permutation_in _ (Permutation_sym Hp) Hin).
Qed.

(** *** The order of strings *)

Lemma ascii_compare_refl (a : ascii) : Ascii.compare a a = Eq.
Proof.
  pose proof (Ascii.compare_antisym a a) as H.
  destruct (Ascii.compare a a); [reflexivity | discriminate H | discriminate H].
Qed.

Lemma ascii_compare_lt_trans (a b c : ascii) :
  Ascii.compare a b = Lt -> Ascii.compare b c = Lt -> Ascii.compare a c = Lt.
Proof.
  unfold Ascii.compare. rewrite !N.compare_lt_iff. lia.
Qed.

Lemma string_compare_lt_trans (s t u : string) :
  String.compare s t = Lt -> String.compare t u = Lt -> String.compare s u = Lt.
Proof.
  revert t u. induction s as [| a s IH]; intros [| b t] [| c u]; simpl;
    try discriminate; try reflexivity.
  destruct (Ascii.compare a b) eqn:Eab; try discriminate;
    destruct (Ascii.compare b c) eqn:Ebc; try discriminate; intros H1 H2.
  - apply Ascii.compare_eq_iff in Eab, Ebc. subst. rewrite ascii_compare_refl.
    now apply (IH t u).
  - apply Ascii.compare_eq_iff in Eab. subst. now rewrite Ebc.
  - apply Ascii.compare_eq_iff in Ebc. subst. now rewrite Eab.
  - now rewrite (ascii_compare_lt_trans a b c Eab Ebc).
Qed.

Lemma string_compare_lt_asym (s t : string) :
  String.compare s t = Lt -> String.compare t s = Lt -> False.
Proof.
  intros H1 H2. rewrite String.compare_antisym, H2 in H1. discriminate H1.
Qed.

Lemma str_lt_trans (a b c : value) : str_lt a b -> str_lt b c -> str_lt a c.
Proof.
  destruct a, b, c; simpl; try tauto. apply string_compare_lt_trans.
Qed.

Lemma str_lt_asym (a b : value) : str_lt a b -> str_lt b a -> False.
Proof.
  destruct a, b; simpl; try tauto. apply string_compare_lt_asym.
Qed.

Lemma group_keys_sorted (k : Series) :
  Forall is_str k -> StronglySorted str_lt (group_keys k).
Proof.
  intros Hk. unfold group_keys. apply isort_sorted; [exact str_lt_trans |].
  pose proof (NoDup_nodup value_eq_dec k) as ND.
  apply NoDup_iff_ForallOrdPairs in ND. revert ND. apply ForallOrdPairs_impl_In.
  rewrite Forall_forall in Hk.
  intros x y Hx Hy Hne. apply nodup_In in Hx, Hy.
  destruct (Hk x Hx) as [s ->], (Hk y Hy) as [t ->].
  assert (Hst : s <> t) by congruence.
  simpl. unfold String.leb. rewrite (String.compare_antisym t s).
  destruct (String.compare s t) eqn:E; simpl.
  - apply String.compare_eq_iff in E. contradiction.
  - split; [reflexivity | discriminate].
  - split; [discriminate | reflexivity].
Qed.

Lemma group_keys_perm (k k' : Series) :
  Forall is_str k -> Permutation k k' -> group_keys k = group_keys k'.
Proof.
  intros Hk HP.
  assert (Hk' : Forall is_str k').
  { rewrite Forall_forall in *. intros x Hx.
    apply Hk. exact (Permutation_in _ (Permutation_sym HP) Hx). }
  apply (sorted_unique str_lt); [exact str_lt_asym | | |].
  - now apply group_keys_sorted.
  - now apply group_keys_sorted.
  - intros x. rewrite !group_keys_In. split; apply Permutation_in;
      [exact HP | exact (Permutation_sym HP)].
Qed.

Lemma authors_of_str (p : JSONData) : Forall is_str (authors_of p).
Proof.
  unfold authors_of. apply Forall_forall. intros v Hv.
  apply in_map_iff in Hv as (a & <- & _). now eexists.
Qed.

Lemma labels_of_str (p : JSONData) : Forall is_str (labels_of p).
Proof.
  unfold labels_of. apply Forall_forall. intros v Hv.
  apply in_map_iff in Hv as (a & <- & _). now eexists.
Qed.

Lemma group_cell_perm (p q : JSONData) (a s : value) :
  Permutation p q ->
  group_cell (authors_of p) (labels_of p) a s = group_cell (authors_of q) (labels_of q) a s.
Proof.
  intros H. unfold group_cell, authors_of, labels_of. rewrite !combine_map.
  do 2 f_equal. apply Permutation_count_occ. now apply Permutation_map.
Qed.

Lemma author_totals_perm (p q : JSONData) :
  Permutation p q ->
  group_keys (authors_of p) = group_keys (authors_of q) ->
  author_totals (authors_of p) = author_totals (authors_of q).
Proof.
  intros H HA. unfold author_totals. rewrite HA. apply map_ext. intros a.
  assert (HP : Permutation (authors_of p) (authors_of q))
    by (unfold authors_of; now apply Permutation_map).
  now rewrite (proj1 (Permutation_count_occ value_eq_dec _ _) HP).
Qed.

Lemma author_tables_perm (libs : Libs) (p q : JSONData) :
  Permutation p q ->
  groupby_size_unstack (authors_of p) (labels_of p)
  = groupby_size_unstack (authors_of q) (labels_of q)
  /\ chart_table libs p = chart_table libs q.
Proof.
  intros H.
  assert (HA : group_keys (authors_of p) = group_keys (authors_of q)).
  { apply group_keys_perm; [apply authors_of_str |].
    unfold authors_of. now apply Permutation_map. }
  assert (HL : group_keys (labels_of p) = group_keys (labels_of q)).
  { apply group_keys_perm; [apply labels_of_str |].
    unfold labels_of. now apply Permutation_map. }
  split.
  - rewrite !groupby_size_unstack_table, HA, HL. apply table_of_ext.
    intros a _. apply map_ext. intros s. now apply group_cell_perm.
  - unfold chart_table, chart_columns, chart_index.
    rewrite (author_totals_perm p q H HA), HA, HL.
    apply table_of_ext. intros a _. apply map_ext. intros s. now apply group_cell_perm.
Qed.

(** X9. The counters, the daily series and the three tables of the author
    section do not depend on the order of the records in the batch. *)
Theorem aggregates_order_independent (libs : Libs) (p q : JSONData) (L L' : Locals) :
  Permutation p q ->
  analyser_locals libs p = Ok L -> analyser_locals libs q = Ok L' ->
  l_kpis L = l_kpis L'
  /\ mentions_over_time (l_evolution L) = mentions_over_time (l_evolution L')
  /\ author_sentiment_103 (l_authors L) = author_sentiment_103 (l_authors L')
  /\ author_sentiment (l_authors L) = author_sentiment (l_authors L')
  /\ top_authors_sentiment (l_authors L) = top_authors_sentiment (l_authors L').
Proof.
  intros HP H H'.
  destruct (author_section_Ok libs p L H) as (H1 & H2 & H3 & _).
  destruct (author_section_Ok libs q L' H') as (H1' & H2' & H3' & _).
  apply analyser_locals_Ok in H as (_ & _ & H).
  apply analyser_locals_Ok in H' as (_ & _ & H').
  apply report_of_Ok in H as (Hk & Hev & _).
  apply report_of_Ok in H' as (Hk' & Hev' & _).
  destruct (author_tables_perm libs p q HP) as [HT HM].
  split; [rewrite Hk, Hk'; now apply kpis_of_perm |].
  split; [rewrite Hev, Hev'; apply (daily_series_perm p q HP) |].
  split; [now rewrite H1, H1', HT |].
  split; [now rewrite H2, H2', HT |].
  now rewrite H3, H3', HM.
Qed.

Lemma aggregates_order_independent_witness :
  exists L L',
    analyser_locals stub_libs example_batch = Ok L
    /\ analyser_locals stub_libs (rev example_batch) = Ok L'
    /\ l_kpis L = l_kpis L'
    /\ mentions_over_time (l_evolution L) = mentions_over_time (l_evolution L').
Proof.
  destruct (analyser_locals stub_libs example_batch) as [L | e] eqn:E.
  - destruct (analyser_locals stub_libs (rev example_batch)) as [L' | e'] eqn:E'.
    + exists L, L'. split; [reflexivity |]. split; [reflexivity |].
      destruct (aggregates_order_independent stub_libs example_batch (rev example_batch)
                  L L' (Permutation_rev example_batch) E E') as (H1 & H2 & _).
      split; [exact H1 | exact H2].
    + exfalso. vm_compute in E'. discriminate E'.
  - exfalso. vm_compute in E. discriminate E.
Defined.

(** ** The Total column (line 104) *)

(** X10. After line 104 the table has a column Total that holds, for every
    author, the number of records of that author. When a record of the
    batch is itself labelled Total, that label's column is overwritten by
    these totals; otherwise the column is appended on the right. *)
Theorem total_column_holds_mentions (libs : Libs) (p : JSONData) (L : Locals) :
  analyser_locals libs p = Ok L ->
  let T103 := author_sentiment_103 (l_authors L) in
  let T := author_sentiment (l_authors L) in
  (exists j,
     position "Total" (col_names T) = Some j
     /\ forall v cells, In (v, cells) (rows T) ->
          exists x, v = VStr x /\ (exists a, In a p /\ author a = x)
                    /\ nth j cells VNaN = VInt (Z.of_nat (mentions x p)))
  /\ ((exists a, In a p /\ sentiment_label a = "Total"%string) ->
      col_names T = col_names T103)
  /\ (~ (exists a, In a p /\ sentiment_label a = "Total"%string) ->
      col_names T = col_names T103 ++ ["Total"%string]).
Proof.
  intros H. destruct (author_section_Ok libs p L H) as (H103 & HT & _).
  cbv zeta. rewrite HT, H103. clear H103 HT.
  rewrite groupby_size_unstack_table, sum_axis1_table_of, setitem_table_of.
  set (names := map label (group_keys (labels_of p))).
  set (cells := fun a => map (group_cell (authors_of p) (labels_of p) a)
                             (group_keys (labels_of p))).
  assert (Hlen : forall a, List.length (cells a) = List.length names).
  { intros a. unfold cells, names. now rewrite !length_map. }
  assert (Hsum : forall x,
             VInt (fold_right Z.add 0%Z (map as_int (cells (VStr x))))
             = VInt (Z.of_nat (mentions x p))).
  { intros x. unfold cells.
    now rewrite (group_row_total _ _ _ (lengths_agree p)), count_occ_authors. }
  destruct (position "Total" names) as [j |] eqn:E.
  - split; [| split].
    + exists j. cbn [col_names table_of]. split; [exact E |].
      intros v cs Hin.
      unfold table_of in Hin. cbn [rows] in Hin.
      apply in_map_iff in Hin as (v' & [= <- <-] & Hv).
      apply authors_keys in Hv as (a & Ha & ->).
      exists (author a). split; [reflexivity |]. split; [eauto |].
      apply position_Some in E as [Hj _].
      rewrite <- (Hlen (VStr (author a))) in Hj.
      rewrite (nth_set_nth _ _ _ _ Hj). apply Hsum.
    + reflexivity.
    + intros Hno. exfalso. apply Hno.
      apply (label_names p "Total"). apply position_Some in E as [Hj <-].
      now apply nth_In.
  - split; [| split].
    + exists (List.length names). cbn [col_names table_of].
      split; [now apply position_snoc |].
      intros v cs Hin.
      unfold table_of in Hin. cbn [rows] in Hin.
      apply in_map_iff in Hin as (v' & [= <- <-] & Hv).
      apply authors_keys in Hv as (a & Ha & ->).
      exists (author a). split; [reflexivity |]. split; [eauto |].
      rewrite nth_snoc_at by apply Hlen. apply Hsum.
    + intros Hyes. exfalso. apply (proj1 (position_None _ _) E).
      now apply (label_names p "Total").
    + reflexivity.
Qed.

Lemma total_column_holds_mentions_witness :
  exists L,
    analyser_locals stub_libs total_label_batch = Ok L
    /\ col_names (author_sentiment (l_authors L))
       = col_names (author_sentiment_103 (l_authors L)).
Proof.
  destruct (analyser_locals stub_libs total_label_batch) as [L | e] eqn:E.
  - exists L. split; [reflexivity |].
    destruct (total_column_holds_mentions stub_libs total_label_batch L E) as (_ & H & _).
    apply H.
    exists (mkArticle "Bob" "..." 1700000200 "Total" "t3" "https://a/3" []).
    split; [| reflexivity]. right. right. left. reflexivity.
  - exfalso. vm_compute in E. discriminate E.
Defined.

(** ** What the document quotes *)

Lemma occurs_in_refl (x : string) : occurs_in x x.
Proof. exists EmptyString, EmptyString. simpl. now rewrite append_nil_r. Qed.

Lemma occurs_in_trans (x y z : string) : occurs_in x y -> occurs_in y z -> occurs_in x z.
Proof.
  intros (a & b & ->) (c & d & ->).
  exists (c ++ a)%string, (b ++ d)%string. now rewrite !append_assoc.
Qed.

Lemma occurs_in_app_l (x a b : string) : occurs_in x a -> occurs_in x (a ++ b)%string.
Proof.
  intros (c & d & ->). exists c, (d ++ b)%string. now rewrite !append_assoc.
Qed.

Lemma occurs_in_app_r (x a b : string) : occurs_in x b -> occurs_in x (a ++ b)%string.
Proof.
  intros (c & d & ->). exists (a ++ c)%string, d. now rewrite !append_assoc.
Qed.

Lemma occurs_in_concat (sep x : string) (l : list string) :
  In x l -> occurs_in x (String.concat sep l).
Proof.
  induction l as [| y l IH]; [contradiction |].
  intros [-> | Hin].
  - destruct l; simpl; [apply occurs_in_refl | apply occurs_in_app_l, occurs_in_refl].
  - specialize (IH Hin). destruct l as [| z l]; [contradiction |].
    change (String.concat sep (y :: z :: l))
      with (y ++ sep ++ String.concat sep (z :: l))%string.
    now apply occurs_in_app_r, occurs_in_app_r.
Qed.

Lemma occurs_in_summary_sentence (k : string) (ks : list string) :
  In k ks -> occurs_in k (summary_sentence ks).
Proof.
  intros Hin.
  assert (Hne : ks <> []) by (intros ->; contradiction).
  destruct (exists_last Hne) as (ks' & z & ->).
  rewrite summary_sentence_snoc.
  apply in_app_or in Hin as [Hin | [<- | []]].
  - apply occurs_in_trans with (join ", " ks').
    + now apply occurs_in_concat.
    + apply occurs_in_concat. right. left. reflexivity.
  - apply occurs_in_concat. do 3 right. left. reflexivity.
Qed.

Lemma occurs_in_html_template (kpis : Kpis) (e k s a t : string) :
  Forall (fun x => occurs_in x (html_template kpis e k s a t)) [e; k; s; a; t].
Proof.
  unfold html_template.
  repeat apply Forall_cons; try apply Forall_nil; apply occurs_in_concat.
  - apply (nth_In (html_pieces kpis e k s a t) EmptyString (n := 105)). simpl. lia.
  - apply (nth_In (html_pieces kpis e k s a t) EmptyString (n := 126)). simpl. lia.
  - apply (nth_In (html_pieces kpis e k s a t) EmptyString (n := 145)). simpl. lia.
  - apply (nth_In (html_pieces kpis e k s a t) EmptyString (n := 161)). simpl. lia.
  - apply (nth_In (html_pieces kpis e k s a t) EmptyString (n := 174)). simpl. lia.
Qed.

Lemma keywords_of_In (libs : Libs) (p : JSONData) (k : string) :
  In k (keywords_of libs p)
  <-> exists a raw, In a p /\ In raw (keywords a) /\ k = str_lower libs raw.
Proof.
  unfold keywords_of. rewrite in_flat_map. split.
  - intros (a & Ha & Hk). apply in_map_iff in Hk as (raw & <- & Hraw). eauto.
  - intros (a & raw & Ha & Hraw & ->). exists a. split; [exact Ha |].
    now apply in_map.
Qed.

(** X11. Every keyword of the summary is the lowercased form of a keyword
    of the batch, and it stands in the sentence and in the document as it
    is: nothing is escaped. *)
Theorem document_quotes_keywords (libs : Libs) (p : JSONData) (L : Locals) (k : string) :
  analyser_locals libs p = Ok L ->
  In k (top_keywords (l_keywords L)) ->
  (exists a raw, In a p /\ In raw (keywords a) /\ k = str_lower libs raw)
  /\ occurs_in k (summary_text (l_keywords L))
  /\ occurs_in k (html_report L).
Proof.
  intros H Hin. apply analyser_locals_Ok in H as (_ & _ & H).
  apply report_of_Ok in H as (_ & _ & _ & Hkw & _ & _ & Hhtml).
  destruct (keywords_of libs p) as [| k0 ks] eqn:E.
  { rewrite keyword_summary_nil in Hkw. apply Ok_inj in Hkw.
    rewrite <- Hkw in Hin. contradiction. }
  apply keyword_summary_Ok in Hkw as (_ & _ & _ & Htop & _ & Hsum); [| discriminate].
  assert (Hs : occurs_in k (summary_text (l_keywords L))).
  { rewrite Hsum. now apply occurs_in_summary_sentence. }
  split; [| split; [exact Hs |]].
  - apply keywords_of_In. rewrite E.
    rewrite Htop in Hin. unfold most_common, Counter in Hin.
    rewrite <- firstn_map in Hin. apply in_firstn in Hin.
    now apply (proj1 (ranked_keys string_dec _ _)) in Hin.
  - apply occurs_in_trans with (summary_text (l_keywords L)); [exact Hs |].
    rewrite Hhtml.
    pose proof (occurs_in_html_template (l_kpis L)
                  (evolution_mentions_b64 (l_evolution L))
                  (keywords_freq_b64 (l_keywords L)) (summary_text (l_keywords L))
                  (sentiments_auteurs_b64 (l_authors L)) (top_table (l_top L))) as HF.
    rewrite Forall_forall in HF. apply HF. do 2 right. left. reflexivity.
Qed.

Lemma document_quotes_keywords_witness :
  exists L,
    analyser_locals stub_libs markup_batch = Ok L
    /\ occurs_in "<b>x</b>" (html_report L).
Proof.
  destruct (analyser_locals stub_libs markup_batch) as [L | e] eqn:E.
  - exists L. split; [reflexivity |].
    apply (document_quotes_keywords stub_libs markup_batch L "<b>x</b>" E).
    vm_compute in E. apply Ok_inj in E. rewrite <- E. left. reflexivity.
  - exfalso. vm_compute in E. discriminate E.
Defined.

(** ** Keywords that differ by case *)

Lemma map_flat_map_comm {A B C : Type} (f : B -> C) (g : A -> list B) (l : list A) :
  flat_map (fun a => map f (g a)) l = map f (flat_map g l).
Proof.
  induction l as [| a l IH]; simpl; [reflexivity |]. now rewrite map_app, IH.
Qed.

(** X12. The counter merges the keywords that differ by case only: the
    count of an entry is the number of keywords of the batch, as submitted,
    whose lowercased form it is; no entry has count zero. *)
Theorem counter_merges_case (libs : Libs) (p : JSONData) (L : Locals)
    (k : string) (n : nat) :
  analyser_locals libs p = Ok L ->
  In (k, n) (counter (l_keywords L)) ->
  n = raw_count libs k p /\ 0 < n.
Proof.
  intros H Hin. apply analyser_locals_Ok in H as (_ & _ & H).
  apply report_of_Ok in H as (_ & _ & _ & Hkw & _).
  destruct (keywords_of libs p) as [| k0 ks] eqn:E.
  { rewrite keyword_summary_nil in Hkw. apply Ok_inj in Hkw.
    rewrite <- Hkw in Hin. contradiction. }
  apply keyword_summary_Ok in Hkw as (_ & _ & Hc & _); [| discriminate].
  rewrite Hc, <- E in Hin. unfold Counter in Hin.
  apply (proj2 (tally_spec string_dec _)) in Hin as [Hk ->].
  split.
  - unfold keywords_of, raw_count. rewrite map_flat_map_comm.
    apply count_occ_map_filter. intros raw. apply String.eqb_eq.
  - now apply count_occ_In.
Qed.

Lemma counter_merges_case_witness :
  exists L,
    analyser_locals stub_libs example_batch = Ok L
    /\ raw_count stub_libs "ai" example_batch = 2.
Proof.
  destruct (analyser_locals stub_libs example_batch) as [L | e] eqn:E.
  - exists L. split; [reflexivity |].
    symmetry.
    apply (counter_merges_case stub_libs example_batch L "ai" 2 E).
    vm_compute in E. apply Ok_inj in E. rewrite <- E. left. reflexivity.
  - exfalso. vm_compute in E. discriminate E.
Defined.

(** ** Every record is counted once *)

Lemma count_occ_sum {A : Type} (eq_dec : forall a b : A, {a = b} + {a <> b})
    (l keys : list A) :
  NoDup keys -> (forall x, In x l -> In x keys) ->
  list_sum (map (count_occ eq_dec l) keys) = List.length l.
Proof.
  intros ND. induction l as [| x l IH]; intros Hin.
  - simpl. apply list_sum_zero.
  - rewrite (map_ext (count_occ eq_dec (x :: l))
               (fun a => (if eq_dec x a then 1 else 0) + count_occ eq_dec l a)).
    + rewrite list_sum_map_add, IH by (intros y Hy; apply Hin; now right).
      rewrite (list_sum_indicator eq_dec x keys ND) by (apply Hin; now left).
      reflexivity.
    + intros a. simpl. destruct (eq_dec x a); reflexivity.
Qed.

Lemma sum_of_nat {A : Type} (f : A -> nat) (l : list A) :
  fold_right Z.add 0%Z (map (fun a => Z.of_nat (f a)) l) = Z.of_nat (list_sum (map f l)).
Proof.
  induction l as [| a l IH]; simpl; [reflexivity |]. rewrite IH. lia.
Qed.

Lemma list_sum_firstn (n : nat) (l : list nat) : list_sum (firstn n l) <= list_sum l.
Proof.
  rewrite <- (firstn_skipn n l) at 2. rewrite list_sum_app. lia.
Qed.

Lemma value_counts_sum (s : Series) : list_sum (map snd (value_counts s)) = List.length s.
Proof. apply (ranked_spec value_eq_dec s). Qed.

(** X13. Every record is counted once: the number of mentions, the sum
    of the daily series and the sum of all cells of the table of line 103
    are the size of the batch, and the counts of the table of top authors
    add up to at most that. *)
Theorem every_record_counted_once (libs : Libs) (p : JSONData) (L : Locals) :
  analyser_locals libs p = Ok L ->
  total_mentions (l_kpis L) = List.length p
  /\ list_sum (map snd (mentions_over_time (l_evolution L))) = List.length p
  /\ fold_right Z.add 0%Z
       (map (fun r => fold_right Z.add 0%Z (map as_int (snd r)))
            (rows (author_sentiment_103 (l_authors L))))
     = Z.of_nat (List.length p)
  /\ list_sum (map snd (top_rows (l_top L))) <= List.length p.
Proof.
  intros H. destruct (author_section_Ok libs p L H) as (H103 & _ & _ & Htop).
  apply analyser_locals_Ok in H as (_ & _ & H).
  apply report_of_Ok in H as (Hk & Hev & _).
  split; [now rewrite Hk |]. split; [| split].
  - rewrite Hev. cbn [mentions_over_time]. unfold daily_series, sort_index.
    rewrite (list_sum_perm _ _ (Permutation_map snd (isort_perm by_label _))).
    rewrite value_counts_sum. unfold periods_of. apply length_map.
  - rewrite H103, groupby_size_unstack_table. unfold table_of. cbn [rows].
    rewrite map_map. cbn [snd].
    rewrite (map_ext _ (fun a => Z.of_nat (count_occ value_eq_dec (authors_of p) a)))
      by (intros a; apply (group_row_total _ _ _ (lengths_agree p))).
    rewrite sum_of_nat, count_occ_sum.
    + unfold authors_of. now rewrite length_map.
    + apply group_keys_NoDup.
    + intros x. apply group_keys_In.
  - rewrite Htop. unfold ranking_of. cbn [top_rows].
    rewrite <- firstn_map.
    etransitivity; [apply list_sum_firstn |].
    rewrite value_counts_sum. unfold authors_of. now rewrite length_map.
Qed.

Lemma every_record_counted_once_witness :
  exists L,
    analyser_locals stub_libs example_batch = Ok L
    /\ total_mentions (l_kpis L) = 3
    /\ list_sum (map snd (mentions_over_time (l_evolution L))) = 3.
Proof.
  destruct (analyser_locals stub_libs example_batch) as [L | e] eqn:E.
  - exists L. split; [reflexivity |].
    destruct (every_record_counted_once stub_libs example_batch L E) as (H1 & H2 & _).
    split; [exact H1 | exact H2].
  - exfalso. vm_compute in E. discriminate E.
Defined.

(** ** What the document shows *)

Lemma occurs_in_segment (l : list string) (i n : nat) :
  occurs_in (String.concat EmptyString (firstn n (skipn i l)))
            (String.concat EmptyString l).
Proof.
  exists (String.concat EmptyString (firstn i l)),
         (String.concat EmptyString (skipn n (skipn i l))).
  now rewrite <- !concat_empty_app, !firstn_skipn.
Qed.

Lemma html_template_segment (kpis : Kpis) (e k s a t : string) (i n : nat) :
  occurs_in (String.concat EmptyString (firstn n (skipn i (html_pieces kpis e k s a t))))
            (html_template kpis e k s a t).
Proof. apply occurs_in_segment. Qed.

(** X14. The document of a successful run is the one stored for
    [get_rapport]; it shows the four counters of the response, the three
    image payloads as [data:] URIs, the summary paragraph and the table of
    authors. *)
Theorem document_shows_results (libs : Libs) (p : JSONData) (fs fs' : FileSystem)
    (r : Response) :
  analyser_json libs p fs = (Ok r, fs') ->
  get_rapport fs' = Some (resp_html_report r)
  /\ exists L,
       analyser_locals libs p = Ok L
       /\ Forall (fun piece => occurs_in piece (resp_html_report r))
            [ "><h3>" ++ str_of_nat (total_mentions (resp_kpis r))
                ++ "</h3><p>Mentions totales</p></div>";
              "><h3>" ++ str_of_nat (kpi_positive (resp_kpis r))
                ++ "</h3><p>Positives</p></div>";
              "><h3>" ++ str_of_nat (kpi_negative (resp_kpis r))
                ++ "</h3><p>Négatives</p></div>";
              "><h3>" ++ str_of_nat (kpi_neutral (resp_kpis r))
                ++ "</h3><p>Neutres</p></div>";
              "data:image/png;base64," ++ evolution_mentions_b64 (l_evolution L) ++ dq;
              "data:image/png;base64," ++ keywords_freq_b64 (l_keywords L) ++ dq;
              "        <p>" ++ summary_text (l_keywords L) ++ "</p>";
              "data:image/png;base64," ++ sentiments_auteurs_b64 (l_authors L) ++ dq;
              top_table (l_top L) ]%string.
Proof.
  intros H. unfold analyser_json in H.
  destruct (analyser_locals libs p) as [L | e] eqn:E; [| discriminate].
  injection H as <- <-. cbn [resp_html_report resp_kpis].
  split.
  { unfold get_rapport, write_file. now rewrite String.eqb_refl. }
  exists L. split; [reflexivity |].
  apply analyser_locals_Ok in E as (_ & _ & E).
  apply report_of_Ok in E as (_ & _ & _ & _ & _ & _ & ->).
  set (K := l_kpis L). set (e1 := evolution_mentions_b64 (l_evolution L)).
  set (e2 := keywords_freq_b64 (l_keywords L)). set (s := summary_text (l_keywords L)).
  set (e3 := sentiments_auteurs_b64 (l_authors L)). set (t := top_table (l_top L)).
  repeat apply Forall_cons; try apply Forall_nil.
  - exact (html_template_segment K e1 e2 s e3 t 64 3).
  - exact (html_template_segment K e1 e2 s e3 t 72 3).
  - exact (html_template_segment K e1 e2 s e3 t 80 3).
  - exact (html_template_segment K e1 e2 s e3 t 88 3).
  - exact (html_template_segment K e1 e2 s e3 t 104 3).
  - exact (html_template_segment K e1 e2 s e3 t 125 3).
  - exact (html_template_segment K e1 e2 s e3 t 144 3).
  - exact (html_template_segment K e1 e2 s e3 t 160 3).
  - exact (html_template_segment K e1 e2 s e3 t 174 1).
Qed.

Lemma document_shows_results_witness :
  exists r fs',
    analyser_json stub_libs example_batch no_files = (Ok r, fs')
    /\ get_rapport fs' = Some (resp_html_report r).
Proof.
  destruct (analyser_json stub_libs example_batch no_files) as [[r | e] fs'] eqn:E.
  - exists r, fs'. split; [reflexivity |].
    exact (proj1 (document_shows_results stub_libs example_batch no_files fs' r E)).
  - exfalso. vm_compute in E. discriminate E.
Defined.
